(** * Extraction pipeline of the product scraper: a shallow embedding

    This development embeds [src/scraper_makro.py] (class [Scraper]): the
    path resolver [get_value], the field handlers, the measurement
    normaliser [parser_measuring], the unit-price and promotion handlers and
    the per-field loop of [parser_product_details].

    Modelling conventions.
    - A decoded JSON document is a [value]; a Python [dict] is an association
      list in insertion order with pairwise distinct keys.
    - Python exceptions are the constructors of [exn]; code that may raise
      lives in the error monad [res].
    - [float] is IEEE-754 binary64, computed with the Standard Library's
      [SpecFloat] operations at precision 53 and exponent bound 1024.
    - [str] is a [string] whose characters are the code points U+0000 to
      U+00FF; on that range the regular-expression class \d is 0-9.
    - Resource exhaustion (MemoryError, recursion depth) is not modelled. *)

From Stdlib Require Import ZArith List String Ascii Bool Lia.
From Stdlib Require Import SpecFloat.
Import ListNotations.

#[local] Set Warnings "-register-all".

Local Open Scope string_scope.
Local Open Scope list_scope.
Local Open Scope Z_scope.

(** ** Exceptions and the error monad *)

Inductive exn : Type :=
| TypeError
| ValueError
| ZeroDivisionError
| AttributeError
| KeyError
| IndexError
| OverflowError.

Inductive res (A : Type) : Type :=
| Ok (a : A)
| Raise (e : exn).

Arguments Ok {A} a.
Arguments Raise {A} e.

Definition bind {A B : Type} (c : res A) (k : A -> res B) : res B :=
  match c with
  | Ok a => k a
  | Raise e => Raise e
  end.

Notation "x <- c ;; k" := (bind c (fun x => k))
  (at level 61, c at next level, right associativity).
Notation "' p <- c ;; k" := (bind c (fun x => let p := x in k))
  (at level 61, p pattern, c at next level, right associativity).

Definition exn_eqb (a b : exn) : bool :=
  match a, b with
  | TypeError, TypeError | ValueError, ValueError
  | ZeroDivisionError, ZeroDivisionError | AttributeError, AttributeError
  | KeyError, KeyError | IndexError, IndexError
  | OverflowError, OverflowError => true
  | _, _ => false
  end.

(** [except (ZeroDivisionError, TypeError)]: the two classes the handlers
    catch. *)
Definition caught (e : exn) : bool :=
  match e with
  | ZeroDivisionError | TypeError => true
  | _ => false
  end.

Definition returns {A : Type} (c : res A) : bool :=
  match c with Ok _ => true | Raise _ => false end.

(** ** Values *)

Definition float : Type := spec_float.

Inductive value : Type :=
| VNone
| VBool (b : bool)
| VInt (z : Z)
| VFloat (f : float)
| VStr (s : string)
| VList (l : list value)
| VDict (d : list (string * value)).

Definition dict : Type := list (string * value).

(** *** Dictionaries in insertion order *)

Fixpoint dict_lookup (k : string) (d : dict) : option value :=
  match d with
  | [] => None
  | (k', v) :: d' => if String.eqb k k' then Some v else dict_lookup k d'
  end.

(** [d[k] = v]: overwrite in place, or append. *)
Fixpoint dict_set (k : string) (v : value) (d : dict) : dict :=
  match d with
  | [] => [(k, v)]
  | (k', v') :: d' =>
      if String.eqb k k' then (k', v) :: d' else (k', v') :: dict_set k v d'
  end.

(** [d.get(k, default)] *)
Definition dict_get (d : dict) (k : string) (default : value) : value :=
  match dict_lookup k d with
  | Some v => v
  | None => default
  end.

Definition dict_mem (k : string) (d : dict) : bool :=
  match dict_lookup k d with Some _ => true | None => false end.

(** *** Binary64 helpers *)

Definition prec : Z := 53.
Definition emax : Z := 1024.

Definition fmul : float -> float -> float := SFmul prec emax.
Definition fdiv : float -> float -> float := SFdiv prec emax.
Definition fsub : float -> float -> float := SFsub prec emax.

Definition f_is_zero (f : float) : bool :=
  match f with S754_zero _ => true | _ => false end.

Definition f_is_nan (f : float) : bool :=
  match f with S754_nan => true | _ => false end.

(** Nearest binary64 to the integer [n]; infinite when out of range. *)
Definition float_of_Z_raw (n : Z) : float := binary_normalize prec emax n 0 false.

(** Nearest binary64 to [(-1)^s * n / d] for [d > 0]. *)
Definition float_of_ratio (s : bool) (n : Z) (d : positive) : float :=
  match n with
  | Zpos p => fdiv (S754_finite s p 0) (S754_finite false d 0)
  | _ => S754_zero s
  end.

(** Conversion of a Python [int], as in [PyLong_AsDouble]. *)
Definition float_of_int (n : Z) : res float :=
  match float_of_Z_raw n with
  | S754_infinity _ => Raise OverflowError
  | f => Ok f
  end.

(** Exact comparison of an [int] with a [float]. *)
Definition int_float_eqb (n : Z) (f : float) : bool :=
  match f with
  | S754_zero _ => n =? 0
  | S754_finite s m e =>
      let sm := if s then Z.neg m else Z.pos m in
      if 0 <=? e then n =? sm * 2 ^ e
      else sm =? n * 2 ^ (- e)
  | _ => false
  end.

(** *** Truthiness *)

Definition truthy (v : value) : bool :=
  match v with
  | VNone => false
  | VBool b => b
  | VInt z => negb (z =? 0)
  | VFloat f => negb (f_is_zero f)
  | VStr s => negb (String.eqb s EmptyString)
  | VList l => match l with [] => false | _ => true end
  | VDict d => match d with [] => false | _ => true end
  end.

Definition is_none (v : value) : bool :=
  match v with VNone => true | _ => false end.

Definition is_dict (v : value) : bool :=
  match v with VDict _ => true | _ => false end.


(** [isinstance(v, (int, float))]; [bool] is a subclass of [int]. *)
Definition is_int_or_float (v : value) : bool :=
  match v with
  | VBool _ | VInt _ | VFloat _ => true
  | _ => false
  end.

(** *** Numbers *)

Inductive num : Type :=
| NInt (z : Z)
| NFloat (f : float).

Definition as_num (v : value) : option num :=
  match v with
  | VBool b => Some (NInt (if b then 1 else 0))
  | VInt z => Some (NInt z)
  | VFloat f => Some (NFloat f)
  | _ => None
  end.

Definition num_eqb (a b : num) : bool :=
  match a, b with
  | NInt x, NInt y => x =? y
  | NInt x, NFloat f => int_float_eqb x f
  | NFloat f, NInt y => int_float_eqb y f
  | NFloat f, NFloat g => SFeqb f g
  end.

Definition is_nan_value (v : value) : bool :=
  match v with VFloat f => f_is_nan f | _ => false end.

(** *** Equality [a == b]

    Containers compare their elements with "identical or equal".  The JSON
    decoder returns one shared object for every NaN literal, so inside a
    container a NaN is found identical to a NaN; at top level [==] on floats
    is the IEEE comparison. *)
Fixpoint py_eq (a b : value) {struct a} : bool :=
  match a, b with
  | VNone, VNone => true
  | VStr s, VStr t => String.eqb s t
  | VList l, VList m =>
      (fix list_eq (l m : list value) {struct l} : bool :=
         match l, m with
         | [], [] => true
         | x :: l', y :: m' =>
             ((is_nan_value x && is_nan_value y) || py_eq x y) && list_eq l' m'
         | _, _ => false
         end) l m
  | VDict d, VDict d2 =>
      (Nat.eqb (List.length d) (List.length d2)) &&
      (fix dict_sub (d : dict) {struct d} : bool :=
         match d with
         | [] => true
         | (k, x) :: d' =>
             match dict_lookup k d2 with
             | Some y =>
                 ((is_nan_value x && is_nan_value y) || py_eq x y) && dict_sub d'
             | None => false
             end
         end) d
  | _, _ =>
      match as_num a, as_num b with
      | Some x, Some y => num_eqb x y
      | _, _ => false
      end
  end.

(** ** Arithmetic *)

Definition f_one : float := Eval vm_compute in float_of_Z_raw 1.
Definition f_zero : float := S754_zero false.

Definition to_float (n : num) : res float :=
  match n with
  | NInt z => float_of_int z
  | NFloat f => Ok f
  end.

Definition is_intlike (v : value) : option Z :=
  match v with
  | VBool b => Some (if b then 1 else 0)
  | VInt z => Some z
  | _ => None
  end.

Fixpoint str_repeat (n : nat) (s : string) : string :=
  match n with
  | O => ""
  | S n' => (s ++ str_repeat n' s)%string
  end.

Fixpoint list_repeat {A : Type} (n : nat) (l : list A) : list A :=
  match n with
  | O => []
  | S n' => l ++ list_repeat n' l
  end.

(** [a * b]: numbers, or a sequence repeated by an [int]. *)
Definition py_mul (a b : value) : res value :=
  match as_num a, as_num b with
  | Some (NInt x), Some (NInt y) => Ok (VInt (x * y))
  | Some x, Some y =>
      fx <- to_float x ;; fy <- to_float y ;; Ok (VFloat (fmul fx fy))
  | _, _ =>
      match a, is_intlike b, is_intlike a, b with
      | VStr s, Some n, _, _ => Ok (VStr (str_repeat (Z.to_nat n) s))
      | VList l, Some n, _, _ => Ok (VList (list_repeat (Z.to_nat n) l))
      | _, _, Some n, VStr s => Ok (VStr (str_repeat (Z.to_nat n) s))
      | _, _, Some n, VList l => Ok (VList (list_repeat (Z.to_nat n) l))
      | _, _, _, _ => Raise TypeError
      end
  end.

(** [a / b]: true division.  [int / int] is correctly rounded and raises
    OverflowError when the quotient is out of range. *)
Definition py_truediv (a b : value) : res value :=
  match as_num a, as_num b with
  | Some (NInt x), Some (NInt y) =>
      if y =? 0 then Raise ZeroDivisionError
      else
        match float_of_ratio (xorb (x <? 0) (y <? 0)) (Z.abs x) (Z.to_pos (Z.abs y)) with
        | S754_infinity _ => Raise OverflowError
        | f => Ok (VFloat f)
        end
  | Some x, Some y =>
      fx <- to_float x ;; fy <- to_float y ;;
      if f_is_zero fy then Raise ZeroDivisionError
      else Ok (VFloat (fdiv fx fy))
  | _, _ => Raise TypeError
  end.

(** [a - b] on numbers. *)
Definition py_sub (a b : value) : res value :=
  match as_num a, as_num b with
  | Some (NInt x), Some (NInt y) => Ok (VInt (x - y))
  | Some x, Some y =>
      fx <- to_float x ;; fy <- to_float y ;; Ok (VFloat (fsub fx fy))
  | _, _ => Raise TypeError
  end.

(** Nearest integer to [a / b] for [b > 0], ties to even. *)
Definition div_half_even (a b : Z) : Z :=
  let q := a / b in
  let r := a mod b in
  match 2 * r ?= b with
  | Lt => q
  | Gt => q + 1
  | Eq => if Z.even q then q else q + 1
  end.

(** [round(x, 2)] on a float: the exact value is rounded to two decimals,
    ties to even, and the decimal is converted back to the nearest float. *)
Definition round2_float (f : float) : float :=
  match f with
  | S754_finite s m e =>
      if 0 <=? e then f
      else float_of_ratio s (div_half_even (Z.pos m * 100) (2 ^ (- e))) 100
  | _ => f
  end.

(** [round(v, 2)] *)
Definition py_round2 (v : value) : res value :=
  match v with
  | VFloat f => Ok (VFloat (round2_float f))
  | VInt z => Ok (VInt z)
  | VBool b => Ok (VInt (if b then 1 else 0))
  | _ => Raise TypeError
  end.

(** ** Strings *)

Definition is_digit (c : ascii) : bool :=
  let n := nat_of_ascii c in (48 <=? n)%nat && (n <=? 57)%nat.

Definition digit_val (c : ascii) : Z := Z.of_nat (nat_of_ascii c) - 48.

(** [str.isspace] on U+0000..U+00FF. *)
Definition is_space (c : ascii) : bool :=
  let n := nat_of_ascii c in
  ((9 <=? n) && (n <=? 13) || (28 <=? n) && (n <=? 32)
   || (n =? 133) || (n =? 160))%nat.

(** The whitespace [float()] strips around its argument. *)
Definition is_float_space (c : ascii) : bool :=
  let n := nat_of_ascii c in
  ((9 <=? n) && (n <=? 13) || (n =? 32) || (n =? 133) || (n =? 160))%nat.

Definition lower_ascii (c : ascii) : ascii :=
  let n := nat_of_ascii c in
  if ((65 <=? n) && (n <=? 90)
      || (192 <=? n) && (n <=? 222) && negb (n =? 215))%nat
  then ascii_of_nat (n + 32) else c.

Fixpoint str_lower (s : string) : string :=
  match s with
  | EmptyString => EmptyString
  | String c s' => String (lower_ascii c) (str_lower s')
  end.

Fixpoint lstrip_by (p : ascii -> bool) (s : string) : string :=
  match s with
  | EmptyString => EmptyString
  | String c s' => if p c then lstrip_by p s' else s
  end.

Fixpoint rstrip_by (p : ascii -> bool) (s : string) : string :=
  match s with
  | EmptyString => EmptyString
  | String c s' =>
      match rstrip_by p s' with
      | EmptyString => if p c then EmptyString else String c EmptyString
      | t => String c t
      end
  end.

Definition strip_by (p : ascii -> bool) (s : string) : string :=
  rstrip_by p (lstrip_by p s).

(** [s.strip()] *)
Definition str_strip (s : string) : string := strip_by is_space s.

Fixpoint str_drop (n : nat) (s : string) : string :=
  match n, s with
  | O, _ => s
  | S n', String _ s' => str_drop n' s'
  | S _, EmptyString => EmptyString
  end.

(** [old in s] for strings. *)
Fixpoint is_substring (old s : string) : bool :=
  prefix old s ||
  match s with
  | EmptyString => false
  | String _ s' => is_substring old s'
  end.

(** [s.replace(old, new)] for a non-empty [old]; [skip] counts the
    characters of a match still to be passed over. *)
Fixpoint replace_from (old new : string) (skip : nat) (s : string) : string :=
  match s with
  | EmptyString => EmptyString
  | String c s' =>
      match skip with
      | S k => replace_from old new k s'
      | O =>
          if prefix old s
          then (new ++ replace_from old new (String.length old - 1) s')%string
          else String c (replace_from old new 0 s')
      end
  end.

Definition str_replace (old new s : string) : string := replace_from old new 0 s.

(** [sep.join(parts)] on strings. *)
Fixpoint str_join (sep : string) (parts : list string) : string :=
  match parts with
  | [] => ""
  | [p] => p
  | p :: ps => (p ++ sep ++ str_join sep ps)%string
  end.

(** [s.split()]: the maximal runs of non-whitespace; [cur] is the run being
    read, reversed. *)
Fixpoint split_ws_from (cur : list ascii) (s : string) : list string :=
  let flush :=
    match cur with
    | [] => []
    | _ => [string_of_list_ascii (rev cur)]
    end in
  match s with
  | EmptyString => flush
  | String c s' =>
      if is_space c then flush ++ split_ws_from [] s'
      else split_ws_from (c :: cur) s'
  end.

Definition str_split (s : string) : list string := split_ws_from [] s.

(** [re.sub(r'\d+', "", s)] *)
Fixpoint remove_digits (s : string) : string :=
  match s with
  | EmptyString => EmptyString
  | String c s' => if is_digit c then remove_digits s' else String c (remove_digits s')
  end.

(** The longest prefix of digits and what follows it. *)
Fixpoint span_digits (s : string) : string * string :=
  match s with
  | EmptyString => (EmptyString, EmptyString)
  | String c s' =>
      if is_digit c
      then let (ds, r) := span_digits s' in (String c ds, r)
      else (EmptyString, s)
  end.

Fixpoint digits_value (acc : Z) (s : string) : Z :=
  match s with
  | EmptyString => acc
  | String c s' => digits_value (10 * acc + digit_val c) s'
  end.

(** *** [float(s)] on a string

    Surrounding whitespace is stripped; underscores are accepted between two
    digits; what remains is an optionally signed [inf], [infinity] or [nan]
    (in any letter case) or a decimal literal with an optional exponent. *)

(** The underscore rule of numeric literals: each "_" follows a digit and
    precedes a digit.  [prev] is the character read before [s]. *)
Fixpoint strip_underscores (prev : ascii) (s : string) : option string :=
  match s with
  | EmptyString => if Ascii.eqb prev "_" then None else Some EmptyString
  | String c s' =>
      if Ascii.eqb c "_" then
        if is_digit prev then strip_underscores c s' else None
      else if Ascii.eqb prev "_" && negb (is_digit c) then None
      else option_map (String c) (strip_underscores c s')
  end.

Definition split_sign (s : string) : bool * string :=
  match s with
  | String "-" r => (true, r)
  | String "+" r => (false, r)
  | _ => (false, s)
  end.

(** Mantissa digits [D] and decimal exponent [E] of a literal: its value is
    [D * 10 ^ E]. *)
Definition parse_decimal (s : string) : option (Z * Z) :=
  let (ip, r1) := span_digits s in
  let (fp, r2) :=
    match r1 with
    | String "." r => span_digits r
    | _ => (EmptyString, r1)
    end in
  if String.eqb ip EmptyString && String.eqb fp EmptyString then None
  else
    let D := digits_value 0 (ip ++ fp)%string in
    let frac := Z.of_nat (String.length fp) in
    match r2 with
    | EmptyString => Some (D, - frac)
    | String c r3 =>
        if Ascii.eqb c "e" || Ascii.eqb c "E" then
          let (neg, r4) := split_sign r3 in
          let (ed, r5) := span_digits r4 in
          if String.eqb ed EmptyString then None
          else if String.eqb r5 EmptyString then
            let ev := digits_value 0 ed in
            Some (D, (if neg then - ev else ev) - frac)
          else None
        else None
    end.

(** Nearest binary64 to [(-1)^neg * D * 10 ^ E] for [D >= 0]. *)
Definition float_of_decimal (neg : bool) (D E : Z) : float :=
  if D =? 0 then S754_zero neg
  else if 0 <=? E then
    float_of_Z_raw ((if neg then - D else D) * 10 ^ E)
  else float_of_ratio neg D (Z.to_pos (10 ^ (- E))).

Definition float_of_string (s : string) : option float :=
  match strip_underscores zero (strip_by is_float_space s) with
  | None => None
  | Some u =>
      let (neg, body) := split_sign u in
      let low := str_lower body in
      if String.eqb low "inf" || String.eqb low "infinity"
      then Some (S754_infinity neg)
      else if String.eqb low "nan" then Some S754_nan
      else
        match parse_decimal body with
        | Some (D, E) => Some (float_of_decimal neg D E)
        | None => None
        end
  end.

(** [float(v)] *)
Definition py_float (v : value) : res value :=
  match v with
  | VFloat f => Ok (VFloat f)
  | VInt z => f <- float_of_int z ;; Ok (VFloat f)
  | VBool b => Ok (VFloat (if b then f_one else f_zero))
  | VStr s =>
      match float_of_string s with
      | Some f => Ok (VFloat f)
      | None => Raise ValueError
      end
  | _ => Raise TypeError
  end.

(** ** Generic object protocol *)

(** [key in obj] for a string [key]. *)
Definition py_contains (key : string) (obj : value) : res bool :=
  match obj with
  | VDict d => Ok (dict_mem key d)
  | VStr s => Ok (is_substring key s)
  | VList l => Ok (existsb (fun x => py_eq x (VStr key)) l)
  | _ => Raise TypeError
  end.

(** [obj[key]] for a string [key]. *)
Definition py_getitem (obj : value) (key : string) : res value :=
  match obj with
  | VDict d =>
      match dict_lookup key d with
      | Some v => Ok v
      | None => Raise KeyError
      end
  | _ => Raise TypeError
  end.

(** [obj.get(key, default)]: only a [dict] has the method. *)
Definition py_get (obj : value) (key : string) (default : value) : res value :=
  match obj with
  | VDict d => Ok (dict_get d key default)
  | _ => Raise AttributeError
  end.

(** [for x in obj]: the items the loop visits. *)
Definition py_iter (obj : value) : res (list value) :=
  match obj with
  | VList l => Ok l
  | VStr s => Ok (map (fun c => VStr (String c EmptyString)) (list_ascii_of_string s))
  | VDict d => Ok (map (fun kv => VStr (fst kv)) d)
  | _ => Raise TypeError
  end.

(** [s.strip()] as a method call on an arbitrary object. *)
Definition py_strip (v : value) : res string :=
  match v with
  | VStr s => Ok (str_strip s)
  | _ => Raise AttributeError
  end.

(** [s.replace(old, new)] as a method call on an arbitrary object. *)
Definition py_replace (v : value) (old new : string) : res string :=
  match v with
  | VStr s => Ok (str_replace old new s)
  | _ => Raise AttributeError
  end.

(** [" ".join(parts)]: every part must be a [str]. *)
Fixpoint as_strings (parts : list value) : res (list string) :=
  match parts with
  | [] => Ok []
  | VStr s :: ps => ss <- as_strings ps ;; Ok (s :: ss)
  | _ :: _ => Raise TypeError
  end.

(** Monadic traversal of a loop body over the visited items. *)
Fixpoint for_each {A S : Type} (body : S -> A -> res S) (xs : list A) (s : S) : res S :=
  match xs with
  | [] => Ok s
  | x :: xs' => s' <- body s x ;; for_each body xs' s'
  end.

(** ** Path Resolver *)

Definition empty : value := VStr EmptyString.

(** [Scraper.get_value]: the chain is consumed from the front. *)
Fixpoint get_value (obj : value) (chain : list string) {struct chain} : res value :=
  match chain with
  | [] => Ok empty
  | key :: chain' =>
      if negb (truthy obj) then Ok empty
      else
        present <- py_contains key obj ;;
        if present then
          match chain' with
          | _ :: _ => v <- py_getitem obj key ;; get_value v chain'
          | [] => py_getitem obj key
          end
        else Ok empty
  end.

(** [try: body except (ZeroDivisionError, TypeError): handler] *)
Definition try_except {A : Type} (body handler : res A) : res A :=
  match body with
  | Ok a => Ok a
  | Raise e => if caught e then handler else Raise e
  end.

(** [a or b] *)
Definition py_or (a b : value) : value := if truthy a then a else b.

(** ** Field Extractors *)

(** [Scraper._handle_category_in_supermarket] *)
Definition _handle_category_in_supermarket (val : value) : res value :=
  match val with
  | VList (first :: _) =>
      name <- py_get first "name" empty ;;
      s <- py_replace name " / " "/" ;;
      Ok (VStr s)
  | _ => Ok VNone
  end.

(** [Scraper._handle_brand] *)
Definition _handle_brand (val : value) : res value :=
  Ok (if truthy val then val else VStr "MAKRO").

(** [Scraper._handle_manufacturer] *)
Definition _handle_manufacturer (val : value) : res value :=
  if truthy val then
    name <- py_strip val ;;
    Ok (VDict [("name", VStr name); ("address", VNone)])
  else Ok VNone.

(** [Scraper._handle_is_weight_article].  [str(val)] of a value that is not
    a [str] starts with a digit, a sign, a bracket or one of the words None,
    True, False, inf, nan, so only a [str] can compare equal to "weight". *)
Definition _handle_is_weight_article (val : value) : res value :=
  match val with
  | VStr s =>
      Ok (if String.eqb (str_strip (str_lower s)) "weight" then VStr "WEIGHT" else VNone)
  | _ => Ok VNone
  end.

(** *** Measurement Normalizer *)

Definition bundle_selector_path : list string :=
  ["variants"; "0032"; "bundleSelector"; "0021"].

Definition net_content_volume_path : list string :=
  ["variants"; "0032"; "bundles"; "0021"; "contentData"; "netContentVolume"].

Definition net_piece_weight_path : list string :=
  ["variants"; "0032"; "bundles"; "0021"; "contentData"; "netPieceWeight"].

(** [re.sub(r'\\d+', "", format_value).strip()] *)
Definition format_token (format_value : value) : res value :=
  match format_value with
  | VStr s => Ok (VStr (str_strip (remove_digits s)))
  | _ => Raise TypeError
  end.

(** The unit conversion at the end of [parser_measuring]: the pair
    [(unit, value)] stored in the result. *)
Definition convert_measure (raw unit : value) : res (value * value) :=
  let scaled :=
    if truthy raw then py_truediv raw (VInt 1000) else Ok (VInt 0) in
  if py_eq unit (VStr "GRAM") then
    v <- scaled ;; Ok (VStr "KG", v)
  else if py_eq unit (VStr "ML") then
    v <- scaled ;; Ok (VStr "L", v)
  else if py_eq unit (VStr "KG") || py_eq unit (VStr "L") then
    Ok (unit, py_or raw (VInt 0))
  else
    Ok (py_or unit empty, py_or raw (VInt 0)).

(** [Scraper.parser_measuring] *)
Definition parser_measuring (value_dict result : value) : res value :=
  format_value <- get_value result bundle_selector_path ;;
  format_value <-
    (if truthy format_value then format_token format_value else Ok format_value) ;;
  other_value_dict <- get_value result net_content_volume_path ;;
  let value_dict := if truthy other_value_dict then other_value_dict else value_dict in
  raw <- py_get value_dict "value" VNone ;;
  unit <- py_get value_dict "uom" VNone ;;
  ' (u, v) <- convert_measure raw unit ;;
  Ok (VDict [("format", format_value); ("value", v); ("unit", u)]).

(** [Scraper._handle_measuring_unit] *)
Definition _handle_measuring_unit (val result : value) : res value :=
  if truthy val then parser_measuring val result
  else
    fallback_val <- get_value result net_piece_weight_path ;;
    if truthy fallback_val then parser_measuring fallback_val result
    else Ok VNone.

(** *** Ingredients *)

Definition ingredient_label : string := "Listado de ingredientes".

Definition collect_leaf (acc : list value) (leaf : value) : res (list value) :=
  text <- py_get leaf "label" VNone ;;
  Ok (if truthy text then acc ++ [text] else acc).

Definition collect_block (acc : list value) (data_dict : value) : res (list value) :=
  label <- py_get data_dict "label" VNone ;;
  if py_eq label (VStr ingredient_label) then
    leafs <- py_get data_dict "leafs" (VList []) ;;
    ls <- py_iter leafs ;;
    for_each collect_leaf ls acc
  else Ok acc.

(** [Scraper._handle_ingredients] *)
Definition _handle_ingredients (val : value) : res value :=
  blocks <- py_iter val ;;
  ingredients <- for_each collect_block blocks [] ;;
  match ingredients with
  | [] => Ok VNone
  | _ => ss <- as_strings ingredients ;; Ok (VStr (str_join " " ss))
  end.

(** *** Nutrition *)

(** The label table of [_handle_nutrition]; the accented letters are
    U+00E9, U+00ED and U+00FA. *)
Definition nutrition_fields : list (string * string) :=
  [ (("Valor energ" ++ String "233"%char "tico kcal")%string, "calories");
    (("Prote" ++ String "237"%char "nas")%string, "protein");
    ("Grasas", "fat");
    (("de los cuales az" ++ String "250"%char "cares")%string, "sugars");
    ("Hidratos de carbono", "carbohydrates");
    ("Fibra alimentaria", "fiber");
    ("de las cuales saturadas", "saturatedFattyAcids");
    ("Sal", "salt") ].

Fixpoint assoc_str (k : string) (l : list (string * string)) : option string :=
  match l with
  | [] => None
  | (k', v) :: l' => if String.eqb k k' then Some v else assoc_str k l'
  end.

(** [fields.get(label)]: a list or a dict is unhashable. *)
Definition fields_get (label : value) : res (option string) :=
  match label with
  | VStr s => Ok (assoc_str s nutrition_fields)
  | VList _ | VDict _ => Raise TypeError
  | _ => Ok None
  end.

(** [aux[0]] *)
Definition first_item (aux : value) : res value :=
  match aux with
  | VList (x :: _) => Ok x
  | VList [] => Raise IndexError
  | VStr (String c _) => Ok (VStr (String c EmptyString))
  | VStr EmptyString => Raise IndexError
  | VDict _ => Raise KeyError
  | _ => Raise TypeError
  end.

Definition nutrition_row (items : dict) (row : value) : res dict :=
  label <- py_get row "rowLabel" VNone ;;
  key <- fields_get label ;;
  match key with
  | Some key =>
      aux <- py_get row "cells" (VList []) ;;
      if truthy aux then
        data_dict <- first_item aux ;;
        match data_dict with
        | VDict d =>
            Ok (dict_set key
                  (VDict [("value", dict_get d "value" VNone);
                          ("unit", dict_get d "unitOfMeasure" VNone)])
                  items)
        | _ => Ok items
        end
      else Ok items
  | None => Ok items
  end.

(** [Scraper._handle_nutrition] *)
Definition _handle_nutrition (val : value) : res value :=
  match val with
  | VDict d =>
      rows <- py_iter (dict_get d "rows" (VList [])) ;;
      items <- for_each nutrition_row rows [] ;;
      Ok (VDict items)
  | _ => Ok VNone
  end.

(** *** Characteristics *)

(** [cell.get(key)] for a key obtained by iterating over [cell]. *)
Definition cell_get (cell key : value) : res value :=
  match cell, key with
  | VDict d, VStr k => Ok (dict_get d k VNone)
  | VDict _, _ => Ok VNone
  | _, _ => Raise AttributeError
  end.

Definition cell_part (cell : value) (acc : list string) (key : value) : res (list string) :=
  v <- cell_get cell key ;;
  if truthy v then s <- py_strip v ;; Ok (acc ++ [s]) else Ok acc.

(** The text of one cell: its non-empty values, stripped and space-joined. *)
Definition cell_text (cell : value) : res string :=
  keys <- py_iter cell ;;
  parts <- for_each (cell_part cell) keys [] ;;
  Ok (str_strip (str_join " " parts)).

Definition characteristics_cell (label : string) (acc : list string) (cell : value)
  : res (list string) :=
  text <- cell_text cell ;;
  Ok (if String.eqb text EmptyString then acc
      else acc ++ [(label ++ ": " ++ text)%string]).

Definition characteristics_row (acc : list string) (row : value) : res (list string) :=
  raw_label <- py_get row "rowLabel" empty ;;
  label <- py_strip raw_label ;;
  cells <- py_get row "cells" (VList []) ;;
  if String.eqb label EmptyString then Ok acc
  else
    cs <- py_iter cells ;;
    for_each (characteristics_cell label) cs acc.

(** [Scraper._handle_characteristics] *)
Definition _handle_characteristics (val : value) : res value :=
  match val with
  | VDict d =>
      let rows := dict_get d "rows" VNone in
      characteristics <-
        (if truthy rows then
           rs <- py_iter rows ;; for_each characteristics_row rs []
         else Ok []) ;;
      match characteristics with
      | [] => Ok VNone
      | _ => Ok (VStr (str_join " " (str_split (str_join ". " characteristics))))
      end
  | _ => Ok VNone
  end.

(** ** Promotion Evaluator *)

Definition selling_price_info : list string :=
  ["variants"; "0032"; "bundles"; "0021"; "stores"; "00057"; "sellingPriceInfo"].

Definition promotion_labels_path : list string :=
  selling_price_info ++ ["promotionLabels"].

Definition levels_path : list string :=
  selling_price_info ++ ["summaryDnrInfo"; "levels"].

(** [round(1.0 - val / shelf_price, 2)] *)
Definition percent_promotion (val shelf_price : value) : res value :=
  q <- py_truediv val shelf_price ;;
  d <- py_sub (VFloat f_one) q ;;
  py_round2 d.

(** The [unit_count] of [_handle_offer_price]. *)
Definition offer_unit_count (items : dict) : res value :=
  let measuringUnit := dict_get items "measuringUnit" (VDict []) in
  if negb (truthy measuringUnit) then Ok (VInt 1)
  else
    measure_val <- py_get measuringUnit "value" (VInt 1) ;;
    units <- py_float (dict_get items "units" (VInt 1)) ;;
    py_mul measure_val units.

(** [round(val / unit_count, 2)] *)
Definition unit_price_with_offer (val : value) (items : dict) : res value :=
  unit_count <- offer_unit_count items ;;
  q <- py_truediv val unit_count ;;
  py_round2 q.

(** [Scraper._handle_offer_price]: returns the value to store under
    "offerPrice" and the updated record. *)
Definition _handle_offer_price (val : value) (items : dict) (result : value)
  : res (value * dict) :=
  let items := dict_set "unitPriceWithOffer" VNone items in
  let items := dict_set "percentPromotion" VNone items in
  if py_eq val (dict_get items "price" VNone) then
    promo_labels <- get_value result promotion_labels_path ;;
    levels <- get_value result levels_path ;;
    if negb (truthy promo_labels) && negb (truthy levels) then Ok (VNone, items)
    else Ok (val, items)
  else
    items <-
      try_except
        (p <- percent_promotion val (dict_get items "price" (VInt 1)) ;;
         Ok (dict_set "percentPromotion" p items))
        (Ok items) ;;
    items <-
      try_except
        (p <- unit_price_with_offer val items ;;
         Ok (dict_set "unitPriceWithOffer" p items))
        (Ok items) ;;
    Ok (val, items).

(** ** Unit-Price Reconstructor *)

(** *** The weight token of a denomination

    [re.search] with the pattern
    [(\d+(?:\.\d+)?)x(\d+(?:\.\d+)?)([kK]?[gG])|(\d+(?:\.\d+)?)([kK]?[gG])].
    What must follow a number (an "x" or a unit letter) is neither a digit
    nor a dot, so at a given start only the longest number can lead to a
    match; the matcher reads numbers greedily and never needs to back up. *)

(** [\d+(?:\.\d+)?] at the start of [s]: the text matched and the rest. *)
Definition match_number (s : string) : option (string * string) :=
  let (ip, r) := span_digits s in
  if String.eqb ip EmptyString then None
  else
    match r with
    | String "." r' =>
        let (fp, r'') := span_digits r' in
        if String.eqb fp EmptyString then Some (ip, r)
        else Some ((ip ++ "." ++ fp)%string, r'')
    | _ => Some (ip, r)
    end.

Definition is_k (c : ascii) : bool := Ascii.eqb c "k" || Ascii.eqb c "K".
Definition is_g (c : ascii) : bool := Ascii.eqb c "g" || Ascii.eqb c "G".

(** [[kK]?[gG]] at the start of [s]. *)
Definition match_unit (s : string) : option (string * string) :=
  match s with
  | String c1 r1 =>
      if is_g c1 then Some (String c1 EmptyString, r1)
      else if is_k c1 then
        match r1 with
        | String c2 r2 =>
            if is_g c2 then Some (String c1 (String c2 EmptyString), r2) else None
        | EmptyString => None
        end
      else None
  | EmptyString => None
  end.

(** The groups of a match: 1, 2, 3 for a multi-pack, 4, 5 for a single
    pack. *)
Inductive weight_match : Type :=
| MultiPack (quantity weight unit : string)
| SinglePack (weight unit : string).

Definition match_multi (s : string) : option weight_match :=
  match match_number s with
  | Some (q, String "x" r1) =>
      match match_number r1 with
      | Some (w, r2) =>
          match match_unit r2 with
          | Some (u, _) => Some (MultiPack q w u)
          | None => None
          end
      | None => None
      end
  | _ => None
  end.

Definition match_single (s : string) : option weight_match :=
  match match_number s with
  | Some (w, r) =>
      match match_unit r with
      | Some (u, _) => Some (SinglePack w u)
      | None => None
      end
  | None => None
  end.

Definition match_here (s : string) : option weight_match :=
  match match_multi s with
  | Some m => Some m
  | None => match_single s
  end.

(** The leftmost match. *)
Fixpoint search_weight (s : string) : option weight_match :=
  match match_here s with
  | Some m => Some m
  | None =>
      match s with
      | EmptyString => None
      | String _ s' => search_weight s'
      end
  end.

(** [1000 if unit.lower() == 'kg' else 1] *)
Definition multiplier (unit : string) : value :=
  if String.eqb (str_lower unit) "kg" then VInt 1000 else VInt 1.

(** The local function [_extract_grams] of [_handle_kg_gross]. *)
Definition _extract_grams (denomination : value) : res value :=
  match denomination with
  | VStr s =>
      match search_weight s with
      | None => Ok (VInt 1000)
      | Some (MultiPack g1 g2 g3) =>
          quantity <- py_float (VStr g1) ;;
          weight <- py_float (VStr g2) ;;
          qw <- py_mul quantity weight ;;
          py_mul qw (multiplier g3)
      | Some (SinglePack g4 g5) =>
          weight <- py_float (VStr g4) ;;
          py_mul weight (multiplier g5)
      end
  | _ => Raise TypeError
  end.

Definition net_price_path : list string :=
  selling_price_info ++ ["basePriceData"; "pricePerUnit"; "netPrice"].

(** The body of the [try] block of [_handle_kg_gross]: the value assigned
    to [items["unitPrice"]]. *)
Definition unit_price_fallback (items : dict) : res value :=
  measure_val <-
    (if truthy (dict_get items "measuringUnit" VNone)
     then py_get (dict_get items "measuringUnit" (VDict [])) "value" (VInt 1)
     else Ok (VInt 1)) ;;
  units <- py_float (dict_get items "units" (VInt 1)) ;;
  unit_count <- py_mul measure_val units ;;
  let price_w_tax := dict_get items "priceWithTax" (VInt 0) in
  grams <- _extract_grams (dict_get items "denomination" VNone) ;;
  total <- py_mul price_w_tax (VInt 1000) ;;
  weight <- py_mul grams unit_count ;;
  q <- py_truediv total weight ;;
  py_round2 q.

(** [Scraper._handle_kg_gross]: returns the value to store under "kgGross",
    the updated record and the new value of the global [CALCULATED]. *)
Definition _handle_kg_gross (val : value) (items : dict) (CALCULATED : bool)
    (result : value) : res (value * dict * bool) :=
  if is_none val then
    alt_unit_price <- get_value result net_price_path ;;
    if is_int_or_float alt_unit_price then
      Ok (val, dict_set "unitPrice" alt_unit_price items, CALCULATED)
    else
      try_except
        (p <- unit_price_fallback items ;;
         Ok (val, dict_set "unitPrice" p items, true))
        (Ok (val, dict_set "unitPrice" VNone items, CALCULATED))
  else Ok (val, dict_set "unitPrice" val items, CALCULATED).

(** ** Record Assembler *)

Definition bundle : list string := ["variants"; "0032"; "bundles"; "0021"].
Definition store : list string := bundle ++ ["stores"; "00057"].

(** [fields_map], in declaration order. *)
Definition fields_map : list (string * list string) :=
  [ ("productIdInSupermarket", bundle ++ ["customerDisplayId"]);
    ("denomination", ["variants"; "0032"; "description"]);
    ("categoryInSupermarket", ["variants"; "0032"; "categories"]);
    ("brand", ["brandName"]);
    ("manufacturer", store ++ ["supplier"; "supplierName"]);
    ("description", bundle ++ ["details"; "longDescription"]);
    ("measuringUnit", bundle ++ ["contentData"; "weightPerPiece"]);
    ("units", bundle ++ ["selector"; "contentSize"]);
    ("priceWithTax", store ++ ["sellingPriceInfo"; "finalPrice"]);
    ("price", store ++ ["sellingPriceInfo"; "shelfPrice"]);
    ("offerPrice", store ++ ["sellingPriceInfo"; "basePrice"]);
    ("kgGross", store ++ ["sellingPriceInfo"; "kgGross"]);
    ("isWeightArticle", bundle ++ ["isWeightArticle"]);
    ("rawIngredients", bundle ++ ["details"; "features"]);
    ("nutritionInformation", bundle ++ ["details"; "nutritionalTable"]);
    ("characteristics", bundle ++ ["details"; "characteristicsTable"]);
    ("promotion", store ++ ["sellingPriceInfo"; "summaryDnrInfo"; "name"]) ].

(** A handler receives the raw value, the record in progress, the global
    flag and the document; it returns the value to store, the record and
    the flag. *)
Definition handler : Type := value -> dict -> bool -> value -> res (value * dict * bool).

Definition pure_handler (h : value -> res value) : handler :=
  fun val items flag _ => v <- h val ;; Ok (v, items, flag).

(** [field_handlers] *)
Definition field_handlers (key : string) : option handler :=
  if String.eqb key "categoryInSupermarket" then
    Some (pure_handler _handle_category_in_supermarket)
  else if String.eqb key "brand" then Some (pure_handler _handle_brand)
  else if String.eqb key "manufacturer" then Some (pure_handler _handle_manufacturer)
  else if String.eqb key "measuringUnit" then
    Some (fun val items flag result =>
            v <- _handle_measuring_unit val result ;; Ok (v, items, flag))
  else if String.eqb key "isWeightArticle" then
    Some (pure_handler _handle_is_weight_article)
  else if String.eqb key "rawIngredients" then Some (pure_handler _handle_ingredients)
  else if String.eqb key "nutritionInformation" then Some (pure_handler _handle_nutrition)
  else if String.eqb key "characteristics" then
    Some (pure_handler _handle_characteristics)
  else if String.eqb key "offerPrice" then
    Some (fun val items flag result =>
            ' (v, items') <- _handle_offer_price val items result ;;
            Ok (v, items', flag))
  else if String.eqb key "kgGross" then Some _handle_kg_gross
  else None.

(** One iteration of the loop over [fields_map.items()]. *)
Definition set_field (result : value) (key : string) (path_chain : list string)
    (items : dict) (flag : bool) : res (dict * bool) :=
  raw_value <- get_value result path_chain ;;
  match field_handlers key with
  | Some h =>
      ' (v, items', flag') <- h raw_value items flag result ;;
      Ok (dict_set key v items', flag')
  | None => Ok (dict_set key raw_value items, flag)
  end.

(** The loop; the flag is global, so its value survives an exception. *)
Fixpoint run_fields (result : value) (fields : list (string * list string))
    (items : dict) (flag : bool) : res dict * bool :=
  match fields with
  | [] => (Ok items, flag)
  | (key, path_chain) :: fields' =>
      match set_field result key path_chain items flag with
      | Ok (items', flag') => run_fields result fields' items' flag'
      | Raise e => (Raise e, flag)
      end
  end.

(** What one call leaves behind: the returned record or the exception, the
    global [CALCULATED], and the audit lines written (link, unit price and
    denomination of the record). *)
Record outcome : Type := {
  returned : res dict;
  CALCULATED : bool;
  audit : list (value * value * value)
}.

Section Assembler.

(** The configured base URL, the product identifier after its trailing
    "0032" is removed and [urllib.parse.urljoin]. *)
Variable URL_BASE : string.
Variable product_id : string.
Variable urljoin : string -> string -> string.

Definition path_url (name_for_url : string) : string :=
  ("shop/pv/" ++ product_id ++ "/0032/0021/" ++ name_for_url)%string.

(** [items["link"] = urljoin(self.URL_BASE, path_url)] *)
Definition add_link (items : dict) : res dict :=
  n <- py_replace (dict_get items "denomination" empty) " " "-" ;;
  let name_for_url := str_replace "/" "-" n in
  Ok (dict_set "link" (VStr (urljoin URL_BASE (path_url name_for_url))) items).

(** [Scraper.parser_product_details] from the extracted [result]
    (line 171) on; [flag] is the value of the global on entry. *)
Definition parser_product_details (result : value) (flag : bool) : outcome :=
  if negb (truthy result) then
    {| returned := Ok []; CALCULATED := flag; audit := [] |}
  else
    match run_fields result fields_map [] flag with
    | (Raise e, flag') => {| returned := Raise e; CALCULATED := flag'; audit := [] |}
    | (Ok items, flag') =>
        match add_link items with
        | Raise e => {| returned := Raise e; CALCULATED := flag'; audit := [] |}
        | Ok items =>
            if flag' then
              {| returned := Ok items;
                 CALCULATED := false;
                 audit := [(dict_get items "link" VNone,
                            dict_get items "unitPrice" VNone,
                            dict_get items "denomination" VNone)] |}
            else {| returned := Ok items; CALCULATED := false; audit := [] |}
        end
    end.

End Assembler.

(** ** Literals and sample documents *)

(** The float denoted by a decimal literal. *)
Definition dec (s : string) : float :=
  match float_of_string s with
  | Some f => f
  | None => S754_nan
  end.

(** The document [{k1: {k2: ... {kn: v}}}]. *)
Fixpoint nest (path : list string) (v : value) : value :=
  match path with
  | [] => v
  | k :: path' => VDict [(k, nest path' v)]
  end.

(** A document whose only content sits under [bundles/0021]. *)
Definition bundle_doc (d : dict) : value := nest bundle (VDict d).

(** The same with content under [stores/00057/sellingPriceInfo] too. *)
Definition priced_doc (d prices : dict) : value :=
  bundle_doc (d ++ [("stores", nest ["00057"; "sellingPriceInfo"] (VDict prices))]).

(** ** Specification-level definitions *)

Fixpoint str_forall (p : ascii -> bool) (s : string) : bool :=
  match s with
  | EmptyString => true
  | String c s' => p c && str_forall p s'
  end.

Definition all_digits (s : string) : bool := str_forall is_digit s.
Definition no_digit (s : string) : bool := str_forall (fun c => negb (is_digit c)) s.

(** The texts [\d+(?:\.\d+)?] matches in full. *)
Inductive number_text : string -> Prop :=
| number_int (ip : string) :
    ip <> EmptyString -> all_digits ip = true -> number_text ip
| number_dec (ip fp : string) :
    ip <> EmptyString -> all_digits ip = true ->
    fp <> EmptyString -> all_digits fp = true ->
    number_text (ip ++ "." ++ fp)%string.


(** [1000.0] for a kilogram unit, [1.0] for a gram unit. *)
Definition unit_factor (u : string) : float :=
  if String.eqb (str_lower u) "kg" then dec "1000" else dec "1".

(** The first character of [s], if any, satisfies [p]. *)
Definition starts_with (p : ascii -> bool) (s : string) : Prop :=
  match s with
  | EmptyString => True
  | String c _ => p c = true
  end.



(** [measuringUnit.value], taken as 1 when the record has no measuring
    unit. *)
Definition measuring_value (items : dict) (mv : value) : Prop :=
  (truthy (dict_get items "measuringUnit" VNone) = false /\ mv = VInt 1)
  \/ (exists mu, mu <> [] /\ dict_get items "measuringUnit" VNone = VDict mu
                 /\ mv = dict_get mu "value" (VInt 1)).


(** What a [try] block with the clause
    [except (ZeroDivisionError, TypeError)] leaves in a field that starts
    as None: the computed value, None for a caught error, and the
    exception itself for any other error. *)
Definition or_none (c : res value) : res value :=
  match c with
  | Ok v => Ok v
  | Raise e => if caught e then Ok VNone else Raise e
  end.

(** A product without pack size: kgGross is null, the final price is 4.00
    and [selector.contentSize] is absent. *)
Definition doc_without_units : value :=
  priced_doc [] [("kgGross", VNone); ("finalPrice", VFloat (dec "4.00"))].

(** The record after the two initial assignments of the handler. *)
Definition offer_reset (items : dict) : dict :=
  dict_set "percentPromotion" VNone (dict_set "unitPriceWithOffer" VNone items).

(** A product with a measuring unit and both prices, but no pack size. *)
Definition doc_offer_without_units : value :=
  priced_doc
    [("contentData",
      VDict [("weightPerPiece", VDict [("value", VInt 1); ("uom", VStr "KG")])])]
    [("shelfPrice", VFloat (dec "2.00")); ("basePrice", VFloat (dec "1.50"))].

(** The value stored for a GRAM or ML measure: a thousandth of the raw
    value, or 0 when the raw value is absent. *)
Definition scaled (raw v : value) : Prop :=
  (truthy raw = true /\ py_truediv raw (VInt 1000) = Ok v)
  \/ (truthy raw = false /\ v = VInt 0).







Definition field_keys : list string := map fst fields_map.

(** The keys the offer-price and unit-price handlers write besides their
    own field. *)
Definition derived_keys : list string :=
  ["unitPriceWithOffer"; "percentPromotion"; "unitPrice"].

(** [sets ks d d']: [d'] is [d] after assignments to keys of [ks]. *)
Inductive sets (ks : list string) (d : dict) : dict -> Prop :=
| sets_none : sets ks d d
| sets_more (k : string) (v : value) (d' : dict) :
    In k ks -> sets ks d d' -> sets ks d (dict_set k v d').

(** The record a handler returns does not depend on the global flag, and
    neither does the exception it raises. *)
Definition flag_blind {A : Type} (c1 c2 : res (A * bool)) : Prop :=
  match c1, c2 with
  | Ok (a1, _), Ok (a2, _) => a1 = a2
  | Raise e1, Raise e2 => e1 = e2
  | _, _ => False
  end.

Fixpoint nodupb (l : list string) : bool :=
  match l with
  | [] => true
  | x :: l' => negb (existsb (String.eqb x) l') && nodupb l'
  end.

(** A field is unresolvable when its path reaches nothing and, for the
    measuring unit, neither does the net piece weight it falls back to. *)
Definition unresolved (result : value) (key : string) (path : list string) : Prop :=
  get_value result path = Ok empty
  /\ (key = "measuringUnit" -> get_value result net_piece_weight_path = Ok empty).

(** The value an unresolvable field may hold. *)
Definition absent_value (key : string) (v : value) : Prop :=
  if String.eqb key "brand" then v = VStr "MAKRO" else v = VNone \/ v = empty.

(** Every key a returned record holds: the seventeen fields, the three
    derived prices and the link. *)
Definition record_keys : list string := field_keys ++ derived_keys ++ ["link"].

(** The record of a document in which no field resolves. *)
Definition absent_record (link : value) : dict :=
  [ ("productIdInSupermarket", empty); ("denomination", empty);
    ("categoryInSupermarket", VNone); ("brand", VStr "MAKRO");
    ("manufacturer", VNone); ("description", empty); ("measuringUnit", VNone);
    ("units", empty); ("priceWithTax", empty); ("price", empty);
    ("unitPriceWithOffer", VNone); ("percentPromotion", VNone);
    ("offerPrice", VNone); ("unitPrice", empty); ("kgGross", empty);
    ("isWeightArticle", VNone); ("rawIngredients", VNone);
    ("nutritionInformation", VNone); ("characteristics", VNone);
    ("promotion", empty); ("link", link) ].

(** A document that is not empty but holds none of the fields. *)
Definition doc_without_fields : value := VDict [("ean", VStr "8430000000000")].



(** ** Further specification-level definitions *)

(** The value stored under a chain of keys through nested dicts. *)
Fixpoint walk (obj : value) (chain : list string) : option value :=
  match chain with
  | [] => Some obj
  | key :: chain' =>
      match obj with
      | VDict d =>
          match dict_lookup key d with
          | Some v => walk v chain'
          | None => None
          end
      | _ => None
      end
  end.

(** A string without surrounding whitespace. *)
Definition trimmed (s : string) : Prop := str_strip s = s.

(** The shape of a normalised measurement: the three keys in order, a unit
    that is neither of the converted ones, and a format token without
    digits. *)
Definition measurement (v : value) : Prop :=
  exists f x u,
    v = VDict [("format", f); ("value", x); ("unit", u)]
    /\ u <> VStr "GRAM" /\ u <> VStr "ML"
    /\ (forall t, f = VStr t -> no_digit t = true).

(** A block of the features list that the ingredients handler skips. *)
Definition block_skipped (block : value) : bool :=
  match block with
  | VDict d => negb (py_eq (dict_get d "label" VNone) (VStr ingredient_label))
  | _ => false
  end.

(** The canonical nutrient keys. *)
Definition nutrient_keys : list string := map snd nutrition_fields.

(** An entry of the nutrition table. *)
Definition nutrient_entry (v : value) : Prop :=
  exists a b, v = VDict [("value", a); ("unit", b)].

(** A non-empty run of characters that are not whitespace. *)
Definition word (w : string) : Prop :=
  w <> EmptyString /\ str_forall (fun c => negb (is_space c)) w = true.

Definition has_nonspace (s : string) : bool := negb (str_forall is_space s).

(** The invariant of the nutrition table under construction. *)
Definition nutrition_table (m : dict) : Prop :=
  NoDup (map fst m)
  /\ forall k v, In (k, v) m -> In k nutrient_keys /\ nutrient_entry v.

(** The path of the raw kgGross field. *)
Definition kg_gross_path : list string := store ++ ["sellingPriceInfo"; "kgGross"].

(** The fields the loop visits before and after "kgGross". *)
Definition fields_before_kg_gross : list (string * list string) := firstn 11 fields_map.
Definition fields_after_kg_gross : list (string * list string) := skipn 12 fields_map.

(** A character allowed in the name part of the link path. *)
Definition link_char (a : ascii) : bool :=
  negb (Ascii.eqb a " ") && negb (Ascii.eqb a "/").

(** A product whose pack size is 2 and whose features are a number: the
    unit price is reconstructed, and the ingredients handler raises. *)
Definition doc_reconstructed_then_fails : value :=
  priced_doc
    [("selector", VDict [("contentSize", VInt 2)]);
     ("details", VDict [("features", VInt 7)])]
    [("kgGross", VNone); ("finalPrice", VFloat (dec "4.00"))].

(** A character of a number text: a digit or the decimal point. *)
Definition number_char (c : ascii) : bool := is_digit c || Ascii.eqb c ".".

(** ** The rest of the scraper *)

(** The page count of [scrape_categories] (line 103):
    [(amount // MAX) + (1 if amount % MAX else 0)] on integers. *)
Definition number_pages (amount max_items_per_page : Z) : res Z :=
  if max_items_per_page =? 0 then Raise ZeroDivisionError
  else Ok (amount / max_items_per_page
           + (if amount mod max_items_per_page =? 0 then 0 else 1)).

(** [l[i]] for an integer index, negative indices counting from the end. *)
Definition py_index {A : Type} (l : list A) (i : Z) : res A :=
  let n := Z.of_nat (List.length l) in
  let j := if i <? 0 then i + n else i in
  if (0 <=? j) && (j <? n) then
    match nth_error l (Z.to_nat j) with
    | Some x => Ok x
    | None => Raise IndexError
    end
  else Raise IndexError.

(** A set of request headers, in insertion order. *)
Definition headers : Type := list (string * string).

Fixpoint header_lookup (k : string) (h : headers) : option string :=
  match h with
  | [] => None
  | (k', v) :: h' => if String.eqb k k' then Some v else header_lookup k h'
  end.

Definition category_referer : string :=
  "https://tienda.makro.es/shop/category/alimentaci%C3%B3n-general".

(** [Scraper.get_headers]: [url_refer] is None or a string. *)
Definition get_headers (user_agent : string) (index : Z) (url_refer : option string)
  : res headers :=
  py_index
    [ [("User-Agent", user_agent)];
      [("User-Agent", user_agent); ("Accept", "*/*");
       ("Accept-Language", "en-US,en;q=0.5");
       ("Accept-Encoding", "gzip, deflate, br");
       ("Referer", category_referer); ("Connection", "keep-alive")];
      [("User-Agent", user_agent); ("Accept", "*/*");
       ("Accept-Language", "en-US,en;q=0.5");
       ("Accept-Encoding", "gzip, deflate, br");
       ("CallTreeId",
        "B0412CEB-4877-425D-870B-1209664F19CD||BTEX-DE4211E8-1DF4-4C5A-A70E-EAE148AE316A");
       ("X-Requested-With", "XMLHttpRequest"); ("Connection", "keep-alive");
       ("Referer", category_referer)];
      [("User-Agent", user_agent); ("Accept", "image/avif,image/webp,*/*");
       ("Accept-Language", "en-US,en;q=0.5");
       ("Accept-Encoding", "gzip, deflate, br");
       ("Referer", match url_refer with Some u => u | None => EmptyString end);
       ("Connection", "keep-alive")] ]
    index.

(** The dict comprehension of [dict_to_jsonl]:
    [{key: items.get(key) for key in PRODUCT_KEYS}]. *)
Definition filter_items (PRODUCT_KEYS : list string) (items : dict) : dict :=
  fold_left (fun acc key => dict_set key (dict_get items key VNone) acc) PRODUCT_KEYS [].

(** [Scraper.dict_to_jsonl]: the record handed to [jsonl_out]; the log line
    before it reads [filtered_items['denomination']]. *)
Definition dict_to_jsonl (PRODUCT_KEYS : list string) (items : dict) : res dict :=
  let filtered_items := filter_items PRODUCT_KEYS items in
  _ <- py_getitem (VDict filtered_items) "denomination" ;;
  Ok filtered_items.

(** The [SUPERMARKET] section of the configuration. *)
Record supermarket : Type := {
  NAME : string;
  POSTAL_CODE : string;
  CURRENCY : string;
  COUNTRY : string
}.

(** The body of the loop over the parsed products in [scrape_categories]
    (lines 106-115): the product identifier and the record written, or
    nothing when the record has no identifier. *)
Definition store_item (cfg : supermarket) (PRODUCT_KEYS : list string) (item_dict : dict)
  : res (option (value * dict)) :=
  let item_dict := dict_set "supermarket" (VStr (NAME cfg)) item_dict in
  let item_dict := dict_set "supermarketPostalCode" (VStr (POSTAL_CODE cfg)) item_dict in
  let item_dict := dict_set "currency" (VStr (CURRENCY cfg)) item_dict in
  let item_dict := dict_set "country" (VStr (COUNTRY cfg)) item_dict in
  let pid := dict_get item_dict "productIdInSupermarket" VNone in
  if truthy pid then
    written <- dict_to_jsonl PRODUCT_KEYS item_dict ;;
    Ok (Some (pid, written))
  else Ok None.

(** ** The request loop of [ProcessRequest]

    What one attempt of [session.get] or [session.post] brings: a response
    with its status code, or one of the exceptions the loop catches. *)
Inductive attempt : Type :=
| Responded (status_code : Z)
| ConnectionError
| Timeout
| RequestException.

(** How [set_request] ends: it returns the response (its status code is
    kept), returns False, leaves through [sys.exit] in [script_terminated],
    or fails on [print(msg)] with [msg] never assigned. *)
Inductive request_result : Type :=
| Response (status_code : Z)
| ReturnedFalse
| SystemExit
| UnboundLocalError.

Definition N_ATTEMPS : Z := 10.

(** [ProcessRequest.retry] without its pause. *)
Definition retry (n : Z) : bool := negb (n =? N_ATTEMPS).

(** The [while loop] of [ProcessRequest.set_request]: [attempts i] is what
    the i-th request brings, [count] the failures so far and [msg] whether
    the variable [msg] is assigned.  The result comes with the number of
    requests sent; None when the fuel runs out. *)
Fixpoint set_request_loop (fuel : nat) (attempts : nat -> attempt) (i : nat)
    (count : Z) (msg : bool) : option (request_result * nat) :=
  match fuel with
  | O => None
  | S fuel' =>
      let again (msg' : bool) :=
        if msg' then
          let count' := count + 1 in
          if retry count' then set_request_loop fuel' attempts (S i) count' msg'
          else Some (SystemExit, S i)
        else Some (UnboundLocalError, S i) in
      match attempts i with
      | Responded status_code =>
          if (400 <=? status_code) && (status_code <? 600) then
            if (status_code =? 404) || (status_code =? 500)
            then Some (ReturnedFalse, S i)
            else again true
          else if status_code =? 200 then Some (Response status_code, S i)
          else again msg
      | _ => again true
      end
  end.

(** [ProcessRequest.set_request] *)
Definition set_request (fuel : nat) (attempts : nat -> attempt)
  : option (request_result * nat) :=
  set_request_loop fuel attempts 0 0 false.

(** ** From the listing to the records *)

(** What the request for the details of a product brings to
    [parser_product_details]: no response, a body that is not JSON, or the
    decoded body. *)
Inductive fetched : Type :=
| NoResponse
| InvalidJson
| Json (parsed_json : value).

(** [re.sub(r'0032$', "", s)] on a string without trailing newline. *)
Fixpoint remove_suffix (suffix s : string) : string :=
  if String.eqb s suffix then EmptyString
  else
    match s with
    | EmptyString => EmptyString
    | String c s' => String c (remove_suffix suffix s')
    end.

Definition unchanged (r : res dict) (flag : bool) : outcome :=
  {| returned := r; CALCULATED := flag; audit := [] |}.

Section Listing.

Variable URL_BASE : string.
Variable urljoin : string -> string -> string.

(** What the n-th detail request of a listing brings, for the identifier
    it asks for. *)
Variable fetch : nat -> string -> fetched.

(** [Scraper.parser_product_details] from its beginning (line 134): the
    identifier is trimmed and loses a trailing "0032", the details are
    requested, and the per-field pass runs on the entry of "result" for that
    identifier. *)
Definition product_details (n : nat) (product_id : value) (flag : bool) : outcome :=
  match py_strip product_id with
  | Raise e => unchanged (Raise e) flag
  | Ok stripped =>
      let product_id := remove_suffix "0032" stripped in
      match fetch n product_id with
      | NoResponse | InvalidJson => unchanged (Ok []) flag
      | Json parsed_json =>
          match (by_id <- py_get parsed_json "result" (VDict []) ;;
                 py_get by_id product_id VNone) with
          | Raise e => unchanged (Raise e) flag
          | Ok result => parser_product_details URL_BASE product_id urljoin result flag
          end
      end
  end.

(** The loop of [parser_products] over the identifiers: the number of
    identifiers already handled, the records collected, the flag and the
    audit lines written so far. *)
Fixpoint collect_products (ids : list value) (n : nat) (flag : bool)
    (output_items : list dict)
    (lines : list (value * value * value))
  : res (list dict) * bool * list (value * value * value) :=
  match ids with
  | [] => (Ok output_items, flag, lines)
  | key_id :: ids' =>
      let o := product_details n key_id flag in
      match returned o with
      | Raise e => (Raise e, CALCULATED o, lines ++ audit o)
      | Ok details =>
          collect_products ids' (S n) (CALCULATED o)
            (if truthy (VDict details) then output_items ++ [details] else output_items)
            (lines ++ audit o)
      end
  end.

(** [Scraper.parser_products] *)
Definition parser_products (parsed : value) (flag : bool)
  : res (list dict) * bool * list (value * value * value) :=
  match (results <- py_get parsed "results" (VDict []) ;; py_iter results) with
  | Raise e => (Raise e, flag, [])
  | Ok ids => collect_products ids 0 flag [] []
  end.

End Listing.

(** A record with every key of [record_keys]. *)
Definition complete_record (d : dict) : Prop :=
  d <> [] /\ forall k, In k record_keys -> dict_mem k d = true.

(** A server that fails twice and then answers. *)
Definition two_failures (i : nat) : attempt :=
  if (i <? 2)%nat then ConnectionError else Responded 200.

(** A server that knows the product "1" only. *)
Definition one_product (n : nat) (product_id : string) : fetched :=
  if String.eqb product_id "1"
  then Json (VDict [("result", VDict [("1", doc_without_fields)])])
  else NoResponse.

(** * Properties *)

(** ** Dictionaries *)

Lemma dict_lookup_set_eq (k : string) (v : value) (d : dict) :
  dict_lookup k (dict_set k v d) = Some v.
Proof.
  induction d as [|[k' v'] d IH]; simpl.
  - now rewrite String.eqb_refl.
  - destruct (String.eqb k k') eqn:E; simpl; rewrite E; auto.
Qed.

Lemma dict_lookup_set_ne (k k' : string) (v : value) (d : dict) :
  k <> k' -> dict_lookup k' (dict_set k v d) = dict_lookup k' d.
Proof.
  intros Hne. induction d as [|[k0 v0] d IH]; simpl.
  - destruct (String.eqb k' k) eqn:E; auto.
    apply String.eqb_eq in E. congruence.
  - destruct (String.eqb k k0) eqn:E; simpl.
    + apply String.eqb_eq in E. subst k0.
      destruct (String.eqb k' k) eqn:E'; auto.
      apply String.eqb_eq in E'. congruence.
    + now rewrite IH.
Qed.

Lemma dict_get_set_eq (k : string) (v dflt : value) (d : dict) :
  dict_get (dict_set k v d) k dflt = v.
Proof. unfold dict_get. now rewrite dict_lookup_set_eq. Qed.

Lemma dict_get_set_ne (k k' : string) (v dflt : value) (d : dict) :
  k <> k' -> dict_get (dict_set k v d) k' dflt = dict_get d k' dflt.
Proof. intros H. unfold dict_get. now rewrite dict_lookup_set_ne. Qed.

Lemma dict_mem_set_eq (k : string) (v : value) (d : dict) :
  dict_mem k (dict_set k v d) = true.
Proof. unfold dict_mem. now rewrite dict_lookup_set_eq. Qed.

Lemma dict_mem_set_mono (k k' : string) (v : value) (d : dict) :
  dict_mem k' d = true -> dict_mem k' (dict_set k v d) = true.
Proof.
  unfold dict_mem. intros H.
  destruct (string_dec k k') as [->|Hne].
  - now rewrite dict_lookup_set_eq.
  - now rewrite dict_lookup_set_ne.
Qed.

(** ** Path Resolver *)

Lemma get_value_empty_chain (obj : value) : get_value obj [] = Ok empty.
Proof. reflexivity. Qed.

Lemma get_value_falsy (obj : value) (chain : list string) :
  truthy obj = false -> get_value obj chain = Ok empty.
Proof. intros H. destruct chain; simpl; [reflexivity | now rewrite H]. Qed.


Lemma get_value_step (d : dict) (key k2 : string) (chain : list string) (v : value) :
  dict_lookup key d = Some v ->
  get_value (VDict d) (key :: k2 :: chain) = get_value v (k2 :: chain).
Proof.
  intros H. cbn [get_value].
  destruct d as [|p d']; [discriminate|].
  cbn [truthy negb py_contains bind]. unfold dict_mem. rewrite H.
  cbn [py_getitem bind]. now rewrite H.
Qed.

Lemma get_value_last (d : dict) (key : string) (v : value) :
  dict_lookup key d = Some v -> get_value (VDict d) [key] = Ok v.
Proof.
  intros H. cbn [get_value].
  destruct d as [|p d']; [discriminate|].
  cbn [truthy negb py_contains bind]. unfold dict_mem. rewrite H.
  cbn [py_getitem]. now rewrite H.
Qed.

(** A non-zero number met before the chain is exhausted raises. *)
Lemma get_value_scalar_raises (z : Z) (key : string) (chain : list string) :
  z <> 0 -> get_value (VInt z) (key :: chain) = Raise TypeError.
Proof.
  intros H. simpl. apply Z.eqb_neq in H. now rewrite H.
Qed.

(** C3 (defect).  The resolver guards against falsy levels only: on the
    document [{"variants": 5}] the chain [variants, 0032] reaches the
    integer 5, tests ["0032" in 5] and raises TypeError instead of returning
    the empty sentinel; a document that is itself a non-zero number raises
    on any chain. *)
Theorem get_value_raises_on_number :
  get_value (VDict [("variants", VInt 5)]) ["variants"; "0032"] = Raise TypeError
  /\ get_value (VInt 5) ["variants"] = Raise TypeError
  /\ get_value (VDict [("variants", VStr "0032")]) ["variants"; "0032"; "bundles"]
     = Raise TypeError.
Proof. repeat split; reflexivity. Qed.

(** ** The weight token *)


Lemma span_digits_app (ds r : string) :
  all_digits ds = true -> starts_with (fun c => negb (is_digit c)) r ->
  span_digits (ds ++ r) = (ds, r).
Proof.
  induction ds as [|c ds IH]; simpl; intros Hd Hr.
  - destruct r as [|c r]; simpl in *; [reflexivity|].
    apply negb_true_iff in Hr. now rewrite Hr.
  - apply andb_true_iff in Hd as [Hc Hd]. rewrite Hc, IH; auto.
Qed.





Lemma match_number_nondigit (s : string) :
  starts_with (fun c => negb (is_digit c)) s -> match_number s = None.
Proof.
  unfold match_number. destruct s as [|c s]; simpl; [reflexivity|].
  intros H. apply negb_true_iff in H. now rewrite H.
Qed.

Lemma match_here_nondigit (s : string) :
  starts_with (fun c => negb (is_digit c)) s -> match_here s = None.
Proof.
  intros H. unfold match_here, match_multi, match_single.
  now rewrite match_number_nondigit.
Qed.


Lemma search_weight_no_digit (s : string) :
  no_digit s = true -> search_weight s = None.
Proof.
  induction s as [|c s IH]; intros H; [reflexivity|].
  simpl in H. apply andb_true_iff in H as [Hc H].
  cbn [search_weight]. rewrite match_here_nondigit by exact Hc. auto.
Qed.




Lemma float_mul_factor (f : float) (u : string) :
  py_mul (VFloat f) (multiplier u) = Ok (VFloat (fmul f (unit_factor u))).
Proof.
  unfold multiplier, unit_factor.
  destruct (String.eqb (str_lower u) "kg"); reflexivity.
Qed.



(** Without any digit in the denomination the default applies. *)
Lemma extract_grams_default (s : string) :
  no_digit s = true -> _extract_grams (VStr s) = Ok (VInt 1000).
Proof. intros H. unfold _extract_grams. now rewrite search_weight_no_digit. Qed.

(** ** Unit-Price Reconstructor *)






(** Division by zero and TypeError in the reconstruction step store None. *)
Lemma kg_gross_caught_stores_none (items : dict) (flag : bool) (result alt : value) (e : exn) :
  get_value result net_price_path = Ok alt -> is_int_or_float alt = false ->
  unit_price_fallback items = Raise e -> caught e = true ->
  _handle_kg_gross VNone items flag result
  = Ok (VNone, dict_set "unitPrice" VNone items, flag).
Proof.
  intros Ha Hn He Hc. unfold _handle_kg_gross. cbn [is_none].
  rewrite Ha. cbn [bind]. rewrite Hn, He. cbn [bind try_except]. now rewrite Hc.
Qed.

(** Any other exception leaves the handler. *)
Lemma kg_gross_uncaught_raises (items : dict) (flag : bool) (result alt : value) (e : exn) :
  get_value result net_price_path = Ok alt -> is_int_or_float alt = false ->
  unit_price_fallback items = Raise e -> caught e = false ->
  _handle_kg_gross VNone items flag result = Raise e.
Proof.
  intros Ha Hn He Hc. unfold _handle_kg_gross. cbn [is_none].
  rewrite Ha. cbn [bind]. rewrite Hn, He. cbn [bind try_except]. now rewrite Hc.
Qed.

(** The measuring value defaults to 1 without a measuring unit. *)
Lemma measuring_value_default (items : dict) :
  dict_lookup "measuringUnit" items = None -> measuring_value items (VInt 1).
Proof. intros H. left. unfold dict_get. now rewrite H. Qed.

(** C2 (defect).  The loop stores the empty sentinel under "units" when the
    pack size is absent, so the default of [items.get("units", 1)] never
    applies; [float("")] raises ValueError, which the clause
    [except (ZeroDivisionError, TypeError)] does not catch: the handler, and
    with it the assembly of the record, ends with ValueError instead of
    storing None. *)
Theorem kg_gross_missing_units_raises (URL_BASE product_id : string)
    (urljoin : string -> string -> string) (flag : bool) :
  get_value doc_without_units (bundle ++ ["selector"; "contentSize"]) = Ok empty
  /\ _handle_kg_gross VNone
       [("units", empty); ("priceWithTax", VFloat (dec "4.00"))] flag doc_without_units
     = Raise ValueError
  /\ returned (parser_product_details URL_BASE product_id urljoin doc_without_units flag)
     = Raise ValueError.
Proof. repeat split; vm_compute; reflexivity. Qed.

(** ** Promotion Evaluator *)

Lemma dict_set_same (k : string) (v : value) (d : dict) :
  dict_lookup k d = Some v -> dict_set k v d = d.
Proof.
  induction d as [|[k' v'] d IH]; simpl; [discriminate|].
  destruct (String.eqb k k') eqn:E.
  - intros H. now inversion H.
  - intros H. now rewrite IH.
Qed.

Lemma offer_unit_count_set (k : string) (v : value) (items : dict) :
  k <> "measuringUnit" -> k <> "units" ->
  offer_unit_count (dict_set k v items) = offer_unit_count items.
Proof.
  intros H1 H2. unfold offer_unit_count.
  now rewrite !dict_get_set_ne by assumption.
Qed.

Lemma offer_reset_price (items : dict) (dflt : value) :
  dict_get (offer_reset items) "price" dflt = dict_get items "price" dflt.
Proof. unfold offer_reset. now rewrite !dict_get_set_ne by discriminate. Qed.

(** Supporting C5: with an offer price different from the shelf price, and
    as long as neither derivation raises anything but a division by zero or
    a TypeError, both derived fields are stored (None for a caught error)
    and the offer price is returned. *)
Lemma offer_price_differs (val : value) (items : dict) (result pp up : value) :
  py_eq val (dict_get items "price" VNone) = false ->
  or_none (percent_promotion val (dict_get items "price" (VInt 1))) = Ok pp ->
  or_none (unit_price_with_offer val items) = Ok up ->
  _handle_offer_price val items result
  = Ok (val, dict_set "unitPriceWithOffer" up
               (dict_set "percentPromotion" pp (offer_reset items))).
Proof.
  intros Hne Hpp Hup. unfold _handle_offer_price. fold (offer_reset items).
  rewrite !offer_reset_price, Hne.
  assert (Hu : forall its, unit_price_with_offer val (dict_set "percentPromotion" pp its)
                      = unit_price_with_offer val its).
  { intros its. unfold unit_price_with_offer.
    now rewrite offer_unit_count_set by discriminate. }
  assert (Hu0 : unit_price_with_offer val (offer_reset items)
                = unit_price_with_offer val items).
  { unfold unit_price_with_offer, offer_reset.
    now rewrite !offer_unit_count_set by discriminate. }
  assert (Hid : dict_set "percentPromotion" VNone (offer_reset items) = offer_reset items).
  { apply dict_set_same. unfold offer_reset. apply dict_lookup_set_eq. }
  assert (Hid2 : forall its, dict_set "unitPriceWithOffer" VNone
                               (dict_set "percentPromotion" pp (offer_reset its))
                             = dict_set "percentPromotion" pp (offer_reset its)).
  { intros its. apply dict_set_same.
    rewrite dict_lookup_set_ne by discriminate. unfold offer_reset.
    rewrite dict_lookup_set_ne by discriminate. apply dict_lookup_set_eq. }
  destruct (percent_promotion val (dict_get items "price" (VInt 1))) as [p|e] eqn:E1;
    cbn [or_none] in Hpp.
  - inversion Hpp; subst p. cbn [bind try_except].
    rewrite Hu, Hu0.
    destruct (unit_price_with_offer val items) as [q|e] eqn:E2; cbn [or_none] in Hup.
    + inversion Hup; subst q. reflexivity.
    + cbn [bind try_except]. destruct (caught e); [|discriminate].
      inversion Hup; subst up. cbn [bind]. now rewrite Hid2.
  - cbn [bind try_except]. destruct (caught e); [|discriminate].
    inversion Hpp; subst pp. cbn [bind]. rewrite Hid, Hu0.
    destruct (unit_price_with_offer val items) as [q|e'] eqn:E2; cbn [or_none] in Hup.
    + inversion Hup; subst q. reflexivity.
    + cbn [bind try_except]. destruct (caught e'); [|discriminate].
      inversion Hup; subst up. cbn [bind].
      rewrite dict_set_same; [reflexivity|].
      unfold offer_reset. rewrite dict_lookup_set_ne by discriminate.
      apply dict_lookup_set_eq.
Qed.

(** The example of the specification: shelf price 2.00 and offer price 1.50
    give a promotion of 0.25. *)
Lemma offer_price_example (result : value) :
  _handle_offer_price (VFloat (dec "1.50")) [("price", VFloat (dec "2.00"))] result
  = Ok (VFloat (dec "1.50"),
        [("price", VFloat (dec "2.00"));
         ("unitPriceWithOffer", VFloat (dec "1.5"));
         ("percentPromotion", VFloat (dec "0.25"))]).
Proof.
  apply (offer_price_differs (VFloat (dec "1.50")) [("price", VFloat (dec "2.00"))]
           result (VFloat (dec "0.25")) (VFloat (dec "1.5"))); reflexivity.
Qed.

(** C5 (defect).  With a measuring unit on the record and the empty
    sentinel under "units", the unit count evaluates [float("")]: the
    ValueError is not among the caught classes, so the handler raises
    instead of leaving unitPriceWithOffer absent and returning the offer
    price, and the assembly of the record ends with it. *)
Theorem offer_price_missing_units_raises (URL_BASE product_id : string)
    (urljoin : string -> string -> string) (flag : bool) :
  _handle_offer_price (VFloat (dec "1.50"))
    [("measuringUnit", VDict [("format", empty); ("value", VInt 1); ("unit", VStr "KG")]);
     ("units", empty); ("price", VFloat (dec "2.00"))]
    doc_offer_without_units
  = Raise ValueError
  /\ returned (parser_product_details URL_BASE product_id urljoin
                 doc_offer_without_units flag)
     = Raise ValueError.
Proof. split; vm_compute; reflexivity. Qed.

(** C6.  When the raw offer price equals the shelf price of the record, the
    handler looks up the promotion labels and the discount levels: it
    returns None when both are empty and the raw value otherwise, and in
    either case percentPromotion and unitPriceWithOffer stay None. *)
Theorem offer_price_equal_shelf (val : value) (items : dict) (result labels levels : value) :
  py_eq val (dict_get items "price" VNone) = true ->
  get_value result promotion_labels_path = Ok labels ->
  get_value result levels_path = Ok levels ->
  exists items',
    _handle_offer_price val items result
    = Ok (if negb (truthy labels) && negb (truthy levels) then VNone else val, items')
    /\ dict_lookup "percentPromotion" items' = Some VNone
    /\ dict_lookup "unitPriceWithOffer" items' = Some VNone
    /\ (val <> VNone ->
        ((if negb (truthy labels) && negb (truthy levels) then VNone else val) = VNone
         <-> truthy labels = false /\ truthy levels = false)).
Proof.
  intros Heq Hl Hv. exists (offer_reset items). repeat split.
  - unfold _handle_offer_price. fold (offer_reset items).
    rewrite offer_reset_price, Heq, Hl. cbn [bind]. rewrite Hv. cbn [bind].
    destruct (negb (truthy labels) && negb (truthy levels)); reflexivity.
  - unfold offer_reset. apply dict_lookup_set_eq.
  - unfold offer_reset. rewrite dict_lookup_set_ne by discriminate.
    apply dict_lookup_set_eq.
  - destruct (truthy labels); auto. simpl in H0. congruence.
  - destruct (truthy labels), (truthy levels); simpl in H0; auto; congruence.
  - intros [-> ->]. reflexivity.
Qed.

(** Equal prices without any promotion data discard the offer price; with a
    promotion label the value is kept. *)
Lemma offer_price_equal_shelf_witness :
  (exists items',
     _handle_offer_price (VFloat (dec "2.00")) [("price", VFloat (dec "2.00"))] (VDict [])
     = Ok (VNone, items')
     /\ dict_lookup "percentPromotion" items' = Some VNone
     /\ dict_lookup "unitPriceWithOffer" items' = Some VNone)
  /\ (exists items',
        _handle_offer_price (VFloat (dec "2.00")) [("price", VFloat (dec "2.00"))]
          (nest promotion_labels_path (VList [VStr "2x1"]))
        = Ok (VFloat (dec "2.00"), items')).
Proof.
  split.
  - destruct (offer_price_equal_shelf (VFloat (dec "2.00"))
                [("price", VFloat (dec "2.00"))] (VDict []) empty empty)
      as (items' & H1 & H2 & H3 & _); try reflexivity.
    exists items'. auto.
  - destruct (offer_price_equal_shelf (VFloat (dec "2.00"))
                [("price", VFloat (dec "2.00"))]
                (nest promotion_labels_path (VList [VStr "2x1"]))
                (VList [VStr "2x1"]) empty)
      as (items' & H1 & _); try reflexivity.
    exists items'. exact H1.
Defined.

(** ** Measurement Normalizer *)






(** ** Nutrition *)







(** ** Record Assembler *)

Lemma sets_lookup (ks : list string) (d d' : dict) (k : string) :
  sets ks d d' -> ~ In k ks -> dict_lookup k d' = dict_lookup k d.
Proof.
  induction 1 as [|k0 v d' Hin _ IH]; intros Hk; [reflexivity|].
  rewrite dict_lookup_set_ne; auto. congruence.
Qed.

Lemma sets_mem (ks : list string) (d d' : dict) (k : string) :
  sets ks d d' -> dict_mem k d = true -> dict_mem k d' = true.
Proof.
  induction 1; intros Hk; auto using dict_mem_set_mono.
Qed.

Lemma sets_trans (ks : list string) (d1 d2 d3 : dict) :
  sets ks d1 d2 -> sets ks d2 d3 -> sets ks d1 d3.
Proof. intros H12 H23. induction H23; auto using sets_more. Qed.

Lemma sets_weaken (ks ks' : list string) (d d' : dict) :
  incl ks ks' -> sets ks d d' -> sets ks' d d'.
Proof. intros Hi H. induction H; [apply sets_none | apply sets_more; auto]. Qed.

Lemma offer_reset_sets (items : dict) :
  sets ["unitPriceWithOffer"; "percentPromotion"] items (offer_reset items).
Proof.
  unfold offer_reset.
  apply sets_more; [simpl; auto|]. apply sets_more; [simpl; auto|]. apply sets_none.
Qed.

(** What the offer-price handler does to the record, whatever branch it
    takes: it writes the two promotion fields only, both end up present, and
    the value it returns is None or the raw value. *)
Lemma offer_price_effect (val : value) (items : dict) (result v : value) (items' : dict) :
  _handle_offer_price val items result = Ok (v, items') ->
  sets ["unitPriceWithOffer"; "percentPromotion"] items items'
  /\ dict_mem "unitPriceWithOffer" items' = true
  /\ dict_mem "percentPromotion" items' = true
  /\ (v = VNone \/ v = val).
Proof.
  unfold _handle_offer_price. fold (offer_reset items).
  pose proof (offer_reset_sets items) as Hs.
  assert (Hm1 : dict_mem "unitPriceWithOffer" (offer_reset items) = true).
  { unfold offer_reset. apply dict_mem_set_mono, dict_mem_set_eq. }
  assert (Hm2 : dict_mem "percentPromotion" (offer_reset items) = true).
  { unfold offer_reset. apply dict_mem_set_eq. }
  destruct (py_eq val (dict_get (offer_reset items) "price" VNone)).
  - destruct (get_value result promotion_labels_path); [|discriminate].
    cbn [bind]. destruct (get_value result levels_path); [|discriminate].
    cbn [bind]. destruct (_ && _); intros H; inversion H; subst; auto.
  - set (c1 := try_except _ _).
    assert (H1 : forall its, c1 = Ok its ->
                   sets ["unitPriceWithOffer"; "percentPromotion"] items its
                   /\ dict_mem "unitPriceWithOffer" its = true
                   /\ dict_mem "percentPromotion" its = true).
    { subst c1. intros its.
      destruct (percent_promotion val _) as [p|e]; cbn [bind try_except].
      - intros H; inversion H; subst its. repeat split.
        + apply sets_more; [simpl; auto | exact Hs].
        + now apply dict_mem_set_mono.
        + apply dict_mem_set_eq.
      - destruct (caught e); [|discriminate].
        intros H; inversion H; subst its. auto. }
    destruct c1 as [its|e]; [|discriminate]. cbn [bind].
    destruct (H1 its eq_refl) as (Hs1 & Ha & Hb).
    destruct (unit_price_with_offer val its) as [p|e]; cbn [bind try_except].
    + intros H; inversion H; subst. repeat split; auto.
      * apply sets_more; [simpl; auto | exact Hs1].
      * apply dict_mem_set_eq.
      * now apply dict_mem_set_mono.
    + destruct (caught e); [|discriminate].
      cbn [bind]. intros H; inversion H; subst. auto.
Qed.

(** The unit-price handler writes "unitPrice" only, always, and returns the
    raw value. *)
Lemma kg_gross_effect (val : value) (items : dict) (flag : bool) (result v : value)
    (items' : dict) (flag' : bool) :
  _handle_kg_gross val items flag result = Ok (v, items', flag') ->
  sets ["unitPrice"] items items'
  /\ dict_mem "unitPrice" items' = true
  /\ v = val.
Proof.
  assert (Hset : forall x, sets ["unitPrice"] items (dict_set "unitPrice" x items)).
  { intros x. apply sets_more; [simpl; auto | apply sets_none]. }
  unfold _handle_kg_gross. destruct (is_none val).
  - destruct (get_value result net_price_path) as [alt|]; [|discriminate].
    cbn [bind]. destruct (is_int_or_float alt).
    + intros H; inversion H; subst. auto using dict_mem_set_eq.
    + destruct (unit_price_fallback items) as [p|e]; cbn [bind try_except].
      * intros H; inversion H; subst. auto using dict_mem_set_eq.
      * destruct (caught e); [|discriminate].
        intros H; inversion H; subst. auto using dict_mem_set_eq.
  - intros H; inversion H; subst. auto using dict_mem_set_eq.
Qed.

Lemma kg_gross_flag_blind (val : value) (items : dict) (f1 f2 : bool) (result : value) :
  flag_blind (_handle_kg_gross val items f1 result) (_handle_kg_gross val items f2 result).
Proof.
  unfold _handle_kg_gross. destruct (is_none val); [|reflexivity].
  destruct (get_value result net_price_path) as [alt|]; [|reflexivity].
  cbn [bind]. destruct (is_int_or_float alt); [reflexivity|].
  destruct (unit_price_fallback items) as [p|e]; cbn [bind try_except]; [reflexivity|].
  destruct (caught e); reflexivity.
Qed.

(** Case analysis over the handler table. *)
Ltac handler_cases key :=
  unfold field_handlers;
  repeat match goal with
    | |- context [String.eqb key ?s] =>
        let E := fresh "Ekey" in destruct (String.eqb key s) eqn:E
    end.

Lemma handler_flag_blind (key : string) (h : handler) (val : value) (items : dict)
    (f1 f2 : bool) (result : value) :
  field_handlers key = Some h ->
  flag_blind (h val items f1 result) (h val items f2 result).
Proof.
  handler_cases key; intros H; inversion H; subst h;
    try (unfold pure_handler;
         match goal with |- context [bind ?c _] => destruct c end; reflexivity).
  - destruct (_handle_offer_price val items result) as [[v its]|]; reflexivity.
  - apply kg_gross_flag_blind.
Qed.

Lemma set_field_flag_blind (result : value) (key : string) (path : list string)
    (items : dict) (f1 f2 : bool) :
  flag_blind (set_field result key path items f1) (set_field result key path items f2).
Proof.
  unfold set_field. destruct (get_value result path) as [raw|]; [|reflexivity].
  cbn [bind]. destruct (field_handlers key) as [h|] eqn:Eh; [|reflexivity].
  pose proof (handler_flag_blind key h raw items f1 f2 result Eh) as Hb.
  unfold flag_blind in *.
  destruct (h raw items f1 result) as [[[v1 i1] g1]|e1],
           (h raw items f2 result) as [[[v2 i2] g2]|e2]; cbn [bind]; auto.
  now inversion Hb.
Qed.

Lemma run_fields_flag_blind (result : value) (fields : list (string * list string)) :
  forall items f1 f2,
    fst (run_fields result fields items f1) = fst (run_fields result fields items f2).
Proof.
  induction fields as [|[key path] fields IH]; intros items f1 f2; [reflexivity|].
  cbn [run_fields].
  pose proof (set_field_flag_blind result key path items f1 f2) as Hb.
  unfold flag_blind in Hb.
  destruct (set_field result key path items f1) as [[i1 g1]|e1],
           (set_field result key path items f2) as [[i2 g2]|e2]; try contradiction.
  - subst i2. apply IH.
  - simpl. congruence.
Qed.

(** C9.  The record returned for a document, or the exception raised, is
    the same whatever the value of the global [CALCULATED] on entry: the
    pass reads no clock and no other state, and the flag reaches only the
    audit lines. *)
Theorem assembler_deterministic (URL_BASE product_id : string)
    (urljoin : string -> string -> string) (result : value) (flag1 flag2 : bool) :
  returned (parser_product_details URL_BASE product_id urljoin result flag1)
  = returned (parser_product_details URL_BASE product_id urljoin result flag2).
Proof.
  unfold parser_product_details.
  destruct (negb (truthy result)); [reflexivity|].
  pose proof (run_fields_flag_blind result fields_map [] flag1 flag2) as H.
  destruct (run_fields result fields_map [] flag1) as [r1 g1],
           (run_fields result fields_map [] flag2) as [r2 g2].
  simpl in H. subst r2.
  destruct r1 as [items|e]; [|reflexivity].
  destruct (add_link URL_BASE product_id urljoin items); [|reflexivity].
  destruct g1, g2; reflexivity.
Qed.

(** *** Completeness of the record *)

Lemma existsb_eqb_In (x : string) (l : list string) :
  existsb (String.eqb x) l = true <-> In x l.
Proof.
  rewrite existsb_exists. split.
  - intros (y & Hy & E). apply String.eqb_eq in E. now subst.
  - intros H. exists x. split; auto. apply String.eqb_refl.
Qed.

Lemma nodupb_NoDup (l : list string) : nodupb l = true -> NoDup l.
Proof.
  induction l as [|x l IH]; simpl; intros H; constructor.
  - apply andb_true_iff in H as [H _]. apply negb_true_iff in H.
    intros Hin. apply existsb_eqb_In in Hin. congruence.
  - apply andb_true_iff in H as [_ H]. auto.
Qed.

Lemma not_In_eqb (x : string) (l : list string) :
  existsb (String.eqb x) l = false -> ~ In x l.
Proof. intros H Hin. apply existsb_eqb_In in Hin. congruence. Qed.

Lemma field_keys_NoDup : NoDup field_keys.
Proof. apply nodupb_NoDup. reflexivity. Qed.

Lemma field_keys_not_derived (k : string) :
  In k field_keys -> ~ In k ("link" :: derived_keys).
Proof.
  intros H. apply not_In_eqb.
  assert (Hall : forallb (fun k => negb (existsb (String.eqb k) ("link" :: derived_keys)))
                   field_keys = true) by reflexivity.
  rewrite forallb_forall in Hall. apply negb_true_iff. now apply Hall.
Qed.

Lemma handler_effect (key : string) (h : handler) (raw : value) (items : dict)
    (flag : bool) (result v : value) (items' : dict) (flag' : bool) :
  field_handlers key = Some h ->
  h raw items flag result = Ok (v, items', flag') ->
  sets derived_keys items items'
  /\ (raw = empty ->
      (key = "measuringUnit" -> get_value result net_piece_weight_path = Ok empty) ->
      absent_value key v)
  /\ (key = "offerPrice" ->
      dict_mem "unitPriceWithOffer" items' = true
      /\ dict_mem "percentPromotion" items' = true)
  /\ (key = "kgGross" -> dict_mem "unitPrice" items' = true).
Proof.
  handler_cases key; intros H; inversion H; subst h; clear H;
    match goal with
    | E : String.eqb key _ = true |- _ => apply String.eqb_eq in E; subst key
    end;
    unfold absent_value; cbn [String.eqb Ascii.eqb Bool.eqb];
    intros Hrun;
    try (unfold pure_handler in Hrun;
         match type of Hrun with
         | bind ?c _ = _ => destruct c as [v0|] eqn:Ev; [|discriminate]
         end;
         cbn [bind] in Hrun; inversion Hrun; subst; clear Hrun;
         split; [apply sets_none|];
         split; [|split; discriminate]).
  - intros -> _. inversion Ev. auto.
  - intros -> _. inversion Ev. reflexivity.
  - intros -> _. inversion Ev. auto.
  - intros -> Hfb. unfold _handle_measuring_unit in Ev.
    change (truthy empty) with false in Ev.
    rewrite (Hfb eq_refl) in Ev. inversion Ev. auto.
  - intros -> _. inversion Ev. auto.
  - intros -> _. inversion Ev. auto.
  - intros -> _. inversion Ev. auto.
  - intros -> _. inversion Ev. auto.
  - destruct (_handle_offer_price raw items result) as [[v0 its]|] eqn:Ev; [|discriminate].
    cbn [bind] in Hrun. inversion Hrun; subst; clear Hrun.
    destruct (offer_price_effect _ _ _ _ _ Ev) as (Hs & Ha & Hb & Hv).
    split; [|split; [|split]].
    + eapply sets_weaken; [|exact Hs]. intros k [<-|[<-|[]]]; simpl; auto.
    + intros -> _. destruct Hv; auto.
    + auto.
    + discriminate.
  - destruct (kg_gross_effect _ _ _ _ _ _ _ Hrun) as (Hs & Ha & Hv).
    split; [|split; [|split]].
    + eapply sets_weaken; [|exact Hs]. intros k [<-|[]]; simpl; auto.
    + intros -> _. auto.
    + discriminate.
    + auto.
Qed.

Lemma no_handler_keys (key : string) :
  field_handlers key = None ->
  String.eqb key "brand" = false /\ key <> "offerPrice" /\ key <> "kgGross".
Proof.
  intros H. repeat split.
  - destruct (String.eqb key "brand") eqn:E; auto.
    apply String.eqb_eq in E. subst key. discriminate.
  - intros ->. discriminate.
  - intros ->. discriminate.
Qed.

(** One iteration writes its own key and derived keys only; its key ends up
    present, holding an absent value when the field is unresolvable. *)
Lemma set_field_effect (result : value) (key : string) (path : list string)
    (items : dict) (flag : bool) (items' : dict) (flag' : bool) :
  set_field result key path items flag = Ok (items', flag') ->
  sets (key :: derived_keys) items items'
  /\ (exists v, dict_lookup key items' = Some v
                /\ (unresolved result key path -> absent_value key v))
  /\ (key = "offerPrice" ->
      dict_mem "unitPriceWithOffer" items' = true
      /\ dict_mem "percentPromotion" items' = true)
  /\ (key = "kgGross" -> dict_mem "unitPrice" items' = true).
Proof.
  unfold set_field. destruct (get_value result path) as [raw|] eqn:Eg; [|discriminate].
  cbn [bind]. destruct (field_handlers key) as [h|] eqn:Eh.
  - destruct (h raw items flag result) as [[[v i1] f1]|] eqn:Er; [|discriminate].
    cbn [bind]. intros H; inversion H; subst; clear H.
    destruct (handler_effect _ _ _ _ _ _ _ _ _ Eh Er) as (Hs & Hv & Ho & Hk).
    split; [|split; [|split]].
    + apply sets_more; [simpl; auto|].
      eapply sets_weaken; [|exact Hs]. intros k Hk'. now right.
    + exists v. split; [apply dict_lookup_set_eq|].
      intros [Hu Hfb]. apply Hv; auto. congruence.
    + intros E. destruct (Ho E). split; now apply dict_mem_set_mono.
    + intros E. now apply dict_mem_set_mono, Hk.
  - intros H; inversion H; subst; clear H.
    destruct (no_handler_keys key Eh) as (Hb & Hno & Hnk).
    split; [|split; [|split]].
    + apply sets_more; [simpl; auto | apply sets_none].
    + exists raw. split; [apply dict_lookup_set_eq|].
      intros [Hu _]. unfold absent_value. rewrite Hb. right. congruence.
    + intros E. contradiction.
    + intros E. contradiction.
Qed.

(** The loop over a list of fields with distinct keys, none of them
    derived: every field of the list is present in the record produced. *)
Lemma run_fields_effect (result : value) (fields : list (string * list string)) :
  forall items flag r flag',
    NoDup (map fst fields) ->
    (forall k, In k (map fst fields) -> ~ In k derived_keys) ->
    run_fields result fields items flag = (Ok r, flag') ->
    sets (map fst fields ++ derived_keys) items r
    /\ (forall key path, In (key, path) fields ->
          (exists v, dict_lookup key r = Some v
                     /\ (unresolved result key path -> absent_value key v))
          /\ (key = "offerPrice" ->
              dict_mem "unitPriceWithOffer" r = true
              /\ dict_mem "percentPromotion" r = true)
          /\ (key = "kgGross" -> dict_mem "unitPrice" r = true)).
Proof.
  induction fields as [|[k0 p0] fields IH]; intros items flag r flag' Hnd Hder Hrun.
  - simpl in Hrun. inversion Hrun; subst. split; [apply sets_none|]. intros ? ? [].
  - cbn [run_fields] in Hrun.
    destruct (set_field result k0 p0 items flag) as [[i1 f1]|] eqn:Es; [|discriminate].
    simpl in Hnd. inversion Hnd as [|? ? Hnotin Hnd']; subst.
    assert (Hder' : forall k, In k (map fst fields) -> ~ In k derived_keys).
    { intros k Hk. apply Hder. now right. }
    destruct (IH _ _ _ _ Hnd' Hder' Hrun) as (Hs & Hall).
    destruct (set_field_effect _ _ _ _ _ _ _ Es) as (Hs0 & (v & Hv & Habs) & Ho & Hk).
    split.
    + apply sets_trans with i1.
      * eapply sets_weaken; [|exact Hs0].
        intros k [<-|Hk']; [now left|]. cbn [map fst app]. right.
        apply in_or_app. now right.
      * eapply sets_weaken; [|exact Hs]. intros k Hk'. now right.
    + intros key path [E|Hin].
      * inversion E; subst key path; clear E.
        split; [|split].
        -- exists v. split; auto.
           rewrite (sets_lookup _ _ _ k0 Hs); auto.
           intros Hin. apply in_app_or in Hin as [Hin|Hin]; [contradiction|].
           apply (Hder k0); [now left | exact Hin].
        -- intros E. destruct (Ho E). split; eapply sets_mem; eauto.
        -- intros E. eapply sets_mem; eauto.
      * now apply Hall.
Qed.

Lemma record_complete (URL_BASE product_id : string) (urljoin : string -> string -> string)
    (result : value) (flag : bool) (r : dict) :
  truthy result = true ->
  returned (parser_product_details URL_BASE product_id urljoin result flag) = Ok r ->
  (forall k, In k record_keys -> dict_mem k r = true)
  /\ (forall key path, In (key, path) fields_map ->
        exists v, dict_lookup key r = Some v
                  /\ (unresolved result key path -> absent_value key v)).
Proof.
  intros Ht. unfold parser_product_details. rewrite Ht. cbn [negb].
  destruct (run_fields result fields_map [] flag) as [[items|e] g] eqn:Er;
    [|intros H; discriminate H].
  assert (Hder : forall k, In k (map fst fields_map) -> ~ In k derived_keys).
  { intros k Hk Hd. apply (field_keys_not_derived k Hk). now right. }
  destruct (run_fields_effect _ _ _ _ _ _ field_keys_NoDup Hder Er) as (_ & Hall).
  destruct (add_link URL_BASE product_id urljoin items) as [items1|e] eqn:El;
    [|intros H; discriminate H].
  unfold add_link in El.
  destruct (py_replace (dict_get items "denomination" empty) " " "-") as [n|];
    [|discriminate].
  cbn [bind] in El. inversion El; subst items1; clear El.
  intros Hr.
  assert (Hr' : r = dict_set "link"
                      (VStr (urljoin URL_BASE (path_url product_id (str_replace "/" "-" n))))
                      items).
  { destruct g; simpl in Hr; congruence. }
  clear Hr. subst r.
  assert (Hfield : forall key path, In (key, path) fields_map ->
            exists v, dict_lookup key items = Some v
                      /\ (unresolved result key path -> absent_value key v)).
  { intros key path Hin. now destruct (Hall key path Hin) as (H & _). }
  split.
  - intros k Hk. unfold record_keys in Hk.
    apply in_app_or in Hk as [Hk|Hk].
    + apply dict_mem_set_mono. unfold field_keys in Hk.
      apply in_map_iff in Hk as ([key path] & <- & Hin).
      destruct (Hfield key path Hin) as (v & Hv & _).
      unfold dict_mem. cbn [fst]. now rewrite Hv.
    + simpl in Hk. destruct Hk as [<-|[<-|[<-|[<-|[]]]]].
      * apply dict_mem_set_mono.
        apply (Hall "offerPrice" (store ++ ["sellingPriceInfo"; "basePrice"]));
          [simpl; tauto | reflexivity].
      * apply dict_mem_set_mono.
        apply (Hall "offerPrice" (store ++ ["sellingPriceInfo"; "basePrice"]));
          [simpl; tauto | reflexivity].
      * apply dict_mem_set_mono.
        apply (Hall "kgGross" (store ++ ["sellingPriceInfo"; "kgGross"]));
          [simpl; tauto | reflexivity].
      * apply dict_mem_set_eq.
  - intros key path Hin. destruct (Hfield key path Hin) as (v & Hv & Ha).
    exists v. split; auto.
    rewrite dict_lookup_set_ne; auto.
    intros <-. apply (field_keys_not_derived "link"); [|now left].
    unfold field_keys. apply in_map_iff. now exists ("link", path).
Qed.


(** C8, as stated, fails for the brand: on a document without "brandName"
    the field is unresolvable, and the record holds the store label
    "MAKRO", which is neither None nor the empty sentinel. *)
Lemma brand_fallback_is_not_absent :
  exists r,
    returned (parser_product_details "https://tienda/" "1" append doc_without_fields false)
    = Ok r
    /\ unresolved doc_without_fields "brand" ["brandName"]
    /\ dict_lookup "brand" r = Some (VStr "MAKRO")
    /\ ~ (VStr "MAKRO" = VNone \/ VStr "MAKRO" = empty).
Proof.
  eexists. split; [vm_compute; reflexivity|].
  split; [split; [reflexivity | discriminate]|].
  split; [reflexivity|].
  intros [H|H]; discriminate H.
Qed.

(** C8, amended.  Every record returned for a non-empty document holds
    every key of the field map; when the field is unresolvable the value is
    None or the empty sentinel, except for the brand, whose value is then
    the store label "MAKRO". *)
Theorem record_has_every_field (URL_BASE product_id : string)
    (urljoin : string -> string -> string) (result : value) (flag : bool) (r : dict) :
  truthy result = true ->
  returned (parser_product_details URL_BASE product_id urljoin result flag) = Ok r ->
  forall key path,
    In (key, path) fields_map ->
    exists v, dict_lookup key r = Some v
              /\ (unresolved result key path -> absent_value key v).
Proof.
  intros Ht Hr. exact (proj2 (record_complete _ _ _ _ _ _ Ht Hr)).
Qed.

(** The record of [doc_without_fields] holds the denomination and the
    measuring unit. *)
Lemma record_has_every_field_witness :
  (exists v, dict_lookup "denomination"
               (absent_record (VStr "https://tienda/shop/pv/1/0032/0021/")) = Some v
             /\ (unresolved doc_without_fields "denomination"
                   ["variants"; "0032"; "description"] ->
                 absent_value "denomination" v))
  /\ (exists v, dict_lookup "measuringUnit"
                  (absent_record (VStr "https://tienda/shop/pv/1/0032/0021/")) = Some v
                /\ (unresolved doc_without_fields "measuringUnit"
                      (bundle ++ ["contentData"; "weightPerPiece"]) ->
                    absent_value "measuringUnit" v)).
Proof.
  split.
  - apply (record_has_every_field "https://tienda/" "1" append doc_without_fields false);
      [reflexivity | reflexivity | simpl; tauto].
  - apply (record_has_every_field "https://tienda/" "1" append doc_without_fields false);
      [reflexivity | reflexivity | simpl; tauto].
Defined.




(** * Further properties of the code *)

(** ** Path Resolver *)

(** X1.  [get_value] raises nothing but TypeError: the membership test
    protects every indexing of a dict, so no KeyError can leave it. *)
Theorem get_value_raises_only_type_error (chain : list string) :
  forall (obj : value) (e : exn), get_value obj chain = Raise e -> e = TypeError.
Proof.
  induction chain as [|key chain IH]; intros obj e; [discriminate|].
  cbn [get_value]. destruct (negb (truthy obj)); [discriminate|].
  destruct obj as [| b | z | f | s | l | d]; cbn [py_contains bind];
    try (intros H; inversion H; reflexivity).
  - destruct (is_substring key s); [|discriminate].
    destruct chain; cbn [py_getitem bind]; intros H; inversion H; reflexivity.
  - destruct (existsb _ l); [|discriminate].
    destruct chain; cbn [py_getitem bind]; intros H; inversion H; reflexivity.
  - unfold dict_mem. destruct (dict_lookup key d) as [v|] eqn:E; [|discriminate].
    destruct chain as [|k2 chain']; cbn [py_getitem bind]; rewrite E;
      [discriminate|].
    cbn [bind]. apply IH.
Qed.

Lemma get_value_raises_only_type_error_witness :
  TypeError = TypeError.
Proof.
  exact (get_value_raises_only_type_error ["variants"; "0032"]
           (VDict [("variants", VInt 5)]) TypeError eq_refl).
Defined.

(** X2.  Resolution composes: once a non-empty chain has resolved to a
    value, resolving a longer chain continues from that value. *)
Theorem get_value_app (p q : list string) :
  forall (obj v : value),
    p <> [] -> q <> [] ->
    get_value obj p = Ok v ->
    get_value obj (p ++ q) = get_value v q.
Proof.
  induction p as [|key p IH]; intros obj v Hp Hq; [congruence|].
  assert (Hempty : get_value empty q = Ok empty) by (now apply get_value_falsy).
  cbn [app get_value].
  destruct (negb (truthy obj)).
  { intros H. inversion H. now rewrite Hempty. }
  destruct (py_contains key obj) as [present|e]; cbn [bind]; [|discriminate].
  destruct present.
  2:{ intros H. inversion H. now rewrite Hempty. }
  destruct p as [|k2 p'].
  - cbn [app]. destruct q as [|k q']; [congruence|].
    intros H. rewrite H. reflexivity.
  - cbn [app]. destruct (py_getitem obj key) as [v1|e]; cbn [bind]; [|discriminate].
    intros H. apply (IH v1 v); auto. discriminate.
Qed.

Lemma get_value_app_witness :
  get_value (nest (bundle ++ ["details"; "features"]) (VInt 7))
    (bundle ++ ["details"; "features"])
  = get_value (nest ["details"; "features"] (VInt 7)) ["details"; "features"].
Proof.
  apply (get_value_app bundle ["details"; "features"]
           (nest (bundle ++ ["details"; "features"]) (VInt 7))
           (nest ["details"; "features"] (VInt 7)));
    [discriminate | discriminate | reflexivity].
Defined.

(** X3.  Whenever the chain of keys exists through nested dicts,
    [get_value] returns exactly the value stored at its end, whatever that
    value is: a stored null, zero or empty list is returned as it is and
    not as the empty sentinel. *)
Theorem get_value_walk (chain : list string) :
  forall (obj v : value),
    chain <> [] -> walk obj chain = Some v -> get_value obj chain = Ok v.
Proof.
  induction chain as [|key chain IH]; intros obj v Hne; [congruence|].
  cbn [walk]. destruct obj as [| | | | | |d]; try discriminate.
  destruct (dict_lookup key d) as [v1|] eqn:E; [|discriminate].
  destruct chain as [|k2 chain'].
  - cbn [walk]. intros H. inversion H; subst. now apply get_value_last.
  - intros H. rewrite (get_value_step d key k2 chain' v1 E).
    apply IH; [discriminate | exact H].
Qed.

Lemma get_value_walk_witness :
  get_value (priced_doc [] [("kgGross", VNone)])
    (store ++ ["sellingPriceInfo"; "kgGross"]) = Ok VNone.
Proof.
  apply get_value_walk; [discriminate | reflexivity].
Defined.

(** ** Strings as the handlers use them *)

Lemma lstrip_by_starts (p : ascii -> bool) (s : string) :
  starts_with (fun c => negb (p c)) (lstrip_by p s).
Proof.
  induction s as [|c s IH]; simpl; auto.
  destruct (p c) eqn:E; auto. simpl. now rewrite E.
Qed.

Lemma lstrip_by_fixed (p : ascii -> bool) (s : string) :
  starts_with (fun c => negb (p c)) s -> lstrip_by p s = s.
Proof.
  destruct s as [|c s]; simpl; auto.
  intros H. apply negb_true_iff in H. now rewrite H.
Qed.

Lemma rstrip_by_starts (p : ascii -> bool) (s : string) :
  starts_with (fun c => negb (p c)) s ->
  starts_with (fun c => negb (p c)) (rstrip_by p s).
Proof.
  destruct s as [|c s]; simpl; auto.
  intros H. apply negb_true_iff in H.
  destruct (rstrip_by p s); rewrite ?H; simpl; rewrite ?H; reflexivity.
Qed.

Lemma rstrip_by_idem (p : ascii -> bool) (s : string) :
  rstrip_by p (rstrip_by p s) = rstrip_by p s.
Proof.
  induction s as [|c s IH]; [reflexivity|].
  cbn [rstrip_by]. destruct (rstrip_by p s) as [|a r] eqn:E.
  - destruct (p c) eqn:Ec; [reflexivity|]. cbn [rstrip_by]. now rewrite Ec.
  - change (rstrip_by p (String c (String a r)))
      with (match rstrip_by p (String a r) with
            | EmptyString => if p c then EmptyString else String c EmptyString
            | String a' r' => String c (String a' r')
            end).
    now rewrite IH.
Qed.

Lemma strip_by_idem (p : ascii -> bool) (s : string) :
  strip_by p (strip_by p s) = strip_by p s.
Proof.
  unfold strip_by.
  rewrite lstrip_by_fixed by apply rstrip_by_starts, lstrip_by_starts.
  apply rstrip_by_idem.
Qed.

Lemma str_forall_app (q : ascii -> bool) (a b : string) :
  str_forall q (a ++ b) = str_forall q a && str_forall q b.
Proof. induction a as [|c a IH]; simpl; auto. now rewrite IH, andb_assoc. Qed.

Lemma lstrip_by_forall (q p : ascii -> bool) (s : string) :
  str_forall q s = true -> str_forall q (lstrip_by p s) = true.
Proof.
  induction s as [|c s IH]; simpl; auto.
  intros H. apply andb_true_iff in H as [Hc H].
  destruct (p c); auto. simpl. now rewrite Hc.
Qed.

Lemma rstrip_by_forall (q p : ascii -> bool) (s : string) :
  str_forall q s = true -> str_forall q (rstrip_by p s) = true.
Proof.
  induction s as [|c s IH]; simpl; auto.
  intros H. apply andb_true_iff in H as [Hc H]. specialize (IH H).
  destruct (rstrip_by p s) as [|a r].
  - destruct (p c); simpl; auto. now rewrite Hc.
  - cbn [str_forall]. now rewrite Hc.
Qed.

Lemma strip_by_forall (q p : ascii -> bool) (s : string) :
  str_forall q s = true -> str_forall q (strip_by p s) = true.
Proof. intros H. unfold strip_by. now apply rstrip_by_forall, lstrip_by_forall. Qed.

Lemma remove_digits_no_digit (s : string) : no_digit (remove_digits s) = true.
Proof.
  induction s as [|c s IH]; simpl; auto.
  destruct (is_digit c) eqn:E; auto.
  unfold no_digit in *. simpl. now rewrite E.
Qed.

(** ** Field Extractors *)

(** X4.  The category handler looks at the first node only: for every
    input that is not a non-empty list it returns None; for a non-empty
    list it never returns None, ignores every node after the first, and
    returns the first node's name with each " / " replaced by "/" (the
    empty string when the node has no name). *)
Theorem category_first_node :
  (forall val, ~ (exists x l, val = VList (x :: l)) ->
               _handle_category_in_supermarket val = Ok VNone)
  /\ (forall x l v, _handle_category_in_supermarket (VList (x :: l)) = Ok v ->
                    exists s, v = VStr s)
  /\ (forall x l l',
        _handle_category_in_supermarket (VList (x :: l))
        = _handle_category_in_supermarket (VList (x :: l')))
  /\ (forall d s l,
        dict_lookup "name" d = Some (VStr s) ->
        _handle_category_in_supermarket (VList (VDict d :: l))
        = Ok (VStr (str_replace " / " "/" s)))
  /\ (forall d l,
        dict_lookup "name" d = None ->
        _handle_category_in_supermarket (VList (VDict d :: l)) = Ok (VStr "")).
Proof.
  repeat split.
  - intros val H. destruct val as [| | | | |[|x l]|]; try reflexivity.
    exfalso. apply H. eauto.
  - intros x l v. unfold _handle_category_in_supermarket.
    destruct (py_get x "name" empty) as [n|]; cbn [bind]; [|discriminate].
    destruct (py_replace n " / " "/") as [s|]; cbn [bind]; [|discriminate].
    intros H. inversion H. eauto.
  - intros d s l H. unfold _handle_category_in_supermarket.
    cbn [py_get bind]. unfold dict_get. rewrite H. reflexivity.
  - intros d l H. unfold _handle_category_in_supermarket.
    cbn [py_get bind]. unfold dict_get. rewrite H. reflexivity.
Qed.

Lemma category_first_node_witness :
  _handle_category_in_supermarket
    (VList [VDict [("id", VInt 3); ("name", VStr "Dairy / Cheese")];
            VDict [("name", VStr "Other")]])
  = Ok (VStr "Dairy/Cheese")
  /\ _handle_category_in_supermarket (VDict [("name", VStr "Dairy")]) = Ok VNone.
Proof.
  destruct category_first_node as (H1 & _ & _ & H4 & _).
  split.
  - apply (H4 [("id", VInt 3); ("name", VStr "Dairy / Cheese")] "Dairy / Cheese").
    reflexivity.
  - apply H1. intros (x & l & H). discriminate H.
Defined.

(** X6.  The manufacturer handler returns None for every falsy value and,
    for a string, the pair of its name without surrounding whitespace and a
    null address; a whitespace-only name gives an empty name, not None; any
    other truthy value raises AttributeError. *)
Theorem manufacturer_trimmed (val : value) :
  (truthy val = false -> _handle_manufacturer val = Ok VNone)
  /\ (forall s, val = VStr s -> truthy val = true ->
        exists name,
          _handle_manufacturer val
          = Ok (VDict [("name", VStr name); ("address", VNone)])
          /\ name = str_strip s /\ trimmed name)
  /\ (truthy val = true -> (forall s, val <> VStr s) ->
      _handle_manufacturer val = Raise AttributeError).
Proof.
  unfold _handle_manufacturer. repeat split.
  - intros H. now rewrite H.
  - intros s -> H. rewrite H. exists (str_strip s).
    repeat split. unfold trimmed, str_strip. apply strip_by_idem.
  - intros H Hs. rewrite H.
    destruct val; try reflexivity. exfalso. now apply (Hs s).
Qed.

Lemma manufacturer_trimmed_witness :
  _handle_manufacturer (VStr "  ACME S.L. ")
  = Ok (VDict [("name", VStr "ACME S.L."); ("address", VNone)])
  /\ _handle_manufacturer (VStr "   ")
     = Ok (VDict [("name", VStr ""); ("address", VNone)])
  /\ _handle_manufacturer (VInt 5) = Raise AttributeError
  /\ _handle_manufacturer empty = Ok VNone.
Proof.
  split; [|split; [|split]].
  - destruct (proj1 (proj2 (manufacturer_trimmed (VStr "  ACME S.L. ")))
                "  ACME S.L. " eq_refl eq_refl) as (name & H & -> & _).
    exact H.
  - destruct (proj1 (proj2 (manufacturer_trimmed (VStr "   ")))
                "   " eq_refl eq_refl) as (name & H & -> & _).
    exact H.
  - apply (manufacturer_trimmed (VInt 5)); [reflexivity | discriminate].
  - apply (manufacturer_trimmed empty). reflexivity.
Defined.

Lemma convert_measure_unit (raw unit u v : value) :
  convert_measure raw unit = Ok (u, v) -> u <> VStr "GRAM" /\ u <> VStr "ML".
Proof.
  unfold convert_measure.
  destruct (py_eq unit (VStr "GRAM")) eqn:Eg.
  { destruct (if truthy raw then _ else _); cbn [bind]; [|discriminate].
    intros H; inversion H. split; discriminate. }
  destruct (py_eq unit (VStr "ML")) eqn:Em.
  { destruct (if truthy raw then _ else _); cbn [bind]; [|discriminate].
    intros H; inversion H. split; discriminate. }
  assert (Hg : unit <> VStr "GRAM").
  { intros ->. simpl in Eg. discriminate. }
  assert (Hm : unit <> VStr "ML").
  { intros ->. simpl in Em. discriminate. }
  destruct (_ || _).
  - intros H; inversion H; subst. auto.
  - intros H; inversion H; subst. unfold py_or.
    destruct (truthy unit); auto. split; discriminate.
Qed.

Lemma parser_measuring_shape (value_dict result v : value) :
  parser_measuring value_dict result = Ok v -> measurement v.
Proof.
  unfold parser_measuring.
  destruct (get_value result bundle_selector_path) as [fmt|]; cbn [bind]; [|discriminate].
  destruct (if truthy fmt then format_token fmt else Ok fmt) as [f|] eqn:Ef;
    cbn [bind]; [|discriminate].
  destruct (get_value result net_content_volume_path) as [other|]; cbn [bind];
    [|discriminate].
  destruct (py_get _ "value" VNone) as [raw|]; cbn [bind]; [|discriminate].
  destruct (py_get _ "uom" VNone) as [unit|]; cbn [bind]; [|discriminate].
  destruct (convert_measure raw unit) as [[u x]|] eqn:Ec; cbn [bind]; [|discriminate].
  intros H. inversion H; subst v. exists f, x, u.
  destruct (convert_measure_unit _ _ _ _ Ec) as [Hg Hm].
  repeat split; auto.
  intros t ->. destruct (truthy fmt) eqn:Et.
  - destruct fmt; try discriminate. simpl in Ef. inversion Ef.
    apply strip_by_forall, remove_digits_no_digit.
  - inversion Ef; subst fmt. simpl in Et. apply negb_false_iff in Et.
    apply String.eqb_eq in Et. now subst.
Qed.

(** X7.  The measuring-unit handler returns None exactly when it returns
    and neither the raw value nor the net piece weight is truthy; otherwise
    what it returns is a measurement: the keys format, value and unit, a
    unit that is never "GRAM" or "ML", and a format token without digits. *)
Theorem measuring_unit_shape (val result v : value) :
  _handle_measuring_unit val result = Ok v ->
  (v = VNone /\ truthy val = false
   /\ exists fb, get_value result net_piece_weight_path = Ok fb /\ truthy fb = false)
  \/ measurement v.
Proof.
  unfold _handle_measuring_unit. destruct (truthy val) eqn:Et.
  - intros H. right. eapply parser_measuring_shape; eauto.
  - destruct (get_value result net_piece_weight_path) as [fb|]; cbn [bind];
      [|discriminate].
    destruct (truthy fb) eqn:Ef.
    + intros H. right. eapply parser_measuring_shape; eauto.
    + intros H. inversion H. left. repeat split. eauto.
Qed.

Lemma measuring_unit_shape_witness :
  measurement
    (VDict [("format", VStr "x  g"); ("value", VFloat (dec "0.5")); ("unit", VStr "KG")]).
Proof.
  destruct (measuring_unit_shape
              (VDict [("value", VInt 500); ("uom", VStr "GRAM")])
              (nest bundle_selector_path (VStr "12x 500 g"))
              (VDict [("format", VStr "x  g"); ("value", VFloat (dec "0.5"));
                      ("unit", VStr "KG")])
              eq_refl) as [(H & _)|H]; [discriminate H | exact H].
Defined.

Lemma for_each_invariant {A S : Type} (P : S -> Prop) (body : S -> A -> res S) :
  (forall s x s', P s -> body s x = Ok s' -> P s') ->
  forall xs s s', P s -> for_each body xs s = Ok s' -> P s'.
Proof.
  intros Hbody. induction xs as [|x xs IH]; simpl; intros s s' Hs H.
  - inversion H. now subst.
  - destruct (body s x) as [s1|] eqn:E; [|discriminate]. cbn [bind] in H.
    eapply IH; [|exact H]. eapply Hbody; eauto.
Qed.

Lemma Forall_snoc {A : Type} (P : A -> Prop) (l : list A) (x : A) :
  Forall P l -> P x -> Forall P (l ++ [x]).
Proof. intros Hl Hx. apply Forall_app. split; auto. Qed.

Lemma collect_block_truthy (acc : list value) (block : value) (acc' : list value) :
  Forall (fun x => truthy x = true) acc ->
  collect_block acc block = Ok acc' ->
  Forall (fun x => truthy x = true) acc'.
Proof.
  intros Hacc. unfold collect_block.
  destruct (py_get block "label" VNone) as [label|]; cbn [bind]; [|discriminate].
  destruct (py_eq label (VStr ingredient_label)).
  2:{ intros H. inversion H. now subst. }
  destruct (py_get block "leafs" (VList [])) as [leafs|]; cbn [bind]; [|discriminate].
  destruct (py_iter leafs) as [ls|]; cbn [bind]; [|discriminate].
  apply for_each_invariant; auto.
  intros s x s' Hs. unfold collect_leaf.
  destruct (py_get x "label" VNone) as [text|]; cbn [bind]; [|discriminate].
  destruct (truthy text) eqn:Et; intros H; inversion H; subst; auto.
  now apply Forall_snoc.
Qed.

Lemma collect_block_skipped (blocks : list value) (acc : list value) :
  forallb block_skipped blocks = true ->
  for_each collect_block blocks acc = Ok acc.
Proof.
  induction blocks as [|b blocks IH]; simpl; intros H; [reflexivity|].
  apply andb_true_iff in H as [Hb H].
  destruct b as [| | | | | |d]; try discriminate.
  unfold collect_block at 1. cbn [py_get bind]. unfold block_skipped in Hb.
  apply negb_true_iff in Hb. rewrite Hb. cbn [bind]. auto.
Qed.

Lemma as_strings_truthy (parts : list value) (ss : list string) :
  Forall (fun x => truthy x = true) parts ->
  as_strings parts = Ok ss ->
  Forall (fun s => s <> EmptyString) ss /\ List.length ss = List.length parts.
Proof.
  revert ss. induction parts as [|x parts IH]; simpl; intros ss Hp H.
  - inversion H. split; auto.
  - inversion Hp as [|? ? Hx Hp']; subst.
    destruct x as [| | | |s| |]; try discriminate.
    destruct (as_strings parts) as [ss'|]; cbn [bind] in H; [|discriminate].
    inversion H; subst. destruct (IH ss' Hp' eq_refl) as [Hs Hl].
    split; [|simpl; congruence].
    constructor; auto. intros ->. discriminate Hx.
Qed.

Lemma str_join_nonempty (sep : string) (p : string) (ps : list string) :
  p <> EmptyString -> str_join sep (p :: ps) <> EmptyString.
Proof.
  intros Hp. destruct p as [|c p]; [congruence|].
  destruct ps; simpl; discriminate.
Qed.

(** X9.  The ingredients handler returns None or a non-empty string, never
    the empty string; it returns None when no block of the list carries the
    label "Listado de ingredientes", whatever else the blocks hold. *)
Theorem ingredients_text :
  (forall val v, _handle_ingredients val = Ok v ->
                 v = VNone \/ exists s, v = VStr s /\ s <> EmptyString)
  /\ (forall blocks, forallb block_skipped blocks = true ->
                     _handle_ingredients (VList blocks) = Ok VNone).
Proof.
  split.
  - intros val v. unfold _handle_ingredients.
    destruct (py_iter val) as [blocks|]; cbn [bind]; [|discriminate].
    destruct (for_each collect_block blocks []) as [ingredients|] eqn:E;
      cbn [bind]; [|discriminate].
    assert (Ht : Forall (fun x => truthy x = true) ingredients).
    { eapply (for_each_invariant _ collect_block); [|constructor|exact E].
      intros s x s'. apply collect_block_truthy. }
    destruct ingredients as [|i ingredients].
    + intros H. inversion H. auto.
    + destruct (as_strings (i :: ingredients)) as [ss|] eqn:Es; cbn [bind];
        [|discriminate].
      intros H. inversion H. right. eexists. split; [reflexivity|].
      destruct (as_strings_truthy _ _ Ht Es) as [Hs Hl].
      destruct ss as [|s ss]; [discriminate Hl|].
      apply str_join_nonempty. now inversion Hs.
  - intros blocks H. unfold _handle_ingredients. cbn [py_iter bind].
    now rewrite collect_block_skipped.
Qed.

Lemma ingredients_text_witness :
  _handle_ingredients
    (VList [VDict [("label", VStr "Alergenos"); ("leafs", VInt 3)];
            VDict [("label", VNone)]])
  = Ok VNone
  /\ (VStr "agua sal" = VNone \/ exists s, VStr "agua sal" = VStr s /\ s <> EmptyString).
Proof.
  destruct ingredients_text as [H1 H2]. split.
  - apply H2. reflexivity.
  - apply (H1 (VList [VDict [("label", VStr "Listado de ingredientes");
                             ("leafs", VList [VDict [("label", VStr "agua")];
                                              VDict [("label", VStr "")];
                                              VDict [("label", VStr "sal")]])]])).
    reflexivity.
Defined.

(** ** Nutrition table *)

Lemma dict_set_In (k : string) (v : value) (d : dict) (k' : string) (v' : value) :
  In (k', v') (dict_set k v d) -> v' = v \/ In (k', v') d.
Proof.
  induction d as [|[k0 v0] d IH]; simpl.
  - intros [H|[]]. inversion H. auto.
  - destruct (String.eqb k k0) eqn:E; simpl.
    + intros [H|H]; [inversion H; auto | auto].
    + intros [H|H]; auto. destruct (IH H); auto.
Qed.

Lemma dict_set_keys (k : string) (v : value) (d : dict) (k' : string) :
  In k' (map fst (dict_set k v d)) -> k' = k \/ In k' (map fst d).
Proof.
  induction d as [|[k0 v0] d IH]; simpl.
  - intros [H|[]]; auto.
  - destruct (String.eqb k k0) eqn:E; simpl.
    + intros [H|H]; auto.
    + intros [H|H]; auto. destruct (IH H); auto.
Qed.

Lemma dict_set_NoDup (k : string) (v : value) (d : dict) :
  NoDup (map fst d) -> NoDup (map fst (dict_set k v d)).
Proof.
  induction d as [|[k0 v0] d IH]; simpl; intros H.
  - constructor; [intros [] | constructor].
  - inversion H as [|? ? Hn Hd]; subst.
    destruct (String.eqb k k0) eqn:E; simpl.
    + constructor; auto.
    + constructor; auto.
      intros Hin. apply dict_set_keys in Hin as [->|Hin]; auto.
      rewrite String.eqb_refl in E. discriminate.
Qed.

Lemma dict_set_key_In (k : string) (v : value) (d : dict) (k' : string) (v' : value) :
  In (k', v') (dict_set k v d) -> k' = k \/ In (k', v') d.
Proof.
  induction d as [|[k0 v0] d IH]; simpl.
  - intros [H|[]]. inversion H. auto.
  - destruct (String.eqb k k0) eqn:E; simpl.
    + apply String.eqb_eq in E. subst k0.
      intros [H|H]; [inversion H; auto | auto].
    + intros [H|H]; auto. destruct (IH H); auto.
Qed.

Lemma assoc_str_In (s key : string) (l : list (string * string)) :
  assoc_str s l = Some key -> In key (map snd l).
Proof.
  induction l as [|[k v] l IH]; simpl; [discriminate|].
  destruct (String.eqb s k); [intros H; inversion H; auto | auto].
Qed.

Lemma nutrition_row_table (items : dict) (row : value) (items' : dict) :
  nutrition_table items -> nutrition_row items row = Ok items' -> nutrition_table items'.
Proof.
  intros [Hnd Hall]. unfold nutrition_row.
  destruct (py_get row "rowLabel" VNone) as [label|]; cbn [bind]; [|discriminate].
  destruct (fields_get label) as [[key|]|] eqn:Ef; cbn [bind]; try discriminate.
  2:{ intros H. inversion H. subst. split; auto. }
  destruct (py_get row "cells" (VList [])) as [aux|]; cbn [bind]; [|discriminate].
  destruct (truthy aux).
  2:{ intros H. inversion H. subst. split; auto. }
  destruct (first_item aux) as [data|]; cbn [bind]; [|discriminate].
  destruct data as [| | | | | |d];
    try (intros H; inversion H; subst; split; auto; fail).
  intros H. inversion H; subst items'; clear H. split.
  - now apply dict_set_NoDup.
  - intros k v Hin.
    assert (Hkey : In key nutrient_keys).
    { destruct label; try discriminate. cbn [fields_get] in Ef.
      inversion Ef as [Ea]. unfold nutrient_keys. eapply assoc_str_In. exact Ea. }
    destruct (dict_set_key_In _ _ _ _ _ Hin) as [->|Hold].
    + split; auto. destruct (dict_set_In _ _ _ _ _ Hin) as [->|Hold].
      * unfold nutrient_entry. eauto.
      * now apply (Hall key v).
    + now apply Hall.
Qed.

(** X10.  The mapping the nutrition handler returns has pairwise distinct
    keys, each one of the eight canonical nutrient keys, and every entry is
    a dict of exactly "value" and "unit". *)
Theorem nutrition_table_keys (val : value) (m : dict) :
  _handle_nutrition val = Ok (VDict m) ->
  NoDup (map fst m)
  /\ forall k v, In (k, v) m -> In k nutrient_keys /\ nutrient_entry v.
Proof.
  destruct val as [| | | | | |d]; try discriminate.
  unfold _handle_nutrition.
  destruct (py_iter (dict_get d "rows" (VList []))) as [rows|]; cbn [bind];
    [|discriminate].
  destruct (for_each nutrition_row rows []) as [items|] eqn:E; cbn [bind];
    [|discriminate].
  intros H. inversion H; subst m.
  apply (for_each_invariant nutrition_table nutrition_row nutrition_row_table rows [] items);
    auto.
  split; [constructor | intros k v []].
Qed.

Lemma nutrition_table_keys_witness :
  NoDup ["fat"; "salt"]
  /\ forall k v,
       In (k, v) [("fat", VDict [("value", VStr "3"); ("unit", VStr "g")]);
                  ("salt", VDict [("value", VNone); ("unit", VNone)])] ->
       In k nutrient_keys /\ nutrient_entry v.
Proof.
  exact (nutrition_table_keys
           (VDict [("rows",
                    VList [VDict [("rowLabel", VStr "Grasas");
                                  ("cells", VList [VDict [("value", VStr "12");
                                                          ("unitOfMeasure", VStr "g")]])];
                           VDict [("rowLabel", VStr "Sal"); ("cells", VList [VDict []])];
                           VDict [("rowLabel", VStr "Otros"); ("cells", VInt 1)];
                           VDict [("rowLabel", VStr "Grasas");
                                  ("cells", VList [VDict [("value", VStr "3");
                                                          ("unitOfMeasure", VStr "g")]])]])])
           [("fat", VDict [("value", VStr "3"); ("unit", VStr "g")]);
            ("salt", VDict [("value", VNone); ("unit", VNone)])]
           eq_refl).
Defined.

(** ** Characteristics *)

Lemma str_forall_of_list (q : ascii -> bool) (l : list ascii) :
  str_forall q (string_of_list_ascii l) = forallb q l.
Proof. induction l as [|c l IH]; simpl; auto. now rewrite IH. Qed.

Lemma split_ws_words (s : string) :
  forall cur, forallb (fun c => negb (is_space c)) cur = true ->
              Forall word (split_ws_from cur s).
Proof.
  assert (Hflush : forall cur,
             forallb (fun c => negb (is_space c)) cur = true ->
             Forall word match cur with
                         | [] => []
                         | _ => [string_of_list_ascii (rev cur)]
                         end).
  { intros cur Hc. destruct cur as [|c cur]; constructor; [|constructor].
    split.
    - intros H. apply (f_equal list_ascii_of_string) in H.
      rewrite list_ascii_of_string_of_list_ascii in H. simpl in H.
      destruct (rev cur); discriminate.
    - rewrite str_forall_of_list. apply forallb_forall. intros x Hx.
      apply in_rev in Hx. rewrite forallb_forall in Hc. now apply Hc. }
  induction s as [|c s IH]; intros cur Hc; cbn [split_ws_from].
  - now apply Hflush.
  - destruct (is_space c) eqn:E.
    + apply Forall_app. split; [now apply Hflush | now apply IH].
    + apply IH. simpl. now rewrite E.
Qed.

Lemma split_ws_nonempty (s : string) :
  forall cur, cur <> [] \/ has_nonspace s = true -> split_ws_from cur s <> [].
Proof.
  induction s as [|c s IH]; intros cur H; cbn [split_ws_from].
  - destruct H as [H|H]; [|discriminate]. destruct cur; [congruence|discriminate].
  - destruct (is_space c) eqn:E.
    + destruct cur as [|a cur].
      * cbn [app]. apply IH. right. destruct H as [H|H]; [congruence|].
        unfold has_nonspace in *. simpl in H. now rewrite E in H.
      * discriminate.
    + apply IH. left. discriminate.
Qed.

Lemma has_nonspace_app (a b : string) :
  has_nonspace (a ++ b) = has_nonspace a || has_nonspace b.
Proof.
  unfold has_nonspace. rewrite str_forall_app. apply negb_andb.
Qed.

Lemma str_join_has_nonspace (sep p : string) (ps : list string) :
  has_nonspace p = true -> has_nonspace (str_join sep (p :: ps)) = true.
Proof.
  intros H. destruct ps; cbn [str_join]; auto.
  rewrite has_nonspace_app, H. reflexivity.
Qed.

Lemma characteristics_row_entries (acc : list string) (row : value) (acc' : list string) :
  Forall (fun e => has_nonspace e = true) acc ->
  characteristics_row acc row = Ok acc' ->
  Forall (fun e => has_nonspace e = true) acc'.
Proof.
  intros Hacc. unfold characteristics_row.
  destruct (py_get row "rowLabel" empty) as [raw|]; cbn [bind]; [|discriminate].
  destruct (py_strip raw) as [label|]; cbn [bind]; [|discriminate].
  destruct (py_get row "cells" (VList [])) as [cells|]; cbn [bind]; [|discriminate].
  destruct (String.eqb label EmptyString).
  { intros H. inversion H. now subst. }
  destruct (py_iter cells) as [cs|]; cbn [bind]; [|discriminate].
  apply for_each_invariant; auto.
  intros s x s' Hs. unfold characteristics_cell.
  destruct (cell_text x) as [text|]; cbn [bind]; [|discriminate].
  destruct (String.eqb text EmptyString); intros H; inversion H; subst; auto.
  apply Forall_snoc; auto.
  rewrite !has_nonspace_app. apply orb_true_iff. right. reflexivity.
Qed.

(** X11.  The characteristics handler returns None for anything that is
    not a dict, and otherwise None or a whitespace-normalised text: one or
    more non-empty words free of whitespace, joined by single spaces. *)
Theorem characteristics_normalised (val v : value) :
  _handle_characteristics val = Ok v ->
  v = VNone
  \/ exists words, words <> [] /\ Forall word words /\ v = VStr (str_join " " words).
Proof.
  destruct val as [| | | | | |d]; try (intros H; inversion H; auto; fail).
  unfold _handle_characteristics.
  set (rows := dict_get d "rows" VNone).
  destruct (if truthy rows then _ else _) as [cs|] eqn:E; cbn [bind]; [|discriminate].
  assert (Hcs : Forall (fun e => has_nonspace e = true) cs).
  { destruct (truthy rows).
    - destruct (py_iter rows) as [rs|]; cbn [bind] in E; [|discriminate].
      eapply (for_each_invariant _ characteristics_row); [|constructor|exact E].
      intros s x s'. apply characteristics_row_entries.
    - inversion E. constructor. }
  destruct cs as [|c cs]; intros H; inversion H; [auto|].
  right. exists (str_split (str_join ". " (c :: cs))). repeat split.
  - apply split_ws_nonempty. right. apply str_join_has_nonspace.
    now inversion Hcs.
  - now apply split_ws_words.
Qed.

Lemma characteristics_normalised_witness :
  VStr "Origen: Espa a UE. Peso: 1 kg" = VNone
  \/ exists words,
       words <> [] /\ Forall word words
       /\ VStr "Origen: Espa a UE. Peso: 1 kg" = VStr (str_join " " words).
Proof.
  apply (characteristics_normalised
           (VDict [("rows",
                    VList [VDict [("rowLabel", VStr " Origen ");
                                  ("cells", VList [VDict [("a", VStr " Espa a ");
                                                          ("b", VStr "");
                                                          ("c", VStr " UE")]])];
                           VDict [("rowLabel", VStr "  ");
                                  ("cells", VInt 3)];
                           VDict [("rowLabel", VStr "Peso");
                                  ("cells", VList [VDict [("v", VStr "1   kg")]])]])])).
  vm_compute. reflexivity.
Defined.

(** ** Promotion Evaluator and Unit-Price Reconstructor: what they touch *)

(** X12.  Whatever branch the offer-price handler takes, it leaves every
    key of the record other than unitPriceWithOffer and percentPromotion as
    it found it, leaves those two present, and returns None or the raw
    value; it discards a raw value only when that value equals the shelf
    price of the record. *)
Theorem offer_price_frame (val : value) (items : dict) (result v : value) (items' : dict) :
  _handle_offer_price val items result = Ok (v, items') ->
  (forall k, k <> "unitPriceWithOffer" -> k <> "percentPromotion" ->
             dict_lookup k items' = dict_lookup k items)
  /\ dict_mem "unitPriceWithOffer" items' = true
  /\ dict_mem "percentPromotion" items' = true
  /\ (v = val \/ (v = VNone /\ py_eq val (dict_get items "price" VNone) = true)).
Proof.
  intros H. destruct (offer_price_effect _ _ _ _ _ H) as (Hs & Ha & Hb & Hv).
  repeat split; auto.
  - intros k H1 H2. apply (sets_lookup _ _ _ k Hs).
    intros [E|[E|[]]]; congruence.
  - revert H. unfold _handle_offer_price. fold (offer_reset items).
    rewrite offer_reset_price.
    destruct (py_eq val (dict_get items "price" VNone)).
    + intros _. destruct Hv; auto.
    + destruct (try_except _ _) as [i1|]; cbn [bind]; [|discriminate].
      destruct (try_except _ _) as [i2|]; cbn [bind]; [|discriminate].
      intros H. inversion H. auto.
Qed.

Lemma offer_price_frame_witness :
  dict_lookup "units"
    [("units", VInt 2); ("price", VInt 3); ("unitPriceWithOffer", VNone);
     ("percentPromotion", VNone)]
  = dict_lookup "units" [("units", VInt 2); ("price", VInt 3)].
Proof.
  apply (offer_price_frame (VInt 3) [("units", VInt 2); ("price", VInt 3)]
           (VDict []) VNone
           [("units", VInt 2); ("price", VInt 3); ("unitPriceWithOffer", VNone);
            ("percentPromotion", VNone)] eq_refl); discriminate.
Defined.

(** X13.  The unit-price handler always returns the raw value, writes the
    key unitPrice and no other, stores the raw value itself when it is not
    None, never clears the global flag, and raises it only when the raw
    value is None and the reconstruction computed the price it stored. *)
Theorem kg_gross_frame (val : value) (items : dict) (flag : bool) (result v : value)
    (items' : dict) (flag' : bool) :
  _handle_kg_gross val items flag result = Ok (v, items', flag') ->
  v = val
  /\ (forall k, k <> "unitPrice" -> dict_lookup k items' = dict_lookup k items)
  /\ (exists p, dict_lookup "unitPrice" items' = Some p /\ (val <> VNone -> p = val))
  /\ (flag = true -> flag' = true)
  /\ (flag' <> flag ->
      val = VNone
      /\ exists p, unit_price_fallback items = Ok p
                   /\ dict_lookup "unitPrice" items' = Some p).
Proof.
  unfold _handle_kg_gross.
  assert (Hf : forall x k, k <> "unitPrice" ->
                 dict_lookup k (dict_set "unitPrice" x items) = dict_lookup k items).
  { intros x k Hk. apply dict_lookup_set_ne. congruence. }
  destruct (is_none val) eqn:En.
  - destruct val; try discriminate.
    destruct (get_value result net_price_path) as [alt|]; cbn [bind]; [|discriminate].
    destruct (is_int_or_float alt).
    + intros H. inversion H; subst. repeat split; auto; try congruence.
      exists alt. split; [apply dict_lookup_set_eq | congruence].
    + destruct (unit_price_fallback items) as [p|e] eqn:Ep; cbn [bind try_except].
      * intros H. inversion H; subst. repeat split; auto.
        -- exists p. split; [apply dict_lookup_set_eq | congruence].
        -- exists p. split; [reflexivity | apply dict_lookup_set_eq].
      * destruct (caught e); [|discriminate].
        intros H. inversion H; subst. repeat split; auto; try congruence.
        exists VNone. split; [apply dict_lookup_set_eq | congruence].
  - intros H. inversion H; subst. repeat split; auto; try congruence.
    exists v. split; [apply dict_lookup_set_eq | auto].
Qed.

Lemma kg_gross_frame_witness :
  VFloat (dec "7.5") = VFloat (dec "7.5")
  /\ (forall k, k <> "unitPrice" ->
        dict_lookup k [("units", VInt 2); ("unitPrice", VFloat (dec "7.5"))]
        = dict_lookup k [("units", VInt 2)]).
Proof.
  destruct (kg_gross_frame (VFloat (dec "7.5")) [("units", VInt 2)] true (VDict [])
              (VFloat (dec "7.5")) [("units", VInt 2); ("unitPrice", VFloat (dec "7.5"))]
              true eq_refl) as (H1 & H2 & _).
  split; assumption.
Defined.

(** ** Record Assembler: how the iterations compose *)

(** Every handler but the two price handlers leaves the record and the
    flag alone. *)
Lemma plain_handler_frame (key : string) (h : handler) (raw : value) (items : dict)
    (flag : bool) (result v : value) (items' : dict) (flag' : bool) :
  field_handlers key = Some h ->
  key <> "offerPrice" -> key <> "kgGross" ->
  h raw items flag result = Ok (v, items', flag') ->
  items' = items /\ flag' = flag.
Proof.
  handler_cases key; intros H; inversion H; subst h; clear H;
    match goal with
    | E : String.eqb key _ = true |- _ => apply String.eqb_eq in E; subst key
    end;
    intros Ho Hk Hrun; try congruence;
    unfold pure_handler in Hrun;
    match type of Hrun with
    | bind ?c _ = _ => destruct c; [|discriminate]
    end;
    cbn [bind] in Hrun; inversion Hrun; auto.
Qed.

Lemma set_field_frame (result : value) (key : string) (path : list string)
    (items : dict) (flag : bool) (items' : dict) (flag' : bool) :
  key <> "offerPrice" -> key <> "kgGross" ->
  set_field result key path items flag = Ok (items', flag') ->
  sets [key] items items' /\ flag' = flag.
Proof.
  intros Ho Hk. unfold set_field.
  destruct (get_value result path) as [raw|]; cbn [bind]; [|discriminate].
  destruct (field_handlers key) as [h|] eqn:Eh.
  - destruct (h raw items flag result) as [[[v i1] f1]|] eqn:Er; cbn [bind];
      [|discriminate].
    destruct (plain_handler_frame _ _ _ _ _ _ _ _ _ Eh Ho Hk Er) as [-> ->].
    intros H. inversion H; subst. split; auto.
    apply sets_more; [simpl; auto | apply sets_none].
  - intros H. inversion H; subst. split; auto.
    apply sets_more; [simpl; auto | apply sets_none].
Qed.

Lemma run_fields_frame (result : value) (fields : list (string * list string)) :
  forall items flag r flag',
    ~ In "offerPrice" (map fst fields) -> ~ In "kgGross" (map fst fields) ->
    run_fields result fields items flag = (Ok r, flag') ->
    sets (map fst fields) items r /\ flag' = flag.
Proof.
  induction fields as [|[k0 p0] fields IH]; intros items flag r flag' Ho Hk Hrun.
  - simpl in Hrun. inversion Hrun; subst. split; [apply sets_none | reflexivity].
  - cbn [run_fields] in Hrun. simpl in Ho, Hk.
    destruct (set_field result k0 p0 items flag) as [[i1 f1]|] eqn:Es; [|discriminate].
    destruct (set_field_frame _ _ _ _ _ _ _
                (fun E => Ho (or_introl E)) (fun E => Hk (or_introl E)) Es) as [Hs ->].
    destruct (IH _ _ _ _ (fun E => Ho (or_intror E)) (fun E => Hk (or_intror E)) Hrun)
      as [Hs' ->].
    split; auto.
    apply sets_trans with i1.
    + eapply sets_weaken; [|exact Hs]. intros k [<-|[]]. now left.
    + eapply sets_weaken; [|exact Hs']. intros k Hin. now right.
Qed.

Lemma run_fields_app (result : value) (l1 l2 : list (string * list string)) :
  forall items flag r flag',
    run_fields result (l1 ++ l2) items flag = (Ok r, flag') ->
    exists items1 flag1,
      run_fields result l1 items flag = (Ok items1, flag1)
      /\ run_fields result l2 items1 flag1 = (Ok r, flag').
Proof.
  induction l1 as [|[k p] l1 IH]; intros items flag r flag' H.
  - exists items, flag. auto.
  - cbn [app run_fields] in *.
    destruct (set_field result k p items flag) as [[i1 f1]|]; [|discriminate].
    now apply IH.
Qed.

(** The record returned, before the link is added. *)
Lemma returned_record (URL_BASE product_id : string) (urljoin : string -> string -> string)
    (result : value) (flag : bool) (r : dict) :
  truthy result = true ->
  returned (parser_product_details URL_BASE product_id urljoin result flag) = Ok r ->
  exists items flag' s,
    run_fields result fields_map [] flag = (Ok items, flag')
    /\ dict_get items "denomination" empty = VStr s
    /\ r = dict_set "link"
             (VStr (urljoin URL_BASE
                      (path_url product_id (str_replace "/" "-" (str_replace " " "-" s)))))
             items.
Proof.
  intros Ht. unfold parser_product_details. rewrite Ht. cbn [negb].
  destruct (run_fields result fields_map [] flag) as [[items|e] g];
    [|intros H; discriminate H].
  unfold add_link.
  destruct (dict_get items "denomination" empty) as [| | | |s| |] eqn:Ed;
    cbn [py_replace bind]; try (intros H; discriminate H).
  intros H. exists items, g, s.
  split; [reflexivity|]. split; [exact Ed|].
  destruct g; cbn [returned] in H; inversion H; reflexivity.
Qed.

(** X14.  When the kgGross path resolves to a value other than None, every
    returned record holds that very value both under kgGross and under
    unitPrice: no later field overwrites either. *)
Theorem unit_price_is_kg_gross (URL_BASE product_id : string)
    (urljoin : string -> string -> string) (result : value) (flag : bool) (r : dict)
    (raw : value) :
  truthy result = true ->
  returned (parser_product_details URL_BASE product_id urljoin result flag) = Ok r ->
  get_value result kg_gross_path = Ok raw ->
  raw <> VNone ->
  dict_lookup "kgGross" r = Some raw /\ dict_lookup "unitPrice" r = Some raw.
Proof.
  intros Ht Hr Hraw Hne.
  destruct (returned_record _ _ _ _ _ _ Ht Hr) as (items & g & s & Hrun & _ & ->).
  rewrite !dict_lookup_set_ne by discriminate.
  change fields_map
    with (fields_before_kg_gross ++ [("kgGross", kg_gross_path)] ++ fields_after_kg_gross)
    in Hrun.
  apply run_fields_app in Hrun as (i1 & f1 & _ & Hrun).
  apply run_fields_app in Hrun as (i2 & f2 & Hkg & Hpost).
  cbn [run_fields] in Hkg. unfold set_field in Hkg. rewrite Hraw in Hkg.
  cbn [bind] in Hkg.
  change (field_handlers "kgGross") with (Some _handle_kg_gross) in Hkg.
  unfold _handle_kg_gross in Hkg.
  replace (is_none raw) with false in Hkg by (destruct raw; [congruence | reflexivity ..]).
  cbn [bind] in Hkg. inversion Hkg; subst i2 f2; clear Hkg.
  apply run_fields_frame in Hpost as [Hs _];
    [|apply not_In_eqb; reflexivity | apply not_In_eqb; reflexivity].
  rewrite !(sets_lookup _ _ _ _ Hs) by (apply not_In_eqb; reflexivity).
  split.
  - apply dict_lookup_set_eq.
  - rewrite dict_lookup_set_ne by discriminate. apply dict_lookup_set_eq.
Qed.

Lemma unit_price_is_kg_gross_witness :
  exists r,
    returned (parser_product_details "https://tienda/" "1" append
                (priced_doc [] [("kgGross", VFloat (dec "7.5"))]) false) = Ok r
    /\ dict_lookup "kgGross" r = Some (VFloat (dec "7.5"))
    /\ dict_lookup "unitPrice" r = Some (VFloat (dec "7.5")).
Proof.
  eexists. split.
  - vm_compute. reflexivity.
  - apply (unit_price_is_kg_gross "https://tienda/" "1" append
             (priced_doc [] [("kgGross", VFloat (dec "7.5"))]) false _
             (VFloat (dec "7.5")) eq_refl);
      [vm_compute; reflexivity | reflexivity | discriminate].
Defined.

Section FieldPost.

Variable result : value.
Variable P : string -> value -> value -> Prop.

Hypothesis handled :
  forall key h raw items flag v items' flag',
    field_handlers key = Some h ->
    h raw items flag result = Ok (v, items', flag') -> P key raw v.

Hypothesis verbatim :
  forall key raw, field_handlers key = None -> P key raw raw.

Lemma set_field_post (key : string) (path : list string) (items : dict) (flag : bool)
    (items' : dict) (flag' : bool) :
  set_field result key path items flag = Ok (items', flag') ->
  exists raw v,
    get_value result path = Ok raw /\ dict_lookup key items' = Some v /\ P key raw v.
Proof.
  unfold set_field.
  destruct (get_value result path) as [raw|]; cbn [bind]; [|discriminate].
  destruct (field_handlers key) as [h|] eqn:Eh.
  - destruct (h raw items flag result) as [[[v i1] f1]|] eqn:Er; cbn [bind];
      [|discriminate].
    intros H. inversion H; subst. exists raw, v.
    repeat split; [apply dict_lookup_set_eq | eauto].
  - intros H. inversion H; subst. exists raw, raw.
    repeat split; [apply dict_lookup_set_eq | auto].
Qed.

Lemma run_fields_post (fields : list (string * list string)) :
  forall items flag r flag',
    NoDup (map fst fields) ->
    (forall k, In k (map fst fields) -> ~ In k derived_keys) ->
    run_fields result fields items flag = (Ok r, flag') ->
    forall key path,
      In (key, path) fields ->
      exists raw v,
        get_value result path = Ok raw /\ dict_lookup key r = Some v /\ P key raw v.
Proof.
  induction fields as [|[k0 p0] fields IH]; intros items flag r flag' Hnd Hder Hrun;
    [intros ? ? []|].
  cbn [run_fields] in Hrun.
  destruct (set_field result k0 p0 items flag) as [[i1 f1]|] eqn:Es; [|discriminate].
  simpl in Hnd. inversion Hnd as [|? ? Hnotin Hnd']; subst.
  assert (Hder' : forall k, In k (map fst fields) -> ~ In k derived_keys).
  { intros k Hk. apply Hder. now right. }
  intros key path [E|Hin].
  - inversion E; subst key path; clear E.
    destruct (set_field_post _ _ _ _ _ _ Es) as (raw & v & Hg & Hv & Hp).
    exists raw, v. repeat split; auto.
    destruct (run_fields_effect _ _ _ _ _ _ Hnd' Hder' Hrun) as (Hs & _).
    rewrite (sets_lookup _ _ _ k0 Hs); auto.
    intros Hin. apply in_app_or in Hin as [Hin|Hin]; [contradiction|].
    apply (Hder k0); [now left | exact Hin].
  - eapply IH; eauto.
Qed.

End FieldPost.

Lemma record_field_post (URL_BASE product_id : string) (urljoin : string -> string -> string)
    (result : value) (flag : bool) (r : dict) (P : string -> value -> value -> Prop) :
  (forall key h raw items flag v items' flag',
      field_handlers key = Some h ->
      h raw items flag result = Ok (v, items', flag') -> P key raw v) ->
  (forall key raw, field_handlers key = None -> P key raw raw) ->
  truthy result = true ->
  returned (parser_product_details URL_BASE product_id urljoin result flag) = Ok r ->
  forall key path,
    In (key, path) fields_map ->
    exists raw v,
      get_value result path = Ok raw /\ dict_lookup key r = Some v /\ P key raw v.
Proof.
  intros Hh Hv Ht Hr key path Hin.
  destruct (returned_record _ _ _ _ _ _ Ht Hr) as (items & g & s & Hrun & _ & ->).
  assert (Hder : forall k, In k (map fst fields_map) -> ~ In k derived_keys).
  { intros k Hk Hd. apply (field_keys_not_derived k Hk). now right. }
  destruct (run_fields_post result P Hh Hv _ _ _ _ _ field_keys_NoDup Hder Hrun key path Hin)
    as (raw & v & Hg & Hl & Hp).
  exists raw, v. repeat split; auto.
  rewrite dict_lookup_set_ne; auto.
  intros <-. apply (field_keys_not_derived "link"); [|now left].
  unfold field_keys. apply in_map_iff. now exists ("link", path).
Qed.



(** X8.  The brand of a returned record is never empty: it is the value
    under "brandName" when that value is truthy, and the store label
    "MAKRO" otherwise, also for a brand given as 0, null or an empty list. *)
Theorem record_brand (URL_BASE product_id : string)
    (urljoin : string -> string -> string) (result : value) (flag : bool) (r : dict) :
  truthy result = true ->
  returned (parser_product_details URL_BASE product_id urljoin result flag) = Ok r ->
  exists raw v,
    get_value result ["brandName"] = Ok raw
    /\ dict_lookup "brand" r = Some v
    /\ truthy v = true
    /\ (truthy raw = true -> v = raw)
    /\ (truthy raw = false -> v = VStr "MAKRO").
Proof.
  intros Ht Hr.
  destruct (record_field_post URL_BASE product_id urljoin result flag r
              (fun key raw v =>
                 key = "brand" ->
                 truthy v = true /\ (truthy raw = true -> v = raw)
                 /\ (truthy raw = false -> v = VStr "MAKRO")))
    with (key := "brand") (path := ["brandName"]) as (raw & v & Hg & Hl & Hp); auto.
  - intros key h raw items flag0 v items' flag' Eh Hrun ->.
    inversion Eh; subst h. unfold pure_handler, _handle_brand in Hrun.
    cbn [bind] in Hrun. inversion Hrun.
    destruct (truthy raw) eqn:E; repeat split; auto; discriminate.
  - intros key raw Eh ->. discriminate Eh.
  - simpl. tauto.
  - exists raw, v. destruct (Hp eq_refl) as (H1 & H2 & H3). auto.
Qed.

Lemma record_brand_witness :
  exists raw v,
    get_value (VDict [("brandName", VInt 0)]) ["brandName"] = Ok raw
    /\ dict_lookup "brand" (absent_record (VStr "https://tienda/shop/pv/1/0032/0021/"))
       = Some v
    /\ truthy v = true
    /\ (truthy raw = true -> v = raw)
    /\ (truthy raw = false -> v = VStr "MAKRO").
Proof.
  apply (record_brand "https://tienda/" "1" append (VDict [("brandName", VInt 0)]) false);
    [reflexivity | vm_compute; reflexivity].
Defined.

(** ** Link and audit flag *)

Lemma replace_from_forall (q : ascii -> bool) (old new : string) :
  str_forall q new = true ->
  forall s skip, str_forall q s = true -> str_forall q (replace_from old new skip s) = true.
Proof.
  intros Hnew. induction s as [|c s IH]; intros skip Hs; [reflexivity|].
  simpl in Hs. apply andb_true_iff in Hs as [Hc Hs].
  cbn [replace_from]. destruct skip as [|k]; [|auto].
  destruct (prefix old (String c s)).
  - rewrite str_forall_app, Hnew. cbn [andb]. auto.
  - cbn [str_forall]. rewrite Hc. cbn [andb]. auto.
Qed.

Lemma replace_char_gone (c : ascii) (new s : string) :
  str_forall (fun a => negb (Ascii.eqb a c)) new = true ->
  str_forall (fun a => negb (Ascii.eqb a c))
    (str_replace (String c EmptyString) new s) = true.
Proof.
  intros Hnew. unfold str_replace. induction s as [|a s IH]; [reflexivity|].
  cbn [replace_from prefix String.length Nat.sub].
  destruct (ascii_dec c a) as [->|Hne].
  - replace (prefix "" s) with true by (destruct s; reflexivity).
    rewrite str_forall_app, Hnew. exact IH.
  - cbn [str_forall]. rewrite IH.
    destruct (Ascii.eqb_spec a c); [congruence | reflexivity].
Qed.

Lemma link_name_chars (s : string) :
  str_forall link_char (str_replace "/" "-" (str_replace " " "-" s)) = true.
Proof.
  assert (H1 : str_forall (fun a => negb (Ascii.eqb a "/"))
                 (str_replace "/" "-" (str_replace " " "-" s)) = true)
    by (now apply replace_char_gone).
  assert (H2 : str_forall (fun a => negb (Ascii.eqb a " "))
                 (str_replace "/" "-" (str_replace " " "-" s)) = true).
  { unfold str_replace at 1. apply replace_from_forall; [reflexivity|].
    now apply replace_char_gone. }
  revert H1 H2. generalize (str_replace "/" "-" (str_replace " " "-" s)).
  induction s0 as [|a t IH]; simpl; auto.
  intros Ha Hb. apply andb_true_iff in Ha as [Ha1 Ha2].
  apply andb_true_iff in Hb as [Hb1 Hb2].
  unfold link_char at 1. rewrite Ha1, Hb1. cbn [andb]. auto.
Qed.

(** X16.  A record is returned only for a denomination that is a string,
    and its link is the base URL joined with
    [shop/pv/<id>/0032/0021/<name>], where the name is the denomination with
    every space and every slash replaced by a hyphen: the name part holds
    neither a space nor a slash. *)
Theorem record_link (URL_BASE product_id : string)
    (urljoin : string -> string -> string) (result : value) (flag : bool) (r : dict) :
  truthy result = true ->
  returned (parser_product_details URL_BASE product_id urljoin result flag) = Ok r ->
  exists s name,
    dict_lookup "denomination" r = Some (VStr s)
    /\ name = str_replace "/" "-" (str_replace " " "-" s)
    /\ str_forall link_char name = true
    /\ dict_lookup "link" r
       = Some (VStr (urljoin URL_BASE
                       ("shop/pv/" ++ product_id ++ "/0032/0021/" ++ name)%string)).
Proof.
  intros Ht Hr.
  destruct (record_complete _ _ _ _ _ _ Ht Hr) as [_ Hfield].
  destruct (Hfield "denomination" ["variants"; "0032"; "description"])
    as (v & Hv & _); [simpl; tauto|].
  destruct (returned_record _ _ _ _ _ _ Ht Hr) as (items & g & s & _ & Hd & ->).
  exists s, (str_replace "/" "-" (str_replace " " "-" s)).
  rewrite dict_lookup_set_ne in Hv by discriminate.
  unfold dict_get in Hd. rewrite Hv in Hd. subst v.
  repeat split.
  - now rewrite dict_lookup_set_ne by discriminate.
  - apply link_name_chars.
  - apply dict_lookup_set_eq.
Qed.

Lemma record_link_witness :
  exists r s name,
    returned (parser_product_details "https://tienda/" "1" append
                (nest ["variants"; "0032"; "description"] (VStr "Queso 1/2 kg")) false)
    = Ok r
    /\ dict_lookup "denomination" r = Some (VStr s)
    /\ name = str_replace "/" "-" (str_replace " " "-" s)
    /\ str_forall link_char name = true
    /\ dict_lookup "link" r
       = Some (VStr (append "https://tienda/"
                       ("shop/pv/" ++ "1" ++ "/0032/0021/" ++ name)%string)).
Proof.
  eexists.
  assert (H : forall r0,
             returned (parser_product_details "https://tienda/" "1" append
                         (nest ["variants"; "0032"; "description"] (VStr "Queso 1/2 kg"))
                         false) = Ok r0 ->
             exists s name,
               dict_lookup "denomination" r0 = Some (VStr s)
               /\ name = str_replace "/" "-" (str_replace " " "-" s)
               /\ str_forall link_char name = true
               /\ dict_lookup "link" r0
                  = Some (VStr (append "https://tienda/"
                                  ("shop/pv/" ++ "1" ++ "/0032/0021/" ++ name)%string))).
  { intros r0. apply record_link. reflexivity. }
  destruct (H _ ltac:(vm_compute; reflexivity)) as (s & name & H1 & H2 & H3 & H4).
  exists s, name. split; [vm_compute; reflexivity|]. auto.
Defined.

Lemma handler_flag_mono (key : string) (h : handler) (raw : value) (items : dict)
    (result v : value) (items' : dict) (flag' : bool) :
  field_handlers key = Some h ->
  h raw items true result = Ok (v, items', flag') -> flag' = true.
Proof.
  intros Eh Hrun.
  destruct (string_dec key "kgGross") as [->|Hk].
  - inversion Eh; subst h. revert Hrun. unfold _handle_kg_gross.
    destruct (is_none raw); [|intros H; now inversion H].
    destruct (get_value result net_price_path) as [alt|]; cbn [bind]; [|discriminate].
    destruct (is_int_or_float alt); [intros H; now inversion H|].
    destruct (unit_price_fallback items) as [p|e]; cbn [bind try_except].
    + intros H. now inversion H.
    + destruct (caught e); [|discriminate]. intros H. now inversion H.
  - destruct (string_dec key "offerPrice") as [->|Ho].
    + inversion Eh; subst h.
      destruct (_handle_offer_price raw items result) as [[v0 i0]|]; [|discriminate].
      cbn [bind] in Hrun. now inversion Hrun.
    + now destruct (plain_handler_frame _ _ _ _ _ _ _ _ _ Eh Ho Hk Hrun).
Qed.

Lemma run_fields_flag_mono (result : value) (fields : list (string * list string)) :
  forall items, snd (run_fields result fields items true) = true.
Proof.
  induction fields as [|[key path] fields IH]; intros items; [reflexivity|].
  cbn [run_fields].
  destruct (set_field result key path items true) as [[i1 f1]|] eqn:Es; [|reflexivity].
  assert (f1 = true); [|subst; apply IH].
  revert Es. unfold set_field.
  destruct (get_value result path) as [raw|]; cbn [bind]; [|discriminate].
  destruct (field_handlers key) as [h|] eqn:Eh.
  - destruct (h raw items true result) as [[[v i2] f2]|] eqn:Er; cbn [bind];
      [|discriminate].
    intros H. inversion H; subst. eapply handler_flag_mono; eauto.
  - intros H. now inversion H.
Qed.

(** X15.  The audit flag around one call.  An empty result returns the
    empty record and touches nothing.  A returned record always leaves the
    flag cleared, writes at most one audit line, made of the link, unit
    price and denomination of that record, and does write one whenever the
    flag was already raised on entry.  A call that raises writes no line
    and never clears a raised flag, so the flag outlives the exception. *)
Theorem audit_flag (URL_BASE product_id : string)
    (urljoin : string -> string -> string) (result : value) (flag : bool) :
  (truthy result = false ->
   parser_product_details URL_BASE product_id urljoin result flag
   = {| returned := Ok []; CALCULATED := flag; audit := [] |})
  /\ (forall r,
        truthy result = true ->
        returned (parser_product_details URL_BASE product_id urljoin result flag) = Ok r ->
        CALCULATED (parser_product_details URL_BASE product_id urljoin result flag) = false
        /\ (audit (parser_product_details URL_BASE product_id urljoin result flag) = []
            \/ audit (parser_product_details URL_BASE product_id urljoin result flag)
               = [(dict_get r "link" VNone, dict_get r "unitPrice" VNone,
                   dict_get r "denomination" VNone)])
        /\ (flag = true ->
            audit (parser_product_details URL_BASE product_id urljoin result flag) <> []))
  /\ (forall e,
        returned (parser_product_details URL_BASE product_id urljoin result flag) = Raise e ->
        audit (parser_product_details URL_BASE product_id urljoin result flag) = []
        /\ (flag = true ->
            CALCULATED (parser_product_details URL_BASE product_id urljoin result flag)
            = true)).
Proof.
  unfold parser_product_details. split; [|split].
  - intros H. now rewrite H.
  - intros r Ht. rewrite Ht. cbn [negb].
    pose proof (run_fields_flag_mono result fields_map []) as Hmono.
    destruct (run_fields result fields_map [] flag) as [[items|e] g] eqn:Er;
      [|intros H; discriminate H].
    destruct (add_link URL_BASE product_id urljoin items) as [items1|e];
      [|intros H; discriminate H].
    destruct g; cbn [returned CALCULATED audit]; intros H; inversion H; subst;
      repeat split; auto.
    + intros _. discriminate.
    + intros ->. rewrite Er in Hmono. discriminate Hmono.
  - intros e. destruct (negb (truthy result)); [intros H; discriminate H|].
    pose proof (run_fields_flag_mono result fields_map []) as Hmono.
    destruct (run_fields result fields_map [] flag) as [[items|e0] g] eqn:Er.
    + destruct (add_link URL_BASE product_id urljoin items) as [items1|e1].
      * destruct g; intros H; discriminate H.
      * cbn [returned CALCULATED audit]. intros _. split; auto.
        intros ->. rewrite Er in Hmono. exact Hmono.
    + cbn [returned CALCULATED audit]. intros _. split; auto.
      intros ->. rewrite Er in Hmono. exact Hmono.
Qed.

Lemma audit_flag_witness :
  CALCULATED (parser_product_details "https://tienda/" "1" append doc_without_fields true)
  = false
  /\ audit (parser_product_details "https://tienda/" "1" append doc_without_fields true)
     <> []
  /\ parser_product_details "https://tienda/" "1" append doc_reconstructed_then_fails false
     = {| returned := Raise TypeError; CALCULATED := true; audit := [] |}
  /\ CALCULATED (parser_product_details "https://tienda/" "1" append
                   doc_reconstructed_then_fails true) = true.
Proof.
  destruct (audit_flag "https://tienda/" "1" append doc_without_fields true)
    as (_ & H2 & _).
  destruct (H2 (absent_record (VStr "https://tienda/shop/pv/1/0032/0021/"))
              eq_refl eq_refl) as (Ha & _ & Hc).
  destruct (audit_flag "https://tienda/" "1" append doc_reconstructed_then_fails true)
    as (_ & _ & H3).
  destruct (H3 TypeError ltac:(vm_compute; reflexivity)) as (_ & Hd).
  repeat split; auto.
Defined.

(** ** The weight token: no denomination makes it fail *)

Lemma span_digits_spec (s : string) :
  forall ds r, span_digits s = (ds, r) -> all_digits ds = true /\ s = (ds ++ r)%string.
Proof.
  induction s as [|c s IH]; simpl; intros ds r H.
  - inversion H. auto.
  - destruct (is_digit c) eqn:E.
    + destruct (span_digits s) as [ds' r'] eqn:Es. inversion H; subst.
      destruct (IH ds' r eq_refl) as [Hd ->]. split; [|reflexivity].
      unfold all_digits. simpl. now rewrite E.
    + inversion H. auto.
Qed.

Lemma match_number_is_text (s n r : string) :
  match_number s = Some (n, r) -> number_text n.
Proof.
  unfold match_number. destruct (span_digits s) as [ip r1] eqn:Es.
  destruct (span_digits_spec _ _ _ Es) as [Hip _].
  destruct (String.eqb ip EmptyString) eqn:Ee; [discriminate|].
  assert (Hne : ip <> EmptyString) by (intros ->; discriminate).
  assert (Hint : forall x, Some (ip, r1) = Some (n, x) -> number_text n).
  { intros x H. inversion H; subst. now apply number_int. }
  destruct r1 as [|c r1']; [apply Hint|].
  destruct (Ascii.eqb_spec c ".") as [->|Hc].
  - destruct (span_digits r1') as [fp r2] eqn:Ef.
    destruct (span_digits_spec _ _ _ Ef) as [Hfp _].
    destruct (String.eqb fp EmptyString) eqn:Efe; [apply Hint|].
    intros H. inversion H; subst. apply number_dec; auto.
    intros ->. discriminate.
  - destruct c as [[] [] [] [] [] [] [] []]; try apply Hint. congruence.
Qed.

Lemma digit_is_number_char (s : string) :
  all_digits s = true -> str_forall number_char s = true.
Proof.
  unfold all_digits. induction s as [|c s IH]; simpl; auto.
  intros H. apply andb_true_iff in H as [Hc H].
  unfold number_char at 1. rewrite Hc. cbn [orb andb]. auto.
Qed.

Lemma number_text_chars (n : string) :
  number_text n ->
  str_forall number_char n = true
  /\ exists c n', n = String c n' /\ is_digit c = true.
Proof.
  intros [ip Hne Hd | ip fp Hne Hd Hfne Hfd].
  - split; [now apply digit_is_number_char|].
    destruct ip as [|c ip]; [congruence|]. exists c, ip. split; auto.
    unfold all_digits in Hd. simpl in Hd. now apply andb_true_iff in Hd as [H _].
  - split.
    + rewrite !str_forall_app, (digit_is_number_char ip Hd), (digit_is_number_char fp Hfd).
      reflexivity.
    + destruct ip as [|c ip]; [congruence|]. eexists c, _. split; [reflexivity|].
      unfold all_digits in Hd. simpl in Hd. now apply andb_true_iff in Hd as [H _].
Qed.

Lemma rstrip_by_fixed (p : ascii -> bool) (s : string) :
  str_forall (fun c => negb (p c)) s = true -> rstrip_by p s = s.
Proof.
  induction s as [|c s IH]; simpl; auto.
  intros H. apply andb_true_iff in H as [Hc H]. rewrite (IH H).
  apply negb_true_iff in Hc. destruct s; [now rewrite Hc | reflexivity].
Qed.

Lemma str_forall_impl (p q : ascii -> bool) (s : string) :
  (forall c, p c = true -> q c = true) -> str_forall p s = true -> str_forall q s = true.
Proof.
  intros Hpq. induction s as [|c s IH]; simpl; auto.
  intros H. apply andb_true_iff in H as [Hc H]. now rewrite (Hpq c Hc), IH.
Qed.

Lemma number_char_cases (c : ascii) :
  number_char c = true ->
  is_float_space c = false /\ Ascii.eqb c "_" = false /\ lower_ascii c = c
  /\ (is_digit c = true ->
      c <> "-"%char /\ c <> "+"%char /\ c <> "i"%char /\ c <> "n"%char).
Proof.
  destruct c as [[] [] [] [] [] [] [] []]; try discriminate;
    intros _; repeat split; try reflexivity; try discriminate.
Qed.

Lemma strip_underscores_none (s : string) :
  str_forall number_char s = true ->
  forall prev, Ascii.eqb prev "_" = false -> strip_underscores prev s = Some s.
Proof.
  induction s as [|c s IH]; simpl; intros H prev Hp; [now rewrite Hp|].
  apply andb_true_iff in H as [Hc H].
  destruct (number_char_cases c Hc) as (_ & Hu & _).
  rewrite Hu, Hp. cbn [andb]. now rewrite IH.
Qed.

Lemma str_lower_number (s : string) :
  str_forall number_char s = true -> str_lower s = s.
Proof.
  induction s as [|c s IH]; simpl; auto.
  intros H. apply andb_true_iff in H as [Hc H].
  destruct (number_char_cases c Hc) as (_ & _ & Hl & _). now rewrite Hl, IH.
Qed.

Lemma span_digits_all (s : string) :
  all_digits s = true -> span_digits s = (s, EmptyString).
Proof.
  intros H. pose proof (span_digits_app s EmptyString H I) as Hs.
  replace (s ++ "")%string with s in Hs; [exact Hs|].
  clear. induction s; simpl; congruence.
Qed.

Lemma parse_decimal_number (n : string) :
  number_text n -> exists D E, parse_decimal n = Some (D, E).
Proof.
  intros [ip Hne Hd | ip fp Hne Hd Hfne Hfd]; unfold parse_decimal.
  - rewrite span_digits_all by assumption.
    destruct ip; [congruence|]. cbn. eauto.
  - rewrite span_digits_app by (auto; reflexivity).
    cbn [append]. rewrite span_digits_all by assumption.
    destruct ip; [congruence|]. cbn. eauto.
Qed.

Lemma float_of_number_text (n : string) :
  number_text n -> exists f, float_of_string n = Some f.
Proof.
  intros Hn. destruct (parse_decimal_number _ Hn) as (D & E & Hp).
  destruct (number_text_chars n Hn) as (Hc & c & n' & Heq & Hdig). subst n.
  unfold float_of_string, strip_by.
  assert (Hsp : str_forall (fun a => negb (is_float_space a)) (String c n') = true).
  { eapply str_forall_impl; [|exact Hc]. intros a Ha.
    destruct (number_char_cases a Ha) as (H & _). now rewrite H. }
  rewrite lstrip_by_fixed.
  2:{ simpl in Hsp. now apply andb_true_iff in Hsp as [H _]. }
  rewrite rstrip_by_fixed by exact Hsp.
  rewrite strip_underscores_none by (auto; reflexivity).
  assert (Hcc : number_char c = true).
  { simpl in Hc. now apply andb_true_iff in Hc as [H _]. }
  destruct (number_char_cases c Hcc) as (_ & _ & _ & Hsign).
  destruct (Hsign Hdig) as (Hm & Hpl & Hi & Hnn).
  assert (Hss : split_sign (String c n') = (false, String c n')).
  { unfold split_sign.
    destruct c as [[] [] [] [] [] [] [] []]; try reflexivity; congruence. }
  rewrite Hss, str_lower_number by exact Hc.
  assert (Hinf : forall t, t = "inf" \/ t = "infinity" \/ t = "nan" ->
                           String.eqb (String c n') t = false).
  { intros t Ht. apply String.eqb_neq. intros Heq.
    destruct Ht as [-> | [-> | ->]]; inversion Heq; congruence. }
  rewrite !Hinf by auto. cbn [orb]. rewrite Hp. eauto.
Qed.

Lemma search_weight_found (s : string) (m : weight_match) :
  search_weight s = Some m -> exists t, match_here t = Some m.
Proof.
  induction s as [|c s IH]; cbn [search_weight].
  - destruct (match_here "") eqn:E; [|discriminate]. intros H. inversion H; subst. eauto.
  - destruct (match_here (String c s)) eqn:E.
    + intros H. inversion H; subst. eauto.
    + exact IH.
Qed.

Lemma match_here_texts (t : string) (m : weight_match) :
  match_here t = Some m ->
  match m with
  | MultiPack q w _ => number_text q /\ number_text w
  | SinglePack w _ => number_text w
  end.
Proof.
  unfold match_here, match_multi, match_single.
  destruct (match_number t) as [[n r]|] eqn:En; [|discriminate].
  pose proof (match_number_is_text _ _ _ En) as Hn.
  assert (Hsingle : match match_unit r with
                    | Some (u, _) => Some (SinglePack n u)
                    | None => None
                    end = Some m ->
                    match m with
                    | MultiPack q w _ => number_text q /\ number_text w
                    | SinglePack w _ => number_text w
                    end).
  { destruct (match_unit r) as [[u r']|]; [|discriminate].
    intros H. inversion H. exact Hn. }
  destruct r as [|c r1]; [exact Hsingle|].
  destruct (Ascii.eqb_spec c "x") as [->|Hc].
  - destruct (match_number r1) as [[w r2]|] eqn:Ew; [|exact Hsingle].
    destruct (match_unit r2) as [[u r3]|]; [|exact Hsingle].
    intros H. inversion H. split; auto. eapply match_number_is_text; eauto.
  - destruct c as [[] [] [] [] [] [] [] []]; try exact Hsingle. congruence.
Qed.

Lemma extract_grams_str (s : string) :
  exists v, _extract_grams (VStr s) = Ok v /\ (v = VInt 1000 \/ exists f, v = VFloat f).
Proof.
  unfold _extract_grams.
  destruct (search_weight s) as [m|] eqn:E; [|eauto].
  destruct (search_weight_found _ _ E) as [t Ht].
  pose proof (match_here_texts _ _ Ht) as Hm.
  destruct m as [q w u | w u].
  - destruct Hm as [Hq Hw].
    destruct (float_of_number_text q Hq) as [fq Hfq].
    destruct (float_of_number_text w Hw) as [fw Hfw].
    cbn [py_float bind]. rewrite Hfq, Hfw. cbn [bind].
    change (py_mul (VFloat fq) (VFloat fw)) with (@Ok value (VFloat (fmul fq fw))).
    cbn [bind]. rewrite float_mul_factor. eauto.
  - destruct (float_of_number_text w Hm) as [fw Hfw].
    cbn [py_float bind]. rewrite Hfw. cbn [bind]. rewrite float_mul_factor. eauto.
Qed.

(** X17.  [_extract_grams] fails on no string: for every denomination it
    returns the integer 1000 or a float, since the texts the pattern
    captures always convert; only a denomination that is not a string
    raises, and then it is TypeError. *)
Theorem extract_grams_total :
  (forall s, exists v,
      _extract_grams (VStr s) = Ok v /\ (v = VInt 1000 \/ exists f, v = VFloat f))
  /\ (forall d, (forall s, d <> VStr s) -> _extract_grams d = Raise TypeError).
Proof.
  split.
  - apply extract_grams_str.
  - intros d H. destruct d; try reflexivity. exfalso. now apply (H s).
Qed.

Lemma extract_grams_total_witness :
  (exists v, _extract_grams (VStr "Leche 6x1.5Kg") = Ok v
             /\ (v = VInt 1000 \/ exists f, v = VFloat f))
  /\ _extract_grams VNone = Raise TypeError.
Proof.
  destruct extract_grams_total as [H1 H2]. split.
  - apply H1.
  - apply H2. discriminate.
Defined.

(** ** Paging, headers and output *)

(** X18.  For a positive page size the page count is the ceiling of
    amount / page size: the pages hold every product and the last page is
    not empty; a page size of zero raises ZeroDivisionError. *)
Theorem number_pages_ceiling (amount max_items_per_page : Z) :
  (0 < max_items_per_page ->
   exists n,
     number_pages amount max_items_per_page = Ok n
     /\ amount <= n * max_items_per_page
     /\ (n - 1) * max_items_per_page < amount)
  /\ (max_items_per_page = 0 ->
      number_pages amount max_items_per_page = Raise ZeroDivisionError).
Proof.
  unfold number_pages. split.
  - intros Hpos.
    replace (max_items_per_page =? 0) with false by (symmetry; apply Z.eqb_neq; lia).
    eexists. split; [reflexivity|].
    pose proof (Z.div_mod amount max_items_per_page) as Hdm.
    pose proof (Z.mod_pos_bound amount max_items_per_page Hpos) as Hb.
    destruct (amount mod max_items_per_page =? 0) eqn:E.
    + apply Z.eqb_eq in E. nia.
    + apply Z.eqb_neq in E. nia.
  - intros ->. reflexivity.
Qed.

Lemma number_pages_ceiling_witness :
  (exists n, number_pages 125 50 = Ok n /\ 125 <= n * 50 /\ (n - 1) * 50 < 125)
  /\ number_pages 125 0 = Raise ZeroDivisionError.
Proof.
  destruct (number_pages_ceiling 125 50) as [H1 _].
  destruct (number_pages_ceiling 125 0) as [_ H2].
  split; [apply H1; reflexivity | apply H2; reflexivity].
Defined.

Lemma py_index_In {A : Type} (l : list A) (i : Z) (x : A) :
  py_index l i = Ok x -> In x l.
Proof.
  unfold py_index. destruct (_ && _); [|discriminate].
  destruct (nth_error l _) as [y|] eqn:E; [|discriminate].
  intros H. inversion H; subst. eapply nth_error_In; eauto.
Qed.

Lemma py_index_range {A : Type} (l : list A) (i : Z) :
  (exists x, py_index l i = Ok x)
  <-> - Z.of_nat (List.length l) <= i < Z.of_nat (List.length l).
Proof.
  unfold py_index. split.
  - intros [x H].
    destruct (i <? 0) eqn:Ei;
      destruct (_ && _) eqn:Eb; try discriminate;
      apply andb_true_iff in Eb as [H1 H2];
      apply Z.leb_le in H1; apply Z.ltb_lt in H2;
      [apply Z.ltb_lt in Ei | apply Z.ltb_ge in Ei]; lia.
  - intros Hr.
    set (j := if i <? 0 then i + Z.of_nat (List.length l) else i).
    assert (Hj : 0 <= j < Z.of_nat (List.length l)).
    { subst j. destruct (i <? 0) eqn:Ei;
        [apply Z.ltb_lt in Ei | apply Z.ltb_ge in Ei]; lia. }
    replace ((0 <=? j) && (j <? Z.of_nat (List.length l))) with true.
    2:{ symmetry. apply andb_true_iff. split; [apply Z.leb_le | apply Z.ltb_lt]; lia. }
    destruct (nth_error l (Z.to_nat j)) as [y|] eqn:E; [eauto|].
    apply nth_error_None in E. lia.
Qed.

(** X21.  [get_headers] returns a header set exactly for the indices -4
    to 3 and raises IndexError for any other; every set it returns carries
    the configured User-Agent. *)
Theorem get_headers_user_agent (user_agent : string) (index : Z) (url_refer : option string) :
  ((exists h, get_headers user_agent index url_refer = Ok h) <-> -4 <= index < 4)
  /\ (forall h, get_headers user_agent index url_refer = Ok h ->
                header_lookup "User-Agent" h = Some user_agent)
  /\ (forall e, get_headers user_agent index url_refer = Raise e -> e = IndexError).
Proof.
  unfold get_headers. split; [|split].
  - apply py_index_range.
  - intros h H. apply py_index_In in H.
    destruct H as [<-|[<-|[<-|[<-|[]]]]]; reflexivity.
  - intros e. unfold py_index. destruct (_ && _).
    + destruct (nth_error _ _); intros H; inversion H; reflexivity.
    + intros H; inversion H; reflexivity.
Qed.

Lemma get_headers_user_agent_witness :
  header_lookup "User-Agent"
    [("User-Agent", "Mozilla/5.0"); ("Accept", "image/avif,image/webp,*/*");
     ("Accept-Language", "en-US,en;q=0.5"); ("Accept-Encoding", "gzip, deflate, br");
     ("Referer", ""); ("Connection", "keep-alive")]
  = Some "Mozilla/5.0"
  /\ IndexError = IndexError.
Proof.
  destruct (get_headers_user_agent "Mozilla/5.0" (-1) None) as (_ & H & _).
  destruct (get_headers_user_agent "Mozilla/5.0" 4 None) as (_ & _ & H').
  split; [apply H; reflexivity | apply H'; reflexivity].
Defined.

Lemma filter_items_lookup (keys : list string) (items : dict) :
  forall acc k,
    dict_lookup k
      (fold_left (fun acc key => dict_set key (dict_get items key VNone) acc) keys acc)
    = if existsb (String.eqb k) keys then Some (dict_get items k VNone)
      else dict_lookup k acc.
Proof.
  induction keys as [|key keys IH]; intros acc k; [reflexivity|].
  cbn [fold_left existsb]. rewrite IH.
  destruct (existsb (String.eqb k) keys); [now rewrite orb_true_r|].
  rewrite orb_false_r. destruct (String.eqb k key) eqn:E.
  - apply String.eqb_eq in E. subst. apply dict_lookup_set_eq.
  - apply dict_lookup_set_ne. intros ->. rewrite String.eqb_refl in E. discriminate.
Qed.

(** X19.  The record [dict_to_jsonl] writes holds exactly the configured
    product keys: each with the value of the item, None for a key the item
    lacks, and nothing else; the call raises KeyError exactly when
    "denomination" is not one of the configured keys. *)
Theorem dict_to_jsonl_keys (PRODUCT_KEYS : list string) (items : dict) :
  (forall k, In k PRODUCT_KEYS ->
             dict_lookup k (filter_items PRODUCT_KEYS items)
             = Some (dict_get items k VNone))
  /\ (forall k, ~ In k PRODUCT_KEYS ->
                dict_lookup k (filter_items PRODUCT_KEYS items) = None)
  /\ (In "denomination" PRODUCT_KEYS ->
      dict_to_jsonl PRODUCT_KEYS items = Ok (filter_items PRODUCT_KEYS items))
  /\ (~ In "denomination" PRODUCT_KEYS ->
      dict_to_jsonl PRODUCT_KEYS items = Raise KeyError).
Proof.
  assert (H1 : forall k, In k PRODUCT_KEYS ->
                 dict_lookup k (filter_items PRODUCT_KEYS items)
                 = Some (dict_get items k VNone)).
  { intros k Hk. unfold filter_items. rewrite filter_items_lookup.
    apply existsb_eqb_In in Hk. now rewrite Hk. }
  assert (H2 : forall k, ~ In k PRODUCT_KEYS ->
                 dict_lookup k (filter_items PRODUCT_KEYS items) = None).
  { intros k Hk. unfold filter_items. rewrite filter_items_lookup.
    destruct (existsb (String.eqb k) PRODUCT_KEYS) eqn:E; [|reflexivity].
    apply existsb_eqb_In in E. contradiction. }
  repeat split; auto.
  - intros Hd. unfold dict_to_jsonl. cbn [py_getitem]. now rewrite (H1 _ Hd).
  - intros Hd. unfold dict_to_jsonl. cbn [py_getitem]. now rewrite (H2 _ Hd).
Qed.

Lemma dict_to_jsonl_keys_witness :
  dict_to_jsonl ["denomination"; "brand"; "unitPrice"]
    [("brand", VStr "MAKRO"); ("link", VStr "x"); ("denomination", VStr "Arroz")]
  = Ok (filter_items ["denomination"; "brand"; "unitPrice"]
          [("brand", VStr "MAKRO"); ("link", VStr "x"); ("denomination", VStr "Arroz")])
  /\ dict_lookup "link"
       (filter_items ["denomination"; "brand"; "unitPrice"]
          [("brand", VStr "MAKRO"); ("link", VStr "x"); ("denomination", VStr "Arroz")])
     = None
  /\ dict_to_jsonl ["brand"] [("brand", VStr "MAKRO")] = Raise KeyError.
Proof.
  destruct (dict_to_jsonl_keys ["denomination"; "brand"; "unitPrice"]
              [("brand", VStr "MAKRO"); ("link", VStr "x"); ("denomination", VStr "Arroz")])
    as (_ & H2 & H3 & _).
  destruct (dict_to_jsonl_keys ["brand"] [("brand", VStr "MAKRO")]) as (_ & _ & _ & H4).
  split; [|split].
  - apply H3. simpl. tauto.
  - apply H2. apply not_In_eqb. reflexivity.
  - apply H4. apply not_In_eqb. reflexivity.
Defined.

(** X23.  The loop body that stores a product writes nothing for a record
    whose identifier is falsy; otherwise it writes, under that identifier,
    the record restricted to the configured keys, in which the four
    supermarket attributes hold the configured values and every other
    configured key the value of the record (None when the record lacks
    it). *)
Theorem store_item_written (cfg : supermarket) (PRODUCT_KEYS : list string)
    (item_dict : dict) :
  (truthy (dict_get item_dict "productIdInSupermarket" VNone) = false ->
   store_item cfg PRODUCT_KEYS item_dict = Ok None)
  /\ (forall pid written,
        store_item cfg PRODUCT_KEYS item_dict = Ok (Some (pid, written)) ->
        pid = dict_get item_dict "productIdInSupermarket" VNone
        /\ truthy pid = true
        /\ (forall k, ~ In k PRODUCT_KEYS -> dict_lookup k written = None)
        /\ (forall k, In k PRODUCT_KEYS ->
              dict_lookup k written
              = Some (if String.eqb k "supermarket" then VStr (NAME cfg)
                      else if String.eqb k "supermarketPostalCode"
                           then VStr (POSTAL_CODE cfg)
                      else if String.eqb k "currency" then VStr (CURRENCY cfg)
                      else if String.eqb k "country" then VStr (COUNTRY cfg)
                      else dict_get item_dict k VNone))).
Proof.
  unfold store_item.
  set (d4 := dict_set "country" _ _).
  assert (Hpid : dict_get d4 "productIdInSupermarket" VNone
                 = dict_get item_dict "productIdInSupermarket" VNone).
  { subst d4. now rewrite !dict_get_set_ne by discriminate. }
  rewrite Hpid. split.
  - intros H. now rewrite H.
  - intros pid written.
    destruct (truthy (dict_get item_dict "productIdInSupermarket" VNone)) eqn:Et;
      [|discriminate].
    unfold dict_to_jsonl.
    destruct (py_getitem (VDict (filter_items PRODUCT_KEYS d4)) "denomination");
      cbn [bind]; [|discriminate].
    intros H. inversion H; subst pid written; clear H.
    repeat split; auto.
    + intros k Hk. unfold filter_items. rewrite filter_items_lookup.
      destruct (existsb (String.eqb k) PRODUCT_KEYS) eqn:E; [|reflexivity].
      apply existsb_eqb_In in E. contradiction.
    + intros k Hk. unfold filter_items. rewrite filter_items_lookup.
      apply existsb_eqb_In in Hk. rewrite Hk. f_equal. subst d4.
      destruct (String.eqb k "country") eqn:E4.
      { apply String.eqb_eq in E4. subst k. cbn. apply dict_get_set_eq. }
      assert (N4 : "country" <> k) by (intros <-; discriminate E4).
      rewrite dict_get_set_ne by exact N4.
      destruct (String.eqb k "currency") eqn:E3.
      { apply String.eqb_eq in E3. subst k. cbn. apply dict_get_set_eq. }
      assert (N3 : "currency" <> k) by (intros <-; discriminate E3).
      rewrite dict_get_set_ne by exact N3.
      destruct (String.eqb k "supermarketPostalCode") eqn:E2.
      { apply String.eqb_eq in E2. subst k. cbn. apply dict_get_set_eq. }
      assert (N2 : "supermarketPostalCode" <> k) by (intros <-; discriminate E2).
      rewrite dict_get_set_ne by exact N2.
      destruct (String.eqb k "supermarket") eqn:E1.
      { apply String.eqb_eq in E1. subst k. apply dict_get_set_eq. }
      assert (N1 : "supermarket" <> k) by (intros <-; discriminate E1).
      now rewrite dict_get_set_ne by exact N1.
Qed.

Lemma store_item_written_witness :
  store_item {| NAME := "Makro"; POSTAL_CODE := "28001"; CURRENCY := "EUR"; COUNTRY := "ES" |}
    ["denomination"; "currency"]
    (absent_record (VStr "https://tienda/shop/pv/1/0032/0021/"))
  = Ok None.
Proof.
  apply (store_item_written
           {| NAME := "Makro"; POSTAL_CODE := "28001"; CURRENCY := "EUR"; COUNTRY := "ES" |}
           ["denomination"; "currency"]
           (absent_record (VStr "https://tienda/shop/pv/1/0032/0021/"))).
  reflexivity.
Defined.

(** ** The request loop *)

Lemma set_request_loop_bounded (attempts : nat -> attempt) (fuel : nat) :
  forall i count msg,
    0 <= count < 10 -> (10 - count <= Z.of_nat fuel) ->
    exists r n,
      set_request_loop fuel attempts i count msg = Some (r, n)
      /\ (i < n)%nat /\ Z.of_nat n <= Z.of_nat i + (10 - count)
      /\ (forall c, r = Response c -> c = 200 /\ attempts (pred n) = Responded 200)
      /\ (r = ReturnedFalse ->
          attempts (pred n) = Responded 404 \/ attempts (pred n) = Responded 500)
      /\ (r = SystemExit -> Z.of_nat n = Z.of_nat i + (10 - count)).
Proof.
  induction fuel as [|fuel IH]; intros i count msg Hc Hf;
    [change (Z.of_nat 0) with 0 in Hf; lia|].
  assert (Hagain : forall msg' : bool,
             exists r n,
               (if msg' then
                  if retry (count + 1)
                  then set_request_loop fuel attempts (S i) (count + 1) msg'
                  else Some (SystemExit, S i)
                else Some (UnboundLocalError, S i)) = Some (r, n)
               /\ (i < n)%nat /\ Z.of_nat n <= Z.of_nat i + (10 - count)
               /\ (forall c, r = Response c -> c = 200 /\ attempts (pred n) = Responded 200)
               /\ (r = ReturnedFalse ->
                   attempts (pred n) = Responded 404 \/ attempts (pred n) = Responded 500)
               /\ (r = SystemExit -> Z.of_nat n = Z.of_nat i + (10 - count))).
  { intros [|].
    - unfold retry, N_ATTEMPS. destruct (count + 1 =? 10) eqn:E; cbn [negb].
      + apply Z.eqb_eq in E. exists SystemExit, (S i).
        repeat split; try discriminate; lia.
      + apply Z.eqb_neq in E.
        destruct (IH (S i) (count + 1) true) as (r & n & H & H1 & H2 & H3 & H4 & H5);
          [lia | lia |].
        exists r, n.
        split; [exact H|]. split; [lia|]. split; [lia|].
        split; [exact H3|]. split; [exact H4|].
        intros Hr. specialize (H5 Hr). lia.
    - exists UnboundLocalError, (S i). repeat split; try discriminate; lia. }
  cbn [set_request_loop].
  destruct (attempts i) as [code| | |] eqn:Ea; try apply (Hagain true).
  destruct ((400 <=? code) && (code <? 600)).
  - destruct ((code =? 404) || (code =? 500)) eqn:E; [|apply (Hagain true)].
    exists ReturnedFalse, (S i).
    split; [reflexivity|]. split; [lia|]. split; [lia|].
    split; [discriminate|]. split; [|discriminate].
    intros _. cbn [pred]. rewrite Ea.
    apply orb_true_iff in E as [E|E]; apply Z.eqb_eq in E; subst; auto.
  - destruct (code =? 200) eqn:E; [|apply (Hagain msg)].
    apply Z.eqb_eq in E. subst code.
    exists (Response 200), (S i).
    split; [reflexivity|]. split; [lia|]. split; [lia|].
    split; [|split; discriminate].
    intros c H. inversion H. split; [reflexivity | exact Ea].
Qed.

Lemma set_request_loop_fuel (attempts : nat -> attempt) (fuel : nat) :
  forall i count msg x,
    set_request_loop fuel attempts i count msg = Some x ->
    set_request_loop (S fuel) attempts i count msg = Some x.
Proof.
  induction fuel as [|fuel IH]; intros i count msg x; [discriminate|].
  remember (S fuel) as f eqn:Ef.
  cbn [set_request_loop]. subst f. cbn [set_request_loop].
  assert (Hagain : forall msg' : bool,
             (if msg' then
                if retry (count + 1)
                then set_request_loop fuel attempts (S i) (count + 1) msg'
                else Some (SystemExit, S i)
              else Some (UnboundLocalError, S i)) = Some x ->
             (if msg' then
                if retry (count + 1)
                then set_request_loop (S fuel) attempts (S i) (count + 1) msg'
                else Some (SystemExit, S i)
              else Some (UnboundLocalError, S i)) = Some x).
  { intros [|]; auto. destruct (retry (count + 1)); auto. }
  destruct (attempts i) as [code| | |]; try apply (Hagain true).
  destruct ((400 <=? code) && (code <? 600)).
  - destruct ((code =? 404) || (code =? 500)); [auto | apply (Hagain true)].
  - destruct (code =? 200); [auto | apply (Hagain msg)].
Qed.

(** X20.  [set_request] always ends, after at least one and at most ten
    requests, whatever the server does: fuel for ten iterations gives a
    result and more fuel gives the same.  A response it returns has status
    200; it returns False only on a 404 or a 500; it leaves through
    [sys.exit] only after exactly ten requests. *)
Theorem set_request_bounded (attempts : nat -> attempt) :
  exists r n,
    (forall fuel, (10 <= fuel)%nat -> set_request fuel attempts = Some (r, n))
    /\ (1 <= n <= 10)%nat
    /\ (forall c, r = Response c -> c = 200 /\ attempts (pred n) = Responded 200)
    /\ (r = ReturnedFalse ->
        attempts (pred n) = Responded 404 \/ attempts (pred n) = Responded 500)
    /\ (r = SystemExit -> n = 10%nat).
Proof.
  destruct (set_request_loop_bounded attempts 10 0%nat 0 false)
    as (r & n & H & H1 & H2 & H3 & H4 & H5); [lia | simpl; lia |].
  exists r, n.
  split; [|split; [lia|split; [exact H3|split; [exact H4|]]]].
  - intros fuel Hf. unfold set_request.
    induction Hf as [|m Hm IH]; [exact H|].
    now apply set_request_loop_fuel.
  - intros Hr. specialize (H5 Hr). lia.
Qed.

Lemma set_request_bounded_witness :
  set_request 10 two_failures = Some (Response 200, 3%nat)
  /\ exists r n,
       (forall fuel, (10 <= fuel)%nat -> set_request fuel two_failures = Some (r, n))
       /\ (1 <= n <= 10)%nat.
Proof.
  split; [reflexivity|].
  destruct (set_request_bounded two_failures) as (r & n & H & Hn & _).
  exists r, n. split; assumption.
Defined.

(** X24.  A first response whose status is neither 200 nor an error
    status (a 204, say) makes [set_request] stop at once: the loop goes on
    to print a message that no exception has assigned, and the call fails
    with UnboundLocalError after one request. *)
Theorem set_request_unassigned_message (attempts : nat -> attempt) (code : Z) (fuel : nat) :
  attempts 0%nat = Responded code ->
  code <> 200 -> code < 400 \/ 600 <= code ->
  set_request (S fuel) attempts = Some (UnboundLocalError, 1%nat).
Proof.
  intros Ha Hc Hr. unfold set_request. cbn [set_request_loop]. rewrite Ha.
  replace ((400 <=? code) && (code <? 600)) with false.
  2:{ symmetry. apply andb_false_iff.
      destruct Hr; [left; apply Z.leb_gt | right; apply Z.ltb_ge]; lia. }
  apply Z.eqb_neq in Hc. now rewrite Hc.
Qed.

Lemma set_request_unassigned_message_witness :
  set_request 10 (fun _ => Responded 204) = Some (UnboundLocalError, 1%nat).
Proof.
  apply (set_request_unassigned_message (fun _ => Responded 204) 204 9);
    [reflexivity | lia | lia].
Defined.

(** ** From the listing to the records *)

Lemma product_details_complete (URL_BASE : string) (urljoin : string -> string -> string)
    (fetch : nat -> string -> fetched) (n : nat) (product_id : value) (flag : bool)
    (details : dict) :
  returned (product_details URL_BASE urljoin fetch n product_id flag) = Ok details ->
  details = [] \/ complete_record details.
Proof.
  unfold product_details.
  destruct (py_strip product_id) as [stripped|]; [|discriminate].
  destruct (fetch n (remove_suffix "0032" stripped)) as [| |parsed_json];
    try (intros H; inversion H; auto; fail).
  destruct (by_id <- py_get parsed_json "result" (VDict []) ;; py_get by_id _ VNone)
    as [result|]; [|discriminate].
  destruct (truthy result) eqn:Et.
  - intros H. right.
    destruct (record_complete _ _ _ _ _ _ Et H) as [Hk _]. split; auto.
    intros ->. specialize (Hk "link"). discriminate Hk.
    unfold record_keys. apply in_or_app. right. simpl. tauto.
  - unfold parser_product_details. rewrite Et. intros H. inversion H. auto.
Qed.

Lemma collect_products_complete (URL_BASE : string) (urljoin : string -> string -> string)
    (fetch : nat -> string -> fetched) (ids : list value) :
  forall n flag acc lines items flag' lines',
    Forall complete_record acc ->
    collect_products URL_BASE urljoin fetch ids n flag acc lines
    = (Ok items, flag', lines') ->
    Forall complete_record items
    /\ (List.length items <= List.length acc + List.length ids)%nat.
Proof.
  induction ids as [|key_id ids IH]; intros n flag acc lines items flag' lines' Hacc H.
  - inversion H; subst. split; [auto | simpl; lia].
  - cbn [collect_products] in H.
    destruct (returned (product_details URL_BASE urljoin fetch n key_id flag))
      as [details|] eqn:Ed; [|discriminate].
    apply IH in H.
    + destruct H as [H1 H2]. split; auto.
      destruct (truthy (VDict details)); [rewrite length_app in H2|];
        simpl in *; lia.
    + destruct (product_details_complete _ _ _ _ _ _ _ Ed) as [->|Hc]; [exact Hacc|].
      destruct (truthy (VDict details)); auto. now apply Forall_snoc.
Qed.

(** X22.  Every record [parser_products] returns is complete: it is not
    empty and holds every key of the field map, the three derived prices
    and the link; products without response, without parsable body or
    without result leave no record, so there are at most as many records as
    identifiers in "results". *)
Theorem parser_products_complete (URL_BASE : string) (urljoin : string -> string -> string)
    (fetch : nat -> string -> fetched) (parsed : value) (flag : bool) (items : list dict)
    (flag' : bool) (lines : list (value * value * value)) :
  parser_products URL_BASE urljoin fetch parsed flag = (Ok items, flag', lines) ->
  Forall complete_record items
  /\ exists results ids,
       py_get parsed "results" (VDict []) = Ok results
       /\ py_iter results = Ok ids
       /\ (List.length items <= List.length ids)%nat.
Proof.
  unfold parser_products.
  destruct (py_get parsed "results" (VDict [])) as [results|]; cbn [bind]; [|discriminate].
  destruct (py_iter results) as [ids|] eqn:Ei; [|discriminate].
  intros H. apply collect_products_complete in H; [|constructor].
  destruct H as [H1 H2]. split; auto.
  exists results, ids. split; [reflexivity|]. split; [exact Ei|]. exact H2.
Qed.

Lemma parser_products_complete_witness :
  exists items,
    fst (fst (parser_products "https://tienda/" append one_product
                (VDict [("results", VDict [("10032", VDict []); ("2", VDict [])])]) false))
    = Ok items
    /\ List.length items = 1%nat
    /\ Forall complete_record items.
Proof.
  eexists. split; [vm_compute; reflexivity|]. split; [reflexivity|].
  eapply (parser_products_complete "https://tienda/" append one_product
            (VDict [("results", VDict [("10032", VDict []); ("2", VDict [])])]) false).
  vm_compute. reflexivity.
Defined.

(** ** What can leave the price handlers *)

Lemma to_float_raises (n : num) (e : exn) : to_float n = Raise e -> e = OverflowError.
Proof.
  destruct n as [z|f]; [|discriminate]. unfold to_float, float_of_int.
  destruct (float_of_Z_raw z); intros H; inversion H; reflexivity.
Qed.

Lemma float_binop_raises (x y : num) (op : float -> float -> float) (e : exn) :
  (fx <- to_float x ;; fy <- to_float y ;; Ok (VFloat (op fx fy))) = Raise e ->
  e = OverflowError.
Proof.
  destruct (to_float x) as [fx|e1] eqn:E1; cbn [bind].
  - destruct (to_float y) as [fy|e2] eqn:E2; cbn [bind]; [discriminate|].
    intros H. inversion H; subst. eapply to_float_raises; eauto.
  - intros H. inversion H; subst. eapply to_float_raises; eauto.
Qed.

Lemma py_mul_raises (a b : value) (e : exn) :
  py_mul a b = Raise e -> e = TypeError \/ e = OverflowError.
Proof.
  destruct a as [|x|x|x|x|x|x], b as [|y|y|y|y|y|y]; unfold py_mul;
    cbn [as_num is_intlike];
    try (intros H; inversion H; auto; fail);
    intros H; right; eapply float_binop_raises; exact H.
Qed.

Lemma py_truediv_raises (a b : value) (e : exn) :
  py_truediv a b = Raise e -> caught e = true \/ e = OverflowError.
Proof.
  unfold py_truediv.
  assert (Hf : forall x y,
             (fx <- to_float x ;; fy <- to_float y ;;
              if f_is_zero fy then Raise ZeroDivisionError
              else Ok (VFloat (fdiv fx fy))) = Raise e ->
             caught e = true \/ e = OverflowError).
  { intros x y.
    destruct (to_float x) as [fx|e1] eqn:E1; cbn [bind].
    - destruct (to_float y) as [fy|e2] eqn:E2; cbn [bind].
      + destruct (f_is_zero fy); intros H; inversion H. auto.
      + intros H. inversion H; subst. right. eapply to_float_raises; eauto.
    - intros H. inversion H; subst. right. eapply to_float_raises; eauto. }
  destruct (as_num a) as [[x|fx]|]; destruct (as_num b) as [[y|fy]|];
    try apply Hf; try (intros H; inversion H; auto; fail).
  destruct (y =? 0); [intros H; inversion H; auto|].
  destruct (float_of_ratio _ _ _); intros H; inversion H. auto.
Qed.

Lemma py_round2_raises (v : value) (e : exn) : py_round2 v = Raise e -> e = TypeError.
Proof. destruct v; intros H; inversion H; reflexivity. Qed.

Lemma py_float_raises (v : value) (e : exn) :
  py_float v = Raise e ->
  e = TypeError \/ e = OverflowError
  \/ (e = ValueError /\ exists s, v = VStr s /\ float_of_string s = None).
Proof.
  destruct v as [| | z | | s | |]; cbn [py_float];
    try (intros H; inversion H; auto; fail).
  - unfold float_of_int. destruct (float_of_Z_raw z); cbn [bind];
      intros H; inversion H; auto.
  - destruct (float_of_string s) eqn:E; intros H; inversion H. eauto 8.
Qed.

Lemma extract_grams_raises (d : value) (e : exn) :
  _extract_grams d = Raise e -> e = TypeError.
Proof.
  destruct d as [| | | | s | |]; try (intros H; inversion H; reflexivity).
  destruct (extract_grams_str s) as (v & -> & _). discriminate.
Qed.

(** X25.  What can leave the unit-price handler once the alternate price
    lookup has resolved: never a TypeError, a division by zero, a KeyError
    or an IndexError, but only an OverflowError of a conversion, an
    AttributeError for a measuring unit that is not a dict, or a
    ValueError - and that one only when the record's "units" is a string
    that [float] rejects. *)
Theorem kg_gross_escapes (val : value) (items : dict) (flag : bool) (result alt : value)
    (e : exn) :
  get_value result net_price_path = Ok alt ->
  _handle_kg_gross val items flag result = Raise e ->
  e = OverflowError
  \/ (e = AttributeError
      /\ truthy (dict_get items "measuringUnit" VNone) = true
      /\ is_dict (dict_get items "measuringUnit" VNone) = false)
  \/ (e = ValueError
      /\ exists s, dict_get items "units" (VInt 1) = VStr s /\ float_of_string s = None).
Proof.
  intros Ha. unfold _handle_kg_gross.
  destruct (is_none val); [|discriminate].
  rewrite Ha. cbn [bind]. destruct (is_int_or_float alt); [discriminate|].
  destruct (unit_price_fallback items) as [p|e0] eqn:Ef; cbn [bind try_except];
    [discriminate|].
  destruct (caught e0) eqn:Ec; [discriminate|].
  intros H. inversion H; subst e0; clear H.
  revert Ef. unfold unit_price_fallback.
  destruct (truthy (dict_get items "measuringUnit" VNone)) eqn:Et.
  - destruct (dict_get items "measuringUnit" (VDict [])) as [| | | | | |mu] eqn:Em;
      cbn [py_get bind];
      try (intros H; inversion H; subst; right; left;
           repeat split; auto;
           unfold dict_get in *; destruct (dict_lookup "measuringUnit" items);
           [subst; reflexivity | discriminate Et]; fail).
    revert Ec. generalize (dict_get mu "value" (VInt 1)). intros mv Ec.
    destruct (py_float (dict_get items "units" (VInt 1))) as [u|e1] eqn:Eu; cbn [bind].
    2:{ intros H. inversion H; subst.
        destruct (py_float_raises _ _ Eu) as [->|[->|[-> Hs]]]; auto. discriminate Ec. }
    destruct (py_mul mv u) as [uc|e1] eqn:Emul; cbn [bind].
    2:{ intros H. inversion H; subst.
        destruct (py_mul_raises _ _ _ Emul) as [->| ->]; auto. discriminate Ec. }
    destruct (_extract_grams _) as [g|e1] eqn:Eg; cbn [bind].
    2:{ intros H. inversion H; subst.
        rewrite (extract_grams_raises _ _ Eg) in Ec. discriminate Ec. }
    destruct (py_mul _ (VInt 1000)) as [t|e1] eqn:Et1; cbn [bind].
    2:{ intros H. inversion H; subst.
        destruct (py_mul_raises _ _ _ Et1) as [->| ->]; auto. discriminate Ec. }
    destruct (py_mul g uc) as [w|e1] eqn:Ew; cbn [bind].
    2:{ intros H. inversion H; subst.
        destruct (py_mul_raises _ _ _ Ew) as [->| ->]; auto. discriminate Ec. }
    destruct (py_truediv t w) as [q|e1] eqn:Eq; cbn [bind].
    2:{ intros H. inversion H; subst.
        destruct (py_truediv_raises _ _ _ Eq) as [Hc| ->]; auto. congruence. }
    intros H. rewrite (py_round2_raises _ _ H) in Ec. discriminate Ec.
  - cbn [bind].
    destruct (py_float (dict_get items "units" (VInt 1))) as [u|e1] eqn:Eu; cbn [bind].
    2:{ intros H. inversion H; subst.
        destruct (py_float_raises _ _ Eu) as [->|[->|[-> Hs]]]; auto. discriminate Ec. }
    destruct (py_mul (VInt 1) u) as [uc|e1] eqn:Emul; cbn [bind].
    2:{ intros H. inversion H; subst.
        destruct (py_mul_raises _ _ _ Emul) as [->| ->]; auto. discriminate Ec. }
    destruct (_extract_grams _) as [g|e1] eqn:Eg; cbn [bind].
    2:{ intros H. inversion H; subst.
        rewrite (extract_grams_raises _ _ Eg) in Ec. discriminate Ec. }
    destruct (py_mul _ (VInt 1000)) as [t|e1] eqn:Et1; cbn [bind].
    2:{ intros H. inversion H; subst.
        destruct (py_mul_raises _ _ _ Et1) as [->| ->]; auto. discriminate Ec. }
    destruct (py_mul g uc) as [w|e1] eqn:Ew; cbn [bind].
    2:{ intros H. inversion H; subst.
        destruct (py_mul_raises _ _ _ Ew) as [->| ->]; auto. discriminate Ec. }
    destruct (py_truediv t w) as [q|e1] eqn:Eq; cbn [bind].
    2:{ intros H. inversion H; subst.
        destruct (py_truediv_raises _ _ _ Eq) as [Hc| ->]; auto. congruence. }
    intros H. rewrite (py_round2_raises _ _ H) in Ec. discriminate Ec.
Qed.

Lemma kg_gross_escapes_witness :
  ValueError = OverflowError
  \/ (ValueError = AttributeError
      /\ truthy (dict_get [("units", empty)] "measuringUnit" VNone) = true
      /\ is_dict (dict_get [("units", empty)] "measuringUnit" VNone) = false)
  \/ (ValueError = ValueError
      /\ exists s, dict_get [("units", empty)] "units" (VInt 1) = VStr s
                   /\ float_of_string s = None).
Proof.
  apply (kg_gross_escapes VNone [("units", empty)] false (VDict []) empty ValueError);
    reflexivity.
Defined.
